(** * itlg-calculator: valuation and projection engine

    A shallow embedding of the engine of [src/pages/index.tsx] and of its
    near-duplicate [src/unnamed/part_000]: [parseNumber], [compute] and
    [fetchExchangeRate], over a model of the parts of the ECMAScript
    runtime they call (IEEE-754 doubles, UTF-16 strings, [Number],
    [String.prototype.trim], [Math.ceil], [Date]). *)

From Stdlib Require Import ZArith List Bool Lia String Ascii.
From Stdlib Require Import Floats.SpecFloat.
Import ListNotations.
Set Warnings "-register-all".
Local Open Scope string_scope.
Local Open Scope list_scope.
Local Open Scope Z_scope.

(** ** The runtime *)

Module JS.

(** *** Numbers: IEEE-754 binary64 *)

Definition prec : Z := 53.
Definition emax : Z := 1024.

Definition float := spec_float.

Definition NaN : float := S754_nan.
Definition pzero : float := S754_zero false.
Definition mul : float -> float -> float := SFmul prec emax.
Definition add : float -> float -> float := SFadd prec emax.
Definition sub : float -> float -> float := SFsub prec emax.
Definition div : float -> float -> float := SFdiv prec emax.

(** [x < y], [x <= y], [x > y] and [x == y] on numbers: false whenever an
    operand is NaN. *)
Definition ltb (x y : float) : bool := SFltb x y.
Definition leb (x y : float) : bool := SFleb x y.
Definition gtb (x y : float) : bool := SFltb y x.
Definition eqb (x y : float) : bool := SFeqb x y.

(** The Number value for an integer (round to nearest, ties to even). *)
Definition of_Z (z : Z) : float := binary_normalize prec emax z 0 false.

(** [Number.isNaN] and [Number.isFinite]. *)
Definition Number_isNaN (x : float) : bool :=
  match x with S754_nan => true | _ => false end.

Definition Number_isFinite (x : float) : bool :=
  match x with
  | S754_zero _ | S754_finite _ _ _ => true
  | _ => false
  end.

(** [Math.ceil]: NaN, the infinities and the zeros are returned unchanged;
    a number in (-1, 0) gives -0. *)
Definition Math_ceil (x : float) : float :=
  match x with
  | S754_finite s m e =>
      if 0 <=? e then x
      else
        let c := - ((- cond_Zopp s (Zpos m)) / 2 ^ (- e)) in
        if c =? 0 then S754_zero s else of_Z c
  | _ => x
  end.

(** A double that holds a mathematical integer. *)
Definition is_integer (x : float) : bool :=
  match x with
  | S754_zero _ => true
  | S754_finite _ m e => (0 <=? e) || (Zpos m mod 2 ^ (- e) =? 0)
  | _ => false
  end.

(** *** Strings: sequences of UTF-16 code units *)

Definition jsstring := list N.

Definition lit (s : string) : jsstring :=
  map N_of_ascii (list_ascii_of_string s).

Fixpoint str_eqb (a b : jsstring) : bool :=
  match a, b with
  | [], [] => true
  | x :: a', y :: b' => N.eqb x y && str_eqb a' b'
  | _, _ => false
  end.

(** WhiteSpace and LineTerminator code points (all in the BMP). *)
Definition is_white (c : N) : bool :=
  existsb (N.eqb c)
    [9; 10; 11; 12; 13; 32; 160; 5760; 8232; 8233; 8239; 8287; 12288; 65279]%N
  || (N.leb 8192 c && N.leb c 8202).

Fixpoint trimStart (s : jsstring) : jsstring :=
  match s with
  | c :: s' => if is_white c then trimStart s' else s
  | [] => []
  end.

(** [String.prototype.trim]. *)
Definition trim (s : jsstring) : jsstring :=
  rev (trimStart (rev (trimStart s))).

(** [s.replace(/,/g, "")]. *)
Definition comma : N := 44%N.

Definition removeCommas (s : jsstring) : jsstring :=
  filter (fun c => negb (N.eqb c comma)) s.

(** *** StringToNumber *)

Definition digit_val (radix : N) (c : N) : option N :=
  let v :=
    if (N.leb 48 c && N.leb c 57)%N then Some (c - 48)%N
    else if (N.leb 97 c && N.leb c 102)%N then Some (c - 87)%N
    else if (N.leb 65 c && N.leb c 70)%N then Some (c - 55)%N
    else None in
  match v with
  | Some d => if (d <? radix)%N then Some d else None
  | None => None
  end.

(** Longest prefix of digits of the radix, and the rest. *)
Fixpoint span_digits (radix : N) (s : jsstring) : list N * jsstring :=
  match s with
  | c :: s' =>
      match digit_val radix c with
      | Some d => let '(ds, r) := span_digits radix s' in (d :: ds, r)
      | None => ([], s)
      end
  | [] => ([], [])
  end.

Definition digits_value (radix : N) (ds : list N) : Z :=
  fold_left (fun acc d => acc * Z.of_N radix + Z.of_N d) ds 0.

(** The double nearest to [(-1)^s * n * 10^e10], ties to even. *)
Definition of_decimal (s : bool) (n : Z) (e10 : Z) : float :=
  match n with
  | Zpos p =>
      if 0 <=? e10 then
        binary_normalize prec emax (cond_Zopp s (Zpos p * 10 ^ e10)) 0 s
      else
        match 10 ^ (- e10) with
        | Zpos d => SFdiv prec emax (S754_finite s p 0) (S754_finite false d 0)
        | _ => NaN
        end
  | _ => S754_zero s
  end.

(** NonDecimalIntegerLiteral: [0b], [0o], [0x] with at least one digit. *)
Definition nonDecimalLiteral (s : jsstring) : option float :=
  match s with
  | 48%N :: p :: rest =>
      let radix :=
        if (N.eqb p 98 || N.eqb p 66)%N then Some 2%N
        else if (N.eqb p 111 || N.eqb p 79)%N then Some 8%N
        else if (N.eqb p 120 || N.eqb p 88)%N then Some 16%N
        else None in
      match radix with
      | Some r =>
          match span_digits r rest with
          | ((_ :: _) as ds, []) => Some (of_Z (digits_value r ds))
          | _ => None
          end
      | None => None
      end
  | _ => None
  end.

(** ExponentPart_opt at the end of the literal. *)
Definition exponentPart (s : jsstring) : option Z :=
  match s with
  | [] => Some 0
  | c :: s1 =>
      if (N.eqb c 101 || N.eqb c 69)%N then
        let '(neg, s2) :=
          match s1 with
          | 43%N :: r => (false, r)
          | 45%N :: r => (true, r)
          | _ => (false, s1)
          end in
        match span_digits 10 s2 with
        | ((_ :: _) as ds, []) => Some (cond_Zopp neg (digits_value 10 ds))
        | _ => None
        end
      else None
  end.

(** StrUnsignedDecimalLiteral, with the sign already read. *)
Definition unsignedDecimalLiteral (sign : bool) (s : jsstring) : option float :=
  if str_eqb s (lit "Infinity") then Some (S754_infinity sign)
  else
    let '(ip, r1) := span_digits 10 s in
    let '(fp, r2) :=
      match r1 with
      | 46%N :: r => span_digits 10 r
      | _ => ([], r1)
      end in
    match ip, fp with
    | [], [] => None
    | _, _ =>
        match exponentPart r2 with
        | Some ex =>
            Some (of_decimal sign (digits_value 10 (ip ++ fp))
                    (ex - Z.of_nat (List.length fp)))
        | None => None
        end
    end.

Definition decimalLiteral (s : jsstring) : option float :=
  match s with
  | 43%N :: r => unsignedDecimalLiteral false r
  | 45%N :: r => unsignedDecimalLiteral true r
  | _ => unsignedDecimalLiteral false s
  end.

(** [Number(s)] for a string [s]. *)
Definition Number (s : jsstring) : float :=
  match trim s with
  | [] => pzero
  | t =>
      match nonDecimalLiteral t with
      | Some x => x
      | None =>
          match decimalLiteral t with
          | Some x => x
          | None => NaN
          end
      end
  end.

(** *** Number::toString (radix 10) *)

Definition float_same (x y : float) : bool :=
  match x, y with
  | S754_zero a, S754_zero b => Bool.eqb a b
  | S754_infinity a, S754_infinity b => Bool.eqb a b
  | S754_nan, S754_nan => true
  | S754_finite a m e, S754_finite b m' e' =>
      Bool.eqb a b && Pos.eqb m m' && Z.eqb e e'
  | _, _ => false
  end.

Fixpoint dec_digits (fuel : nat) (n : Z) : jsstring :=
  match fuel with
  | O => []
  | S fuel' =>
      if n <? 10 then [Z.to_N (48 + n)]
      else dec_digits fuel' (n / 10) ++ [Z.to_N (48 + n mod 10)]
  end.

(** Decimal digits of a non-negative integer. *)
Definition dec (n : Z) : jsstring := dec_digits (S (Z.to_nat (Z.log2 n))) n.

(** [x / 10^t] as a fraction, for [x = m * 2^e]. *)
Definition scaled (m : positive) (e t : Z) : Z * Z :=
  let num := Zpos m * 2 ^ Z.max 0 e * 10 ^ Z.max 0 (- t) in
  let den := 2 ^ Z.max 0 (- e) * 10 ^ Z.max 0 t in
  (num, den).

(** Largest [p] with [10^p <= m * 2^e], searched upwards from a lower
    estimate. *)
Fixpoint log10_up (fuel : nat) (m : positive) (e p : Z) : Z :=
  match fuel with
  | O => p
  | S fuel' =>
      let '(num, den) := scaled m e (p + 1) in
      if den <=? num then log10_up fuel' m e (p + 1) else p
  end.

Definition log10_floor (m : positive) (e : Z) : Z :=
  log10_up 4 m e ((Zpos (digits2_pos m) + e - 1) * 30103 / 100000 - 1).

(** The candidates [(s, n)] with [k] digits around [x = m * 2^e], nearest
    first, where [10^(n0 - 1) <= x < 10^n0]. *)
Definition candidates (m : positive) (e n0 k : Z) : list (Z * Z) :=
  let '(num, den) := scaled m e (n0 - k) in
  let lo := num / den in
  let r := num mod den in
  let up := if lo + 1 =? 10 ^ k then (10 ^ (k - 1), n0 + 1) else (lo + 1, n0) in
  if r =? 0 then [(lo, n0)]
  else if 2 * r <? den then [(lo, n0); up]
  else if den <? 2 * r then [up; (lo, n0)]
  else if Z.even lo then [(lo, n0); up] else [up; (lo, n0)].

(** The shortest decimal [s * 10^(n - k)] that reads back as [x]. *)
Fixpoint shortest (fuel : nat) (m : positive) (e n0 k : Z) : Z * Z * Z :=
  let ok := fun c : Z * Z =>
    float_same (of_decimal false (fst c) (snd c - k)) (S754_finite false m e) in
  match fuel with
  | O => (1, 1, 1)
  | S fuel' =>
      match filter ok (candidates m e n0 k) with
      | (s, n) :: _ => (n, k, s)
      | [] => shortest fuel' m e n0 (k + 1)
      end
  end.

Definition zeros (n : Z) : jsstring := repeat 48%N (Z.to_nat n).

Definition Number_toString (x : float) : jsstring :=
  match x with
  | S754_nan => lit "NaN"
  | S754_zero _ => lit "0"
  | S754_infinity s => (if s then lit "-" else []) ++ lit "Infinity"
  | S754_finite sg m e =>
      let '(n, k, s) := shortest 17 m e (log10_floor m e + 1) 1 in
      let ds := dec s in
      (if sg then lit "-" else []) ++
      (if (k <=? n) && (n <=? 21) then ds ++ zeros (n - k)
       else if (0 <? n) && (n <=? 21) then
         firstn (Z.to_nat n) ds ++ lit "." ++ skipn (Z.to_nat n) ds
       else if (-6 <? n) && (n <=? 0) then lit "0." ++ zeros (- n) ++ ds
       else
         let ex := (if 0 <=? n - 1 then lit "+" else lit "-")
                   ++ dec (Z.abs (n - 1)) in
         match ds with
         | [d] => [d] ++ lit "e" ++ ex
         | d :: rest => [d] ++ lit "." ++ rest ++ lit "e" ++ ex
         | [] => []
         end)
  end.

(** [Math.max] of two numbers. *)
Definition Math_max (x y : float) : float :=
  if Number_isNaN x || Number_isNaN y then NaN
  else if ltb x y then y
  else if ltb y x then x
  else match x, y with
       | S754_zero true, S754_zero false => y
       | _, _ => x
       end.

(** *** Dates

    Time values are integral milliseconds since the epoch.  The clock,
    the local time zone and the date parser belong to the host. *)

Record Host := {
  (** the time value of [new Date()] *)
  Date_now : Z;
  (** for a time value [t], the time value of 00:00:00.000 local time on
      the local day of [t], as [setHours(0,0,0,0)] computes it *)
  startOfLocalDay : Z -> Z;
  (** [Date.parse]; [None] is NaN (an Invalid Date) *)
  Date_parse : jsstring -> option Z
}.

Definition maxTime : Z := 8640000000000000.

Definition TimeClip (t : option Z) : float :=
  match t with
  | Some z => if Z.abs z <=? maxTime then of_Z z else NaN
  | None => NaN
  end.

(** [new Date(s).getTime()]. *)
Definition Date_getTime (h : Host) (s : jsstring) : float :=
  TimeClip (Date_parse h s).

(** [today.setHours(0,0,0,0)] for [today = new Date()]. *)
Definition today_setHours0 (h : Host) : float :=
  TimeClip (Some (startOfLocalDay h (Date_now h))).

(** *** JSON values, as [response.json()] resolves to them *)

Inductive json :=
| JNull
| JBool (b : bool)
| JNum (x : float)
| JStr (s : jsstring)
| JArr (items : list json)
| JObj (fields : list (jsstring * json)).

(** A language value read out of a JSON value: [None] is [undefined]. *)
Definition value := option json.

(** The result of an operation that may throw. *)
Inductive completion (A : Type) :=
| Normal (a : A)
| Throw.
Arguments Normal {A} a.
Arguments Throw {A}.

Fixpoint own (key : jsstring) (fields : list (jsstring * json)) : value :=
  match fields with
  | (k, v) :: rest => if str_eqb k key then Some v else own key rest
  | [] => None
  end.

(** [v.key] for a key that is neither an index, [length] nor a property
    of a built-in prototype (here [rates] and [IDR]): reading a property
    of [undefined] or [null] throws a TypeError, only an object has own
    properties with such names. *)
Definition getProp (v : value) (key : jsstring) : completion value :=
  match v with
  | None | Some JNull => Throw
  | Some (JObj fields) => Normal (own key fields)
  | Some _ => Normal None
  end.

(** ToBoolean. *)
Definition truthy (v : value) : bool :=
  match v with
  | None | Some JNull => false
  | Some (JBool b) => b
  | Some (JNum x) =>
      match x with S754_zero _ | S754_nan => false | _ => true end
  | Some (JStr s) => match s with [] => false | _ => true end
  | Some (JArr _) | Some (JObj _) => true
  end.

(** [v.toString()].  A number, string or boolean uses its prototype's
    method; an array joins the strings of its elements with commas
    ([null] gives the empty string); an object gives [[object Object]]
    unless an own property [toString] shadows the inherited method with a
    value that cannot be called, which throws. *)
Fixpoint toStringCall (v : json) : completion jsstring :=
  match v with
  | JNull => Throw
  | JBool b => Normal (if b then lit "true" else lit "false")
  | JNum x => Normal (Number_toString x)
  | JStr s => Normal s
  | JArr items =>
      (fix join (l : list json) : completion jsstring :=
         match l with
         | [] => Normal []
         | x :: rest =>
             let sx := match x with JNull => Normal [] | _ => toStringCall x end in
             match sx, rest with
             | Throw, _ => Throw
             | Normal a, [] => Normal a
             | Normal a, _ :: _ =>
                 match join rest with
                 | Normal b => Normal (a ++ [comma] ++ b)
                 | Throw => Throw
                 end
             end
         end) items
  | JObj fields =>
      match own (lit "toString") fields with
      | Some _ => Throw
      | None => Normal (lit "[object Object]")
      end
  end.

(** How [fetch] followed by [response.json()] can end. *)
Inductive Response :=
| NetworkError
| MalformedBody
| Body (data : json).

End JS.

Import JS.

(** ** The engine *)

(** [type Result], declared alike by both files; an optional field that
    is absent is [None]. *)
Record Result := {
  totalUSDT : float;
  totalIDR : float;
  projectedUSDT : option float;
  projectedIDR : option float;
  daysProjected : option float
}.

(** The four messages [compute] passes to [setError], shared by both
    files.  The arrow of the last one is U+2192. *)
Definition msgPrice : jsstring :=
  lit "Masukkan harga per koin (USDT) yang valid.".
Definition msgCoins : jsstring :=
  lit "Masukkan jumlah koin yang valid.".
Definition msgDaily : jsstring :=
  lit "Masukkan jumlah koin harian yang valid (0 jika tidak ingin proyeksi).".
Definition msgRate : jsstring :=
  lit "Masukkan kurs USD" ++ [8594%N] ++ lit "IDR yang valid (misal 15000).".

(** *** src/pages/index.tsx *)

Module Pages.

(** The [useState] cells of the component that the engine reads or
    writes. *)
Record State := {
  pricePerCoin : jsstring;
  currentCoins : jsstring;
  dailyCoins : jsstring;
  endDate : jsstring;
  usdToIdr : jsstring;
  result : option Result;
  error : jsstring;
  isCalculating : bool
}.

Definition initial : State :=
  {| pricePerCoin := lit "0.4796"; currentCoins := []; dailyCoins := [];
     endDate := []; usdToIdr := lit "16000"; result := None; error := [];
     isCalculating := false |}.

Definition setResult (r : option Result) (st : State) : State :=
  {| pricePerCoin := pricePerCoin st; currentCoins := currentCoins st;
     dailyCoins := dailyCoins st; endDate := endDate st;
     usdToIdr := usdToIdr st; result := r; error := error st;
     isCalculating := isCalculating st |}.

Definition setError (e : jsstring) (st : State) : State :=
  {| pricePerCoin := pricePerCoin st; currentCoins := currentCoins st;
     dailyCoins := dailyCoins st; endDate := endDate st;
     usdToIdr := usdToIdr st; result := result st; error := e;
     isCalculating := isCalculating st |}.

Definition setIsCalculating (b : bool) (st : State) : State :=
  {| pricePerCoin := pricePerCoin st; currentCoins := currentCoins st;
     dailyCoins := dailyCoins st; endDate := endDate st;
     usdToIdr := usdToIdr st; result := result st; error := error st;
     isCalculating := b |}.

Definition parseNumber (v : jsstring) : float :=
  match v with
  | [] => pzero
  | _ =>
      let cleaned := trim (removeCommas v) in
      let n := Number cleaned in
      if Number_isFinite n then n else NaN
  end.

(** [compute]: the state after the call has settled.  The 800 ms pause
    changes nothing the function reads: the inputs are those of the
    render that created the closure. *)
Definition compute (h : Host) (st0 : State) : State :=
  let st := setIsCalculating true (setError [] st0) in
  let price := parseNumber (pricePerCoin st0) in
  let coins := parseNumber (currentCoins st0) in
  let daily := parseNumber (dailyCoins st0) in
  let rate := parseNumber (usdToIdr st0) in
  if Number_isNaN price || ltb price pzero then
    setError msgPrice (setIsCalculating false st)
  else if Number_isNaN coins || ltb coins pzero then
    setError msgCoins (setIsCalculating false st)
  else if Number_isNaN daily || ltb daily pzero then
    setError msgDaily (setIsCalculating false st)
  else if Number_isNaN rate || leb rate pzero then
    setError msgRate (setIsCalculating false st)
  else
    let totalUSDT := mul price coins in
    let totalIDR := mul totalUSDT rate in
    let res :=
      {| totalUSDT := totalUSDT; totalIDR := totalIDR;
         projectedUSDT := None; projectedIDR := None;
         daysProjected := None |} in
    let res :=
      if gtb daily pzero && negb (str_eqb (endDate st0) []) then
        let end_ := Date_getTime h (endDate st0 ++ lit "T00:00:00") in
        let msPerDay :=
          mul (mul (mul (of_Z 1000) (of_Z 60)) (of_Z 60)) (of_Z 24) in
        let diff := Math_ceil (div (sub end_ (today_setHours0 h)) msPerDay) in
        let daysProjected := if gtb diff pzero then diff else pzero in
        let addedCoins := mul daily daysProjected in
        let projectedCoinsTotal := add coins addedCoins in
        let projectedUSDT := mul projectedCoinsTotal price in
        let projectedIDR := mul projectedUSDT rate in
        {| totalUSDT := totalUSDT; totalIDR := totalIDR;
           projectedUSDT := Some projectedUSDT;
           projectedIDR := Some projectedIDR;
           daysProjected := Some daysProjected |}
      else res in
    setIsCalculating false (setResult (Some res) st).

(** The [onChange] handlers of the five inputs. *)
Definition setPricePerCoin (v : jsstring) (st : State) : State :=
  {| pricePerCoin := v; currentCoins := currentCoins st;
     dailyCoins := dailyCoins st; endDate := endDate st;
     usdToIdr := usdToIdr st; result := result st; error := error st;
     isCalculating := isCalculating st |}.

Definition setCurrentCoins (v : jsstring) (st : State) : State :=
  {| pricePerCoin := pricePerCoin st; currentCoins := v;
     dailyCoins := dailyCoins st; endDate := endDate st;
     usdToIdr := usdToIdr st; result := result st; error := error st;
     isCalculating := isCalculating st |}.

Definition setDailyCoins (v : jsstring) (st : State) : State :=
  {| pricePerCoin := pricePerCoin st; currentCoins := currentCoins st;
     dailyCoins := v; endDate := endDate st;
     usdToIdr := usdToIdr st; result := result st; error := error st;
     isCalculating := isCalculating st |}.

Definition setEndDate (v : jsstring) (st : State) : State :=
  {| pricePerCoin := pricePerCoin st; currentCoins := currentCoins st;
     dailyCoins := dailyCoins st; endDate := v;
     usdToIdr := usdToIdr st; result := result st; error := error st;
     isCalculating := isCalculating st |}.

Definition setUsdToIdr (v : jsstring) (st : State) : State :=
  {| pricePerCoin := pricePerCoin st; currentCoins := currentCoins st;
     dailyCoins := dailyCoins st; endDate := endDate st;
     usdToIdr := v; result := result st; error := error st;
     isCalculating := isCalculating st |}.

Definition resetAll (st : State) : State :=
  setError []
    (setResult None
       (setUsdToIdr (lit "15000")
          (setEndDate []
             (setDailyCoins (lit "0")
                (setCurrentCoins (lit "0")
                   (setPricePerCoin (lit "0.4796") st)))))).

(** The handler of the sample-data button.  [sampleEnd] is the string
    the runtime gives for [sampleEnd.toISOString().slice(0, 10)], a month
    after [new Date()]. *)
Definition sampleData (sampleEnd : jsstring) (st : State) : State :=
  setEndDate sampleEnd
    (setDailyCoins (lit "180")
       (setCurrentCoins (lit "8578")
          (setPricePerCoin (lit "0.4796") st))).

(** [compute] in its two parts.  Up to the pause it clears the message
    and raises the flag. *)
Definition computeStart (st : State) : State :=
  setIsCalculating true (setError [] st).

(** After the pause it reads the inputs of the render that created the
    closure, [snap], and calls the setters on the state as it then is,
    [cur]. *)
Definition computeFinish (h : Host) (snap cur : State) : State :=
  let price := parseNumber (pricePerCoin snap) in
  let coins := parseNumber (currentCoins snap) in
  let daily := parseNumber (dailyCoins snap) in
  let rate := parseNumber (usdToIdr snap) in
  if Number_isNaN price || ltb price pzero then
    setError msgPrice (setIsCalculating false cur)
  else if Number_isNaN coins || ltb coins pzero then
    setError msgCoins (setIsCalculating false cur)
  else if Number_isNaN daily || ltb daily pzero then
    setError msgDaily (setIsCalculating false cur)
  else if Number_isNaN rate || leb rate pzero then
    setError msgRate (setIsCalculating false cur)
  else
    let totalUSDT := mul price coins in
    let totalIDR := mul totalUSDT rate in
    let res :=
      {| totalUSDT := totalUSDT; totalIDR := totalIDR;
         projectedUSDT := None; projectedIDR := None;
         daysProjected := None |} in
    let res :=
      if gtb daily pzero && negb (str_eqb (endDate snap) []) then
        let end_ := Date_getTime h (endDate snap ++ lit "T00:00:00") in
        let msPerDay :=
          mul (mul (mul (of_Z 1000) (of_Z 60)) (of_Z 60)) (of_Z 24) in
        let diff := Math_ceil (div (sub end_ (today_setHours0 h)) msPerDay) in
        let daysProjected := if gtb diff pzero then diff else pzero in
        let addedCoins := mul daily daysProjected in
        let projectedCoinsTotal := add coins addedCoins in
        let projectedUSDT := mul projectedCoinsTotal price in
        let projectedIDR := mul projectedUSDT rate in
        {| totalUSDT := totalUSDT; totalIDR := totalIDR;
           projectedUSDT := Some projectedUSDT;
           projectedIDR := Some projectedIDR;
           daysProjected := Some daysProjected |}
      else res in
    setIsCalculating false (setResult (Some res) cur).

(** What can happen to the form. *)
Inductive Field := FPrice | FCoins | FDaily | FDate | FRate.

Inductive Event :=
| Edit (f : Field) (v : jsstring)
| ClickCompute
| Settle (h : Host)
| ClickReset
| ClickSample (sampleEnd : jsstring).

(** The form and the computations that wait for their pause to end, each
    with the inputs it was started on, oldest first. *)
Record Session := {
  ui : State;
  pending : list State
}.

Definition edit (f : Field) (v : jsstring) (st : State) : State :=
  match f with
  | FPrice => setPricePerCoin v st
  | FCoins => setCurrentCoins v st
  | FDaily => setDailyCoins v st
  | FDate => setEndDate v st
  | FRate => setUsdToIdr v st
  end.

(** One event.  The compute button is [disabled] while [isCalculating]
    holds, a click on it then does nothing; [Settle h] ends the pause of
    the oldest waiting computation, on the host as it is by then. *)
Definition step (s : Session) (e : Event) : Session :=
  match e with
  | Edit f v => {| ui := edit f v (ui s); pending := pending s |}
  | ClickCompute =>
      if isCalculating (ui s) then s
      else {| ui := computeStart (ui s); pending := pending s ++ [ui s] |}
  | Settle h =>
      match pending s with
      | snap :: rest => {| ui := computeFinish h snap (ui s); pending := rest |}
      | [] => s
      end
  | ClickReset => {| ui := resetAll (ui s); pending := pending s |}
  | ClickSample d => {| ui := sampleData d (ui s); pending := pending s |}
  end.

Definition run (s : Session) (es : list Event) : Session :=
  fold_left step es s.

Definition start : Session := {| ui := initial; pending := [] |}.

End Pages.

(** *** src/unnamed/part_000 *)

Module Part000.

Record State := {
  pricePerCoin : jsstring;
  currentCoins : jsstring;
  dailyCoins : jsstring;
  endDate : jsstring;
  usdToIdr : jsstring;
  result : option Result;
  error : jsstring;
  isCalculating : bool;
  isLoadingRate : bool;
  isPerformanceMode : bool
}.

Definition initial : State :=
  {| pricePerCoin := lit "0.4800"; currentCoins := []; dailyCoins := [];
     endDate := []; usdToIdr := []; result := None; error := [];
     isCalculating := false; isLoadingRate := false;
     isPerformanceMode := false |}.

Definition setUsdToIdr (r : jsstring) (st : State) : State :=
  {| pricePerCoin := pricePerCoin st; currentCoins := currentCoins st;
     dailyCoins := dailyCoins st; endDate := endDate st;
     usdToIdr := r; result := result st; error := error st;
     isCalculating := isCalculating st; isLoadingRate := isLoadingRate st;
     isPerformanceMode := isPerformanceMode st |}.

Definition setResult (r : option Result) (st : State) : State :=
  {| pricePerCoin := pricePerCoin st; currentCoins := currentCoins st;
     dailyCoins := dailyCoins st; endDate := endDate st;
     usdToIdr := usdToIdr st; result := r; error := error st;
     isCalculating := isCalculating st; isLoadingRate := isLoadingRate st;
     isPerformanceMode := isPerformanceMode st |}.

Definition setError (e : jsstring) (st : State) : State :=
  {| pricePerCoin := pricePerCoin st; currentCoins := currentCoins st;
     dailyCoins := dailyCoins st; endDate := endDate st;
     usdToIdr := usdToIdr st; result := result st; error := e;
     isCalculating := isCalculating st; isLoadingRate := isLoadingRate st;
     isPerformanceMode := isPerformanceMode st |}.

Definition setIsCalculating (b : bool) (st : State) : State :=
  {| pricePerCoin := pricePerCoin st; currentCoins := currentCoins st;
     dailyCoins := dailyCoins st; endDate := endDate st;
     usdToIdr := usdToIdr st; result := result st; error := error st;
     isCalculating := b; isLoadingRate := isLoadingRate st;
     isPerformanceMode := isPerformanceMode st |}.

Definition setIsLoadingRate (b : bool) (st : State) : State :=
  {| pricePerCoin := pricePerCoin st; currentCoins := currentCoins st;
     dailyCoins := dailyCoins st; endDate := endDate st;
     usdToIdr := usdToIdr st; result := result st; error := error st;
     isCalculating := isCalculating st; isLoadingRate := b;
     isPerformanceMode := isPerformanceMode st |}.

Definition msgFetch : jsstring :=
  lit "Gagal memuat kurs USD" ++ [8594%N] ++ lit "IDR. Gunakan nilai default.".

(** The body of the [try] block once [data] is there: the state after
    it, or the exception that leaves it. *)
Definition adoptRate (data : json) (st : State) : completion State :=
  match getProp (Some data) (lit "rates") with
  | Throw => Throw
  | Normal rates =>
      let cond :=
        if truthy rates then
          match getProp rates (lit "IDR") with
          | Normal idr => Normal (truthy idr, idr)
          | Throw => Throw
          end
        else Normal (false, None) in
      match cond with
      | Throw => Throw
      | Normal (true, Some idr) =>
          match toStringCall idr with
          | Normal s => Normal (setUsdToIdr s st)
          | Throw => Throw
          end
      | Normal (_, _) =>
          Normal (setUsdToIdr (lit "15000") (setError msgFetch st))
      end
  end.

(** [fetchExchangeRate], given how the request ended. *)
Definition fetchExchangeRate (r : Response) (st0 : State) : State :=
  let st := setIsLoadingRate true st0 in
  let caught := setUsdToIdr (lit "15000") (setError msgFetch st) in
  let st' :=
    match r with
    | NetworkError | MalformedBody => caught
    | Body data =>
        match adoptRate data st with
        | Normal st' => st'
        | Throw => caught
        end
    end in
  setIsLoadingRate false st'.

Definition parseNumber (v : jsstring) : float :=
  match v with
  | [] => pzero
  | _ =>
      let cleaned := trim (removeCommas v) in
      let n := Number cleaned in
      if Number_isFinite n then n else NaN
  end.

(** [currentValues], the memo over the four input cells. *)
Record Values := {
  price : float;
  coins : float;
  daily : float;
  rate : float
}.

Definition currentValues (st : State) : Values :=
  {| price := parseNumber (pricePerCoin st);
     coins := parseNumber (currentCoins st);
     daily := parseNumber (dailyCoins st);
     rate := parseNumber (usdToIdr st) |}.


Definition compute (h : Host) (st0 : State) : State :=
  let st := setIsCalculating true (setError [] st0) in
  let '{| price := price; coins := coins; daily := daily; rate := rate |} :=
    currentValues st0 in
  if Number_isNaN price || ltb price pzero then
    setError msgPrice (setIsCalculating false st)
  else if Number_isNaN coins || ltb coins pzero then
    setError msgCoins (setIsCalculating false st)
  else if Number_isNaN daily || ltb daily pzero then
    setError msgDaily (setIsCalculating false st)
  else if Number_isNaN rate || leb rate pzero then
    setError msgRate (setIsCalculating false st)
  else
    let totalUSDT := mul price coins in
    let totalIDR := mul totalUSDT rate in
    let res :=
      {| totalUSDT := totalUSDT; totalIDR := totalIDR;
         projectedUSDT := None; projectedIDR := None;
         daysProjected := None |} in
    let res :=
      if gtb daily pzero && negb (str_eqb (endDate st0) []) then
        let end_ := Date_getTime h (endDate st0 ++ lit "T00:00:00") in
        let msPerDay :=
          mul (mul (mul (of_Z 1000) (of_Z 60)) (of_Z 60)) (of_Z 24) in
        let diff := Math_ceil (div (sub end_ (today_setHours0 h)) msPerDay) in
        let daysProjected := if gtb diff pzero then diff else pzero in
        let addedCoins := mul daily daysProjected in
        let projectedCoinsTotal := add coins addedCoins in
        let projectedUSDT := mul projectedCoinsTotal price in
        let projectedIDR := mul projectedUSDT rate in
        {| totalUSDT := totalUSDT; totalIDR := totalIDR;
           projectedUSDT := Some projectedUSDT;
           projectedIDR := Some projectedIDR;
           daysProjected := Some daysProjected |}
      else res in
    setIsCalculating false (setResult (Some res) st).

Definition resetAll (st : State) : State :=
  {| pricePerCoin := lit "0.4796"; currentCoins := lit "0";
     dailyCoins := lit "0"; endDate := []; usdToIdr := lit "15000";
     result := None; error := [];
     isCalculating := isCalculating st; isLoadingRate := isLoadingRate st;
     isPerformanceMode := isPerformanceMode st |}.

(** [compute] in its two parts, as in index.tsx: up to the pause, and
    after it on the values of the render that created the closure,
    [snap], with the setters applied to the state as it then is, [cur]. *)
Definition computeStart (st : State) : State :=
  setIsCalculating true (setError [] st).

Definition computeFinish (h : Host) (snap cur : State) : State :=
  let '{| price := price; coins := coins; daily := daily; rate := rate |} :=
    currentValues snap in
  if Number_isNaN price || ltb price pzero then
    setError msgPrice (setIsCalculating false cur)
  else if Number_isNaN coins || ltb coins pzero then
    setError msgCoins (setIsCalculating false cur)
  else if Number_isNaN daily || ltb daily pzero then
    setError msgDaily (setIsCalculating false cur)
  else if Number_isNaN rate || leb rate pzero then
    setError msgRate (setIsCalculating false cur)
  else
    let totalUSDT := mul price coins in
    let totalIDR := mul totalUSDT rate in
    let res :=
      {| totalUSDT := totalUSDT; totalIDR := totalIDR;
         projectedUSDT := None; projectedIDR := None;
         daysProjected := None |} in
    let res :=
      if gtb daily pzero && negb (str_eqb (endDate snap) []) then
        let end_ := Date_getTime h (endDate snap ++ lit "T00:00:00") in
        let msPerDay :=
          mul (mul (mul (of_Z 1000) (of_Z 60)) (of_Z 60)) (of_Z 24) in
        let diff := Math_ceil (div (sub end_ (today_setHours0 h)) msPerDay) in
        let daysProjected := if gtb diff pzero then diff else pzero in
        let addedCoins := mul daily daysProjected in
        let projectedCoinsTotal := add coins addedCoins in
        let projectedUSDT := mul projectedCoinsTotal price in
        let projectedIDR := mul projectedUSDT rate in
        {| totalUSDT := totalUSDT; totalIDR := totalIDR;
           projectedUSDT := Some projectedUSDT;
           projectedIDR := Some projectedIDR;
           daysProjected := Some daysProjected |}
      else res in
    setIsCalculating false (setResult (Some res) cur).

(** [fetchExchangeRate] in its two parts: the flag goes up when the
    request leaves, the rest happens on the state as it is when the
    request ends. *)
Definition fetchStart (st : State) : State := setIsLoadingRate true st.

Definition fetchFinish (r : Response) (cur : State) : State :=
  let caught := setUsdToIdr (lit "15000") (setError msgFetch cur) in
  let st' :=
    match r with
    | NetworkError | MalformedBody => caught
    | Body data =>
        match adoptRate data cur with
        | Normal st' => st'
        | Throw => caught
        end
    end in
  setIsLoadingRate false st'.

(** [fillSampleData], up to the request it sends.  [sampleEnd] is the
    string the runtime gives for [sampleEnd.toISOString().slice(0, 10)],
    a month after [new Date()]. *)
Definition fillSampleData (sampleEnd : jsstring) (st : State) : State :=
  fetchStart
    {| pricePerCoin := lit "0.4796"; currentCoins := lit "8578";
       dailyCoins := lit "180"; endDate := sampleEnd;
       usdToIdr := usdToIdr st; result := result st; error := error st;
       isCalculating := isCalculating st; isLoadingRate := isLoadingRate st;
       isPerformanceMode := isPerformanceMode st |}.

(** The requests of a session.  The refresh button is [disabled] while
    [isLoadingRate] holds; the sample-data button sends a request
    whatever the flag says; the component sends one when it mounts. *)
Inductive Event :=
| ClickRefresh
| ClickSample (sampleEnd : jsstring)
| Arrive (r : Response)
| ClickReset
| EditRate (v : jsstring).

Record Session := {
  ui : State;
  inFlight : nat
}.

Definition step (s : Session) (e : Event) : Session :=
  match e with
  | ClickRefresh =>
      if isLoadingRate (ui s) then s
      else {| ui := fetchStart (ui s); inFlight := S (inFlight s) |}
  | ClickSample d =>
      {| ui := fillSampleData d (ui s); inFlight := S (inFlight s) |}
  | Arrive r =>
      match inFlight s with
      | S n => {| ui := fetchFinish r (ui s); inFlight := n |}
      | O => s
      end
  | ClickReset => {| ui := resetAll (ui s); inFlight := inFlight s |}
  | EditRate v => {| ui := setUsdToIdr v (ui s); inFlight := inFlight s |}
  end.

Definition run (s : Session) (es : list Event) : Session :=
  fold_left step es s.

(** The component once mounted: the effect has sent the first request. *)
Definition mounted : Session := {| ui := fetchStart initial; inFlight := 1 |}.

End Part000.

(** ** A host in a zone with a fixed offset from UTC

    The date parser recognises the date-time form [YYYY-MM-DDTHH:mm:ss],
    read as local time, which is what the date input of the form gives
    once [compute] has appended the time; it rejects every other string. *)

Module FixedZone.

Definition msPerDay : Z := 86400000.

Definition isLeap (y : Z) : bool :=
  (y mod 4 =? 0) && (negb (y mod 100 =? 0) || (y mod 400 =? 0)).

Definition daysInMonth (y m : Z) : Z :=
  if m =? 2 then (if isLeap y then 29 else 28)
  else if (m =? 4) || (m =? 6) || (m =? 9) || (m =? 11) then 30
  else 31.

(** Days from 1970-01-01 to the given day of the proleptic Gregorian
    calendar. *)
Definition daysFromCivil (y m d : Z) : Z :=
  let y' := if m <=? 2 then y - 1 else y in
  let era := y' / 400 in
  let yoe := y' - era * 400 in
  let mp := if 2 <? m then m - 3 else m + 9 in
  let doy := (153 * mp + 2) / 5 + d - 1 in
  let doe := yoe * 365 + yoe / 4 - yoe / 100 + doy in
  era * 146097 + doe - 719468.

Definition num (cs : list N) : option Z :=
  match span_digits 10 cs with
  | (ds, []) => Some (digits_value 10 ds)
  | _ => None
  end.

Definition parse (offset : Z) (s : jsstring) : option Z :=
  match s with
  | [y1; y2; y3; y4; 45%N; m1; m2; 45%N; d1; d2; 84%N;
     h1; h2; 58%N; i1; i2; 58%N; s1; s2] =>
      match num [y1; y2; y3; y4], num [m1; m2], num [d1; d2],
            num [h1; h2], num [i1; i2], num [s1; s2] with
      | Some y, Some m, Some d, Some hh, Some mi, Some ss =>
          if (1 <=? m) && (m <=? 12) && (1 <=? d) && (d <=? daysInMonth y m)
             && (hh <=? 23) && (mi <=? 59) && (ss <=? 59)
          then Some (daysFromCivil y m d * msPerDay
                     + hh * 3600000 + mi * 60000 + ss * 1000 - offset)
          else None
      | _, _, _, _, _, _ => None
      end
  | _ => None
  end.

(** The host whose local time is UTC plus [offset] milliseconds, at the
    instant [now]. *)
Definition host (offset now : Z) : Host :=
  {| Date_now := now;
     startOfLocalDay := fun t => (t + offset) / msPerDay * msPerDay - offset;
     Date_parse := parse offset |}.

End FixedZone.

(** ** A host in a zone that changes its offset once *)

Module ChangingZone.

(** The host whose local time is UTC plus [before] milliseconds up to the
    instant [change] and UTC plus [after] from then on, at the instant
    [now].  A local time is read with the offset in force at the instant
    it names (the earlier one where it names two). *)
Definition toUTC (before after change local : Z) : Z :=
  if local - before <? change then local - before else local - after.

Definition host (before after change now : Z) : Host :=
  {| Date_now := now;
     startOfLocalDay := fun t =>
       let offset := if t <? change then before else after in
       toUTC before after change
         ((t + offset) / FixedZone.msPerDay * FixedZone.msPerDay);
     Date_parse := fun s =>
       option_map (toUTC before after change) (FixedZone.parse 0 s) |}.

End ChangingZone.

(** ** Vocabulary of the specification *)

(** *** Validation *)

Inductive ValidationError :=
| InvalidPrice
| InvalidHolding
| InvalidAccrual
| InvalidRate.

(** The message that reports each error to the caller. *)
Definition message (e : ValidationError) : jsstring :=
  match e with
  | InvalidPrice => msgPrice
  | InvalidHolding => msgCoins
  | InvalidAccrual => msgDaily
  | InvalidRate => msgRate
  end.

(** A finite number [>= 0], and a finite number [> 0]. *)
Definition valid_nonneg (x : float) : bool := Number_isFinite x && leb pzero x.
Definition valid_pos (x : float) : bool := Number_isFinite x && ltb pzero x.

(** *** Results

    The three projection fields are all there, or none is. *)
Definition has_projection (r : Result) : Prop :=
  exists u i d,
    projectedUSDT r = Some u /\ projectedIDR r = Some i /\ daysProjected r = Some d.

Definition no_projection (r : Result) : Prop :=
  projectedUSDT r = None /\ projectedIDR r = None /\ daysProjected r = None.

(** The parsed inputs of a call of [compute] of index.tsx. *)
Definition price (st : Pages.State) : float :=
  Pages.parseNumber (Pages.pricePerCoin st).
Definition coins (st : Pages.State) : float :=
  Pages.parseNumber (Pages.currentCoins st).
Definition daily (st : Pages.State) : float :=
  Pages.parseNumber (Pages.dailyCoins st).
Definition rate (st : Pages.State) : float :=
  Pages.parseNumber (Pages.usdToIdr st).

(** All four validation checks pass. *)
Definition inputs_valid (st : Pages.State) : Prop :=
  valid_nonneg (price st) = true /\ valid_nonneg (coins st) = true /\
  valid_nonneg (daily st) = true /\ valid_pos (rate st) = true.

(** *** Doubles

    The magnitude of a double: zero, or below [2^T]. *)
Definition below (T : Z) (x : float) : Prop :=
  match x with
  | S754_zero _ => True
  | S754_finite _ m e => Zpos (digits2_pos m) + e <= T
  | _ => False
  end.

(** A zero, a finite number or an infinity of the given sign bit. *)
Definition has_sign (b : bool) (x : float) : Prop :=
  match x with
  | S754_zero s | S754_infinity s | S754_finite s _ _ => s = b
  | S754_nan => False
  end.

(** Zero, or finite and negative. *)
Definition not_positive (x : float) : Prop :=
  match x with
  | S754_zero _ => True
  | S754_finite s _ _ => s = true
  | _ => False
  end.

(** Finite or NaN, never an infinity. *)
Definition finite_or_nan (x : float) : Prop :=
  Number_isFinite x = true \/ x = NaN.

(** *** Calls of [compute]

    The check that fails first, in the order of the specification. *)
Definition failing_check (e : ValidationError) (st : Pages.State) : Prop :=
  match e with
  | InvalidPrice => valid_nonneg (price st) = false
  | InvalidHolding =>
      valid_nonneg (price st) = true /\ valid_nonneg (coins st) = false
  | InvalidAccrual =>
      valid_nonneg (price st) = true /\ valid_nonneg (coins st) = true
      /\ valid_nonneg (daily st) = false
  | InvalidRate =>
      valid_nonneg (price st) = true /\ valid_nonneg (coins st) = true
      /\ valid_nonneg (daily st) = true /\ valid_pos (rate st) = false
  end.

(** A target date the host parses to the time value [t], with today's
    local midnight at [today], both within the range of time values. *)
Definition dates (h : Host) (st : Pages.State) (t today : Z) : Prop :=
  Date_parse h (Pages.endDate st ++ lit "T00:00:00") = Some t /\
  startOfLocalDay h (Date_now h) = today /\
  Z.abs t <= maxTime /\ Z.abs today <= maxTime.

(** *** Parsing *)

Definition whitespace_only (v : jsstring) : Prop :=
  Forall (fun c => is_white c = true) v.

(** The "standard decimal parsing" of the specification: between
    optional whitespace, an optionally signed decimal literal with
    optional fraction and exponent, or [Infinity]; the empty string is 0
    and anything else is not a number. *)
Definition decimalNumber (s : jsstring) : float :=
  match trim s with
  | [] => pzero
  | t =>
      match decimalLiteral t with
      | Some x => x
      | None => NaN
      end
  end.

(** *** The two files

    The cells of part_000 that index.tsx has too. *)
Definition to_pages (q : Part000.State) : Pages.State :=
  {| Pages.pricePerCoin := Part000.pricePerCoin q;
     Pages.currentCoins := Part000.currentCoins q;
     Pages.dailyCoins := Part000.dailyCoins q;
     Pages.endDate := Part000.endDate q;
     Pages.usdToIdr := Part000.usdToIdr q;
     Pages.result := Part000.result q;
     Pages.error := Part000.error q;
     Pages.isCalculating := Part000.isCalculating q |}.

(** *** The exchange rate

    The IDR entry of the rates mapping of a response body, if there is
    one. *)
Definition rates_of (data : json) : value :=
  match data with
  | JObj fields => own (lit "rates") fields
  | _ => None
  end.

Definition idr_of (data : json) : value :=
  match rates_of data with
  | Some (JObj rates) => own (lit "IDR") rates
  | _ => None
  end.

(** The request failed, the body was not JSON, or the body has no IDR
    rate. *)
Inductive fetch_failed : Response -> Prop :=
| failed_network : fetch_failed NetworkError
| failed_malformed : fetch_failed MalformedBody
| failed_missing (data : json) : idr_of data = None -> fetch_failed (Body data).

(** *** What [compute] reads

    The five input cells of index.tsx. *)
Definition inputs (st : Pages.State) :=
  (Pages.pricePerCoin st, Pages.currentCoins st, Pages.dailyCoins st,
   Pages.endDate st, Pages.usdToIdr st).

(** A number that is not negative: a zero, a positive finite number or
    [+Infinity]. *)
Definition nonnegative (x : float) : Prop :=
  match x with
  | S754_zero _ | S754_finite false _ _ | S754_infinity false => True
  | _ => False
  end.

(** *** Sessions of index.tsx

    The flag and the waiting computations of a session agree: nothing
    waits and the flag is down, or one computation waits and it is up. *)
Definition flag_agrees (s : Pages.Session) : Prop :=
  match Pages.pending s with
  | [] => Pages.isCalculating (Pages.ui s) = false
  | [_] => Pages.isCalculating (Pages.ui s) = true
  | _ => False
  end.

(** What the form can show: no result or the result [compute] gives on
    some valid inputs, and no message or one of the four. *)
Definition shows_computed (st : Pages.State) : Prop :=
  (Pages.result st = None \/
   exists h snap, inputs_valid snap /\
     Pages.result st = Pages.result (Pages.compute h snap)) /\
  (Pages.error st = [] \/ exists e, Pages.error st = message e).

(** *** Requests for the rate

    The state [fetchExchangeRate] leaves when it falls back, and when it
    adopts the string [s]. *)
Definition fell_back (st : Part000.State) : Part000.State :=
  Part000.setIsLoadingRate false
    (Part000.setUsdToIdr (lit "15000")
       (Part000.setError Part000.msgFetch st)).

Definition adopted (s : jsstring) (st : Part000.State) : Part000.State :=
  Part000.setIsLoadingRate false (Part000.setUsdToIdr s st).

(** The string a request's end adopts as the rate, if any: the IDR entry
    of the body's rates when it is truthy and gives a string. *)
Definition rate_of (r : Response) : option jsstring :=
  match r with
  | Body data =>
      match idr_of data with
      | Some idr =>
          if truthy (Some idr) then
            match toStringCall idr with
            | Normal s => Some s
            | Throw => None
            end
          else None
      | None => None
      end
  | _ => None
  end.

(** The cells a request for the rate never writes. *)
Definition beside_rate (st : Part000.State) :=
  (Part000.pricePerCoin st, Part000.currentCoins st, Part000.dailyCoins st,
   Part000.endDate st, Part000.result st, Part000.isCalculating st,
   Part000.isPerformanceMode st).

(** No event of the list is a click on the sample-data button. *)
Definition no_sample (es : list Part000.Event) : Prop :=
  Forall (fun e => match e with Part000.ClickSample _ => False | _ => True end) es.

(** *** Sample inputs

    The form in Jakarta (UTC+7) on 2025-01-15 at 10:30 local time. *)
Definition jakarta : Host := FixedZone.host 25200000 1736911800000.

Definition form (price coins daily date rate : string) : Pages.State :=
  {| Pages.pricePerCoin := lit price; Pages.currentCoins := lit coins;
     Pages.dailyCoins := lit daily; Pages.endDate := lit date;
     Pages.usdToIdr := lit rate; Pages.result := None; Pages.error := [];
     Pages.isCalculating := false |}.

(** The form in New York on 2025-10-20 at 11:00 local time (UTC-4); the
    clocks go back an hour on 2025-11-02 at 06:00 UTC. *)
Definition new_york : Host :=
  ChangingZone.host (-14400000) (-18000000) 1762063200000 1760972400000.

(** A result stored by an earlier call. *)
Definition stored : Result :=
  {| totalUSDT := Number (lit "480"); totalIDR := Number (lit "7200000");
     projectedUSDT := None; projectedIDR := None; daysProjected := None |}.

(** A form of part_000 with valid inputs and no rate yet. *)
Definition sample : Part000.State :=
  {| Part000.pricePerCoin := lit "0.48"; Part000.currentCoins := lit "1000";
     Part000.dailyCoins := lit "0"; Part000.endDate := [];
     Part000.usdToIdr := []; Part000.result := None; Part000.error := [];
     Part000.isCalculating := false; Part000.isLoadingRate := false;
     Part000.isPerformanceMode := false |}.

(** The form in Jakarta half a second before the midnight that ends
    2025-01-15, and half a second after it. *)
Definition jakarta_late : Host := FixedZone.host 25200000 1736960399500.
Definition jakarta_next : Host := FixedZone.host 25200000 1736960400500.


(** ** Facts about the runtime *)

Ltac split_hyps :=
  repeat match goal with H : _ /\ _ |- _ => destruct H end.

Lemma str_eqb_eq (a b : jsstring) : str_eqb a b = true <-> a = b.
Proof.
  revert b; induction a as [|x a IH]; intros [|y b]; simpl; split;
    try congruence; try reflexivity.
  - intros H. apply andb_true_iff in H as [H1 H2].
    apply N.eqb_eq in H1. apply IH in H2. congruence.
  - intros H. injection H as -> ->. rewrite N.eqb_refl. simpl.
    now apply IH.
Qed.

Lemma str_eqb_nil (a : jsstring) : str_eqb a [] = true <-> a = [].
Proof. apply str_eqb_eq. Qed.

(** In a zone with a fixed offset, [startOfLocalDay] is the last local
    midnight: it is at most a day behind and maps itself to itself. *)
Lemma FixedZone_startOfLocalDay (offset now t : Z) :
  let day := startOfLocalDay (FixedZone.host offset now) in
  day t <= t < day t + FixedZone.msPerDay /\ day (day t) = day t.
Proof.
  cbv zeta. cbn [startOfLocalDay FixedZone.host]. unfold FixedZone.msPerDay.
  pose proof (Z.mul_div_le (t + offset) 86400000 ltac:(lia)).
  pose proof (Z.mul_succ_div_gt (t + offset) 86400000 ltac:(lia)).
  split; [lia|].
  replace ((t + offset) / 86400000 * 86400000 - offset + offset)
    with ((t + offset) / 86400000 * 86400000) by lia.
  rewrite Z.div_mul by lia. reflexivity.
Qed.

(** *** Doubles: magnitude, sign and exactness through rounding *)

Lemma fexp_eq (x : Z) : fexp prec emax x = Z.max (x - 53) (-1074).
Proof. reflexivity. Qed.

Lemma digits2_pos_size (p : positive) : digits2_pos p = Pos.size p.
Proof. induction p; simpl; congruence. Qed.

Lemma Zdigits2_log2 (m : Z) : 0 < m -> Zdigits2 m = Z.log2 m + 1.
Proof.
  destruct m as [|p|p]; try lia. intros _. simpl.
  rewrite digits2_pos_size. destruct p; simpl; lia.
Qed.

Lemma Zdigits2_nonneg (m : Z) : 0 <= Zdigits2 m.
Proof. destruct m; simpl; lia. Qed.

(** [m < 2^k] says that [m] has at most [k] binary digits. *)
Lemma Zdigits2_le (m k : Z) : 0 <= m -> 0 <= k -> (Zdigits2 m <= k <-> m < 2 ^ k).
Proof.
  intros Hm Hk. destruct (Z.eq_dec m 0) as [->|Hne].
  - simpl. split; intros; [apply Z.pow_pos_nonneg|]; lia.
  - rewrite Zdigits2_log2 by lia.
    rewrite Z.log2_lt_pow2 by lia. lia.
Qed.

Lemma Zdigits2_lt_pow (m : Z) : 0 <= m -> m < 2 ^ Zdigits2 m.
Proof.
  intros H. apply Zdigits2_le; auto using Zdigits2_nonneg. lia.
Qed.

Lemma Zdigits2_mono (a b : Z) : 0 <= a <= b -> Zdigits2 a <= Zdigits2 b.
Proof.
  intros H. apply Zdigits2_le; try lia. apply Zdigits2_nonneg.
  pose proof (Zdigits2_lt_pow b). lia.
Qed.

Lemma Zdigits2_succ (m : Z) : 0 <= m -> Zdigits2 (m + 1) <= Zdigits2 m + 1.
Proof.
  intros H. pose proof (Zdigits2_nonneg m) as Hn.
  apply Zdigits2_le; try lia.
  rewrite Z.pow_add_r by lia. change (2 ^ 1) with 2.
  pose proof (Zdigits2_lt_pow m H). lia.
Qed.

Lemma Zdigits2_shift (m k : Z) :
  0 <= m -> 0 <= k -> 0 < m / 2 ^ k -> Zdigits2 (m / 2 ^ k) + k <= Zdigits2 m.
Proof.
  intros Hm Hk Hq.
  assert (Hp : 0 < 2 ^ k) by (apply Z.pow_pos_nonneg; lia).
  pose proof (Zdigits2_lt_pow m Hm) as Hd.
  pose proof (Zdigits2_nonneg m) as Hn.
  destruct (Z_lt_le_dec (Zdigits2 m) k) as [Hlt|Hle].
  - assert (m < 2 ^ k).
    { eapply Z.lt_le_trans; [exact Hd|]. apply Z.pow_le_mono_r; lia. }
    rewrite Z.div_small in Hq by lia. lia.
  - enough (Zdigits2 (m / 2 ^ k) <= Zdigits2 m - k) by lia.
    apply Zdigits2_le; try lia.
    apply Z.div_lt_upper_bound; [lia|].
    rewrite <- Z.pow_add_r by lia.
    replace (k + (Zdigits2 m - k)) with (Zdigits2 m) by lia. exact Hd.
Qed.

Lemma Zdigits2_mul_pow (m k : Z) :
  0 < m -> 0 <= k -> Zdigits2 (m * 2 ^ k) = Zdigits2 m + k.
Proof.
  intros Hm Hk.
  assert (0 < 2 ^ k) by (apply Z.pow_pos_nonneg; lia).
  rewrite !Zdigits2_log2 by nia.
  rewrite Z.log2_mul_pow2 by lia. lia.
Qed.

(** Shifting right. *)
Lemma shr_1_m (mrs : shr_record) :
  0 <= shr_m mrs -> shr_m (shr_1 mrs) = shr_m mrs / 2.
Proof.
  destruct mrs as [m r s]. simpl. intros H.
  destruct m as [|p|p]; try lia; [reflexivity|].
  destruct p; simpl shr_m.
  - rewrite Pos2Z.inj_xI. apply Z.div_unique with 1; lia.
  - rewrite Pos2Z.inj_xO. apply Z.div_unique with 0; lia.
  - reflexivity.
Qed.

Lemma iter_shr_1_m (p : positive) (mrs : shr_record) :
  0 <= shr_m mrs -> shr_m (iter_pos shr_1 p mrs) = shr_m mrs / 2 ^ Zpos p.
Proof.
  revert mrs. induction p as [p IH|p IH|]; intros mrs H; simpl iter_pos.
  - assert (H1 : 0 <= shr_m (shr_1 mrs)).
    { rewrite shr_1_m by lia. apply Z.div_pos; lia. }
    assert (Hp : 0 < 2 ^ Zpos p) by (apply Z.pow_pos_nonneg; lia).
    assert (H2 : 0 <= shr_m (iter_pos shr_1 p (shr_1 mrs))).
    { rewrite IH by lia. apply Z.div_pos; lia. }
    rewrite IH, IH, shr_1_m by lia.
    rewrite !Z.div_div by lia.
    f_equal. replace (Z.pos p~1) with (1 + Z.pos p + Z.pos p) by lia.
    rewrite !Z.pow_add_r by lia. change (2 ^ 1) with 2. ring.
  - assert (Hp : 0 < 2 ^ Zpos p) by (apply Z.pow_pos_nonneg; lia).
    assert (H2 : 0 <= shr_m (iter_pos shr_1 p mrs)).
    { rewrite IH by lia. apply Z.div_pos; lia. }
    rewrite IH, IH by lia.
    rewrite !Z.div_div by lia.
    f_equal. replace (Z.pos p~0) with (Z.pos p + Z.pos p) by lia.
    rewrite !Z.pow_add_r by lia. change (2 ^ 1) with 2. ring.
  - rewrite shr_1_m by lia. reflexivity.
Qed.

Lemma shr_record_of_loc_m (m : Z) (l : location) :
  shr_m (shr_record_of_loc m l) = m.
Proof. destruct l as [|[]]; reflexivity. Qed.

(** What [shr_fexp] does to a non-negative mantissa. *)
Lemma shr_fexp_spec (m e : Z) (l : location) :
  0 <= m ->
  exists mrs e',
    shr_fexp prec emax m e l = (mrs, e') /\
    e' = Z.max e (fexp prec emax (Zdigits2 m + e)) /\
    shr_m mrs = m / 2 ^ (e' - e).
Proof.
  intros Hm. unfold shr_fexp, shr.
  destruct (fexp prec emax (Zdigits2 m + e) - e) as [|p|p] eqn:E.
  - do 2 eexists. split; [reflexivity|]. split; [lia|].
    rewrite shr_record_of_loc_m, Z.sub_diag. simpl. now rewrite Z.div_1_r.
  - do 2 eexists. split; [reflexivity|]. split; [lia|].
    rewrite iter_shr_1_m by (rewrite shr_record_of_loc_m; lia).
    rewrite shr_record_of_loc_m. f_equal. f_equal. lia.
  - do 2 eexists. split; [reflexivity|]. split; [lia|].
    rewrite shr_record_of_loc_m, Z.sub_diag. simpl. now rewrite Z.div_1_r.
Qed.

Lemma round_nearest_even_bounds (m : Z) (l : location) :
  m <= round_nearest_even m l <= m + 1.
Proof.
  destruct l as [|[]]; simpl; try lia. destruct (Z.even m); lia.
Qed.

Lemma binary_round_aux_sign (s : bool) (m e : Z) (l : location) :
  0 <= m -> has_sign s (binary_round_aux prec emax s m e l).
Proof.
  intros Hm. unfold binary_round_aux.
  destruct (shr_fexp_spec m e l Hm) as (mrs1 & e1 & -> & He1 & Hm1).
  assert (H1 : 0 <= shr_m mrs1).
  { rewrite Hm1. apply Z.div_pos; [lia|]. apply Z.pow_pos_nonneg; lia. }
  pose proof (round_nearest_even_bounds (shr_m mrs1) (loc_of_shr_record mrs1)) as Hr.
  set (m2 := round_nearest_even _ _) in *.
  destruct (shr_fexp_spec m2 e1 loc_Exact ltac:(lia)) as (mrs2 & e2 & -> & He2 & Hm2).
  assert (H2 : 0 <= shr_m mrs2).
  { rewrite Hm2. apply Z.div_pos; [lia|]. apply Z.pow_pos_nonneg; lia. }
  destruct (shr_m mrs2) as [|p|p]; try lia; [reflexivity|].
  destruct (e2 <=? emax - prec); reflexivity.
Qed.

Lemma binary_round_aux_below (s : bool) (m e : Z) (l : location) (T : Z) :
  0 <= m -> Zdigits2 m + e <= T -> e <= T -> -1074 <= T <= 971 ->
  below (T + 1) (binary_round_aux prec emax s m e l).
Proof.
  intros Hm Hd He HT. unfold binary_round_aux.
  destruct (shr_fexp_spec m e l Hm) as (mrs1 & e1 & -> & He1 & Hm1).
  rewrite fexp_eq in He1.
  assert (Hp1 : 0 < 2 ^ (e1 - e)) by (apply Z.pow_pos_nonneg; lia).
  assert (H1 : 0 <= shr_m mrs1) by (rewrite Hm1; apply Z.div_pos; lia).
  assert (Ht1 : Zdigits2 (shr_m mrs1) + e1 <= T).
  { destruct (Z.eq_dec (shr_m mrs1) 0) as [->|Hne]; [simpl; lia|].
    pose proof (Zdigits2_shift m (e1 - e) Hm ltac:(lia)) as Hs.
    rewrite <- Hm1 in Hs. lia. }
  pose proof (round_nearest_even_bounds (shr_m mrs1) (loc_of_shr_record mrs1)) as Hr.
  set (m2 := round_nearest_even _ _) in *.
  assert (Ht2 : Zdigits2 m2 + e1 <= T + 1).
  { pose proof (Zdigits2_mono m2 (shr_m mrs1 + 1) ltac:(lia)).
    pose proof (Zdigits2_succ (shr_m mrs1) H1). lia. }
  destruct (shr_fexp_spec m2 e1 loc_Exact ltac:(lia)) as (mrs2 & e2 & -> & He2 & Hm2).
  rewrite fexp_eq in He2.
  assert (Hp2 : 0 < 2 ^ (e2 - e1)) by (apply Z.pow_pos_nonneg; lia).
  assert (H2 : 0 <= shr_m mrs2) by (rewrite Hm2; apply Z.div_pos; lia).
  destruct (shr_m mrs2) as [|p|p] eqn:E; try lia; [exact I|].
  assert (Hq : 0 < m2 / 2 ^ (e2 - e1)) by lia.
  pose proof (Zdigits2_shift m2 (e2 - e1) ltac:(lia) ltac:(lia) Hq) as Hs.
  rewrite <- Hm2 in Hs. simpl Zdigits2 in Hs.
  replace (e2 <=? emax - prec) with true
    by (symmetry; apply Z.leb_le; unfold emax, prec; lia).
  cbn [below]. lia.
Qed.

Lemma iter_xO (m d : positive) : Zpos (Pos.iter xO m d) = Zpos m * 2 ^ Zpos d.
Proof.
  induction d as [|d IH] using Pos.peano_ind.
  - simpl. lia.
  - rewrite Pos.iter_succ, Pos2Z.inj_xO, IH, Pos2Z.inj_succ, Z.pow_succ_r by lia.
    ring.
Qed.

Lemma shl_align_spec (mx : positive) (ex ex' : Z) :
  exists mz ez,
    shl_align mx ex ex' = (mz, ez) /\ ez = Z.min ex ex' /\
    Zpos mz = Zpos mx * 2 ^ (ex - ez).
Proof.
  unfold shl_align. destruct (ex' - ex) as [|d|d] eqn:E.
  - do 2 eexists. split; [reflexivity|]. split; [lia|].
    replace (ex - ex) with 0 by lia. simpl. lia.
  - do 2 eexists. split; [reflexivity|]. split; [lia|].
    replace (ex - ex) with 0 by lia. simpl. lia.
  - do 2 eexists. split; [reflexivity|]. split; [lia|].
    rewrite iter_xO. f_equal. f_equal. lia.
Qed.

Lemma binary_round_sign (s : bool) (mx : positive) (ex : Z) :
  has_sign s (binary_round prec emax s mx ex).
Proof.
  unfold binary_round.
  destruct (shl_align_spec mx ex (fexp prec emax (Zpos (digits2_pos mx) + ex)))
    as (mz & ez & -> & _ & _).
  apply binary_round_aux_sign. lia.
Qed.

Lemma binary_round_below (s : bool) (mx : positive) (ex T : Z) :
  Zpos (digits2_pos mx) + ex <= T -> -1074 <= T <= 971 ->
  below (T + 1) (binary_round prec emax s mx ex).
Proof.
  intros Hd HT. unfold binary_round.
  destruct (shl_align_spec mx ex (fexp prec emax (Zpos (digits2_pos mx) + ex)))
    as (mz & ez & -> & Hez & Hmz).
  apply binary_round_aux_below; try lia.
  rewrite Hmz, Zdigits2_mul_pow by lia. simpl Zdigits2. lia.
Qed.

Lemma binary_normalize_below (m e : Z) (sz : bool) (T : Z) :
  Zdigits2 m + e <= T -> -1074 <= T <= 971 ->
  below (T + 1) (binary_normalize prec emax m e sz).
Proof.
  intros Hd HT. destruct m as [|p|p]; simpl binary_normalize.
  - exact I.
  - now apply binary_round_below.
  - now apply binary_round_below.
Qed.

Lemma binary_normalize_sign (m e : Z) (sz : bool) :
  m <> 0 -> has_sign (m <? 0) (binary_normalize prec emax m e sz).
Proof.
  destruct m as [|p|p]; [congruence| |]; intros _; apply binary_round_sign.
Qed.

(** An aligned mantissa goes through rounding unchanged. *)
Lemma binary_round_aux_exact (s : bool) (m : positive) (e : Z) :
  fexp prec emax (Zpos (digits2_pos m) + e) <= e -> e <= 971 ->
  binary_round_aux prec emax s (Zpos m) e loc_Exact = S754_finite s m e.
Proof.
  intros Hf He. unfold binary_round_aux, shr_fexp, shr. simpl Zdigits2.
  destruct (fexp prec emax (Zpos (digits2_pos m) + e) - e) as [|p|p] eqn:E;
    try lia; cbn [shr_record_of_loc shr_m loc_of_shr_record round_nearest_even];
    simpl Zdigits2; rewrite E;
    replace (e <=? emax - prec) with true
      by (symmetry; apply Z.leb_le; unfold emax, prec; lia);
    reflexivity.
Qed.

(** An integer of at most 53 bits is a double. *)
Lemma of_Z_exact (z : Z) :
  z <> 0 -> Z.abs z < 2 ^ 53 ->
  exists m e,
    of_Z z = S754_finite (z <? 0) m e /\ -52 <= e <= 0 /\
    Zpos m = Z.abs z * 2 ^ (- e) /\ Zpos (digits2_pos m) = 53.
Proof.
  intros Hz Hb.
  assert (H : forall s p, Zpos p < 2 ^ 53 ->
            exists m e, binary_round prec emax s p 0 = S754_finite s m e /\
              -52 <= e <= 0 /\ Zpos m = Zpos p * 2 ^ (- e) /\
              Zpos (digits2_pos m) = 53).
  { intros s p Hp. unfold binary_round.
    assert (Hd : 1 <= Zpos (digits2_pos p) <= 53).
    { split; [lia|]. apply (Zdigits2_le (Zpos p) 53); lia. }
    destruct (shl_align_spec p 0 (fexp prec emax (Zpos (digits2_pos p) + 0)))
      as (mz & ez & -> & Hez & Hmz).
    rewrite fexp_eq in Hez.
    assert (Hdz : Zpos (digits2_pos mz) = 53).
    { change (Zdigits2 (Zpos mz) = 53).
      rewrite Hmz, Zdigits2_mul_pow by lia. simpl Zdigits2. lia. }
    exists mz, ez. split.
    - apply binary_round_aux_exact; try rewrite fexp_eq; lia.
    - repeat split; try lia. rewrite Hmz. do 2 f_equal. }
  unfold of_Z. destruct z as [|p|p]; [congruence| |]; simpl binary_normalize.
  - apply H. exact Hb.
  - apply H. exact Hb.
Qed.

Lemma Zdigits2_abs (m : Z) : Zdigits2 (Z.abs m) = Zdigits2 m.
Proof. destruct m; reflexivity. Qed.

Lemma below_sign_not_positive (T : Z) (x : float) :
  below T x -> has_sign true x -> not_positive x.
Proof. destruct x; simpl; auto. Qed.

Lemma of_Z_scaled (z : Z) (m : positive) (e k : Z) (zm : positive) :
  -52 <= e <= 0 -> k <= e ->
  Zpos m = Z.abs z * 2 ^ (- e) ->
  Zpos zm = Zpos m * 2 ^ (e - k) ->
  cond_Zopp (z <? 0) (Zpos zm) = z * 2 ^ (- k).
Proof.
  intros He Hk Hm Hzm.
  assert (E : Zpos zm = Z.abs z * 2 ^ (- k)).
  { rewrite Hzm, Hm, <- Z.mul_assoc, <- Z.pow_add_r by lia.
    do 2 f_equal. lia. }
  rewrite E. unfold cond_Zopp. destruct (Z.ltb_spec z 0).
  - rewrite Z.abs_neq by lia. ring.
  - rewrite Z.abs_eq by lia. ring.
Qed.

Lemma scaled_difference_digits (a b k : Z) :
  Z.abs a <= maxTime -> Z.abs b <= maxTime -> k <= 0 ->
  Zdigits2 ((a - b) * 2 ^ (- k)) + k <= 54.
Proof.
  intros Ha Hb Hk. unfold maxTime in *.
  assert (Hp : 0 < 2 ^ (- k)) by (apply Z.pow_pos_nonneg; lia).
  rewrite <- Zdigits2_abs.
  enough (Zdigits2 (Z.abs ((a - b) * 2 ^ (- k))) <= 54 - k) by lia.
  apply Zdigits2_le; try lia.
  replace (54 - k) with (54 + - k) by lia.
  rewrite Z.pow_add_r, Z.abs_mul, (Z.abs_eq (2 ^ (- k))) by lia.
  apply Z.mul_lt_mono_pos_r; [lia|].
  change (2 ^ 54) with 18014398509481984. lia.
Qed.

(** The difference of two time values: below [2^55], and not positive
    when the first is not after the second. *)
Lemma sub_of_Z (a b : Z) :
  Z.abs a <= maxTime -> Z.abs b <= maxTime ->
  below 55 (sub (of_Z a) (of_Z b)) /\
  (a <= b -> not_positive (sub (of_Z a) (of_Z b))).
Proof.
  intros Ha Hb.
  assert (Ha' : Z.abs a < 2 ^ 53) by (unfold maxTime in Ha; simpl; lia).
  assert (Hb' : Z.abs b < 2 ^ 53) by (unfold maxTime in Hb; simpl; lia).
  destruct (Z.eq_dec a 0) as [->|Na]; destruct (Z.eq_dec b 0) as [->|Nb].
  - split; [exact I|intros _; exact I].
  - destruct (of_Z_exact b Nb Hb') as (mb & eb & Eb & Heb & Hmb & Hdb).
    change (of_Z 0) with (S754_zero false). rewrite Eb.
    cbn [sub SFsub below not_positive].
    split; [lia|]. intros H. destruct (Z.ltb_spec b 0); [lia|reflexivity].
  - destruct (of_Z_exact a Na Ha') as (ma & ea & Ea & Hea & Hma & Hda).
    change (of_Z 0) with (S754_zero false). rewrite Ea.
    cbn [sub SFsub below not_positive].
    split; [lia|]. intros H. destruct (Z.ltb_spec a 0); [reflexivity|lia].
  - destruct (of_Z_exact a Na Ha') as (ma & ea & Ea & Hea & Hma & Hda).
    destruct (of_Z_exact b Nb Hb') as (mb & eb & Eb & Heb & Hmb & Hdb).
    rewrite Ea, Eb. cbn [sub SFsub].
    destruct (shl_align_spec ma ea (Z.min ea eb)) as (za & ka & -> & Hka & Hza).
    destruct (shl_align_spec mb eb (Z.min ea eb)) as (zb & kb & -> & Hkb & Hzb).
    cbn [fst].
    remember (Z.min ea eb) as k eqn:Ek.
    assert (Eka : ka = k) by lia. assert (Ekb : kb = k) by lia.
    clear Hka Hkb. subst ka kb.
    rewrite (of_Z_scaled a ma ea k za), (of_Z_scaled b mb eb k zb)
      by (assumption || lia).
    rewrite <- Z.mul_sub_distr_r.
    assert (Hp : 0 < 2 ^ (- k)) by (apply Z.pow_pos_nonneg; lia).
    assert (Hbelow : below 55
              (binary_normalize prec emax ((a - b) * 2 ^ (- k)) k false)).
    { apply (binary_normalize_below _ _ _ 54); [|lia].
      apply scaled_difference_digits; lia. }
    split; [exact Hbelow|].
    intros Hab. destruct (Z.eq_dec a b) as [->|Nab].
    + rewrite Z.sub_diag. exact I.
    + assert (Hneg : (a - b) * 2 ^ (- k) < 0) by nia.
      pose proof (binary_normalize_sign ((a - b) * 2 ^ (- k)) k false
                    ltac:(lia)) as Hs.
      replace ((a - b) * 2 ^ (- k) <? 0) with true in Hs
        by (symmetry; apply Z.ltb_lt; lia).
      eapply below_sign_not_positive; eassumption.
Qed.

Lemma SFdiv_core_bound (m1 e1 m2 e2 : Z) :
  0 < m1 -> 0 < m2 ->
  exists q e' l,
    SFdiv_core_binary prec emax m1 e1 m2 e2 = (q, e', l) /\
    0 <= q /\ e' <= e1 - e2 /\ Zdigits2 q + e' <= Zdigits2 m1 + e1 - e2.
Proof.
  intros H1 H2. unfold SFdiv_core_binary.
  set (e' := Z.min _ (e1 - e2)).
  assert (He' : e' <= e1 - e2) by apply Z.le_min_r.
  set (m' := match e1 - e2 - e' with
             | Z0 => m1 | Zpos _ => Z.shiftl m1 (e1 - e2 - e') | Zneg _ => 0 end).
  assert (Hm' : m' = m1 * 2 ^ (e1 - e2 - e')).
  { unfold m'. destruct (e1 - e2 - e') as [|p|p] eqn:E; try lia.
    rewrite Z.shiftl_mul_pow2 by lia. reflexivity. }
  assert (Hp : 0 < 2 ^ (e1 - e2 - e')) by (apply Z.pow_pos_nonneg; lia).
  destruct (Z.div_eucl m' m2) as [q r] eqn:E.
  assert (Hq : q = m' / m2) by (unfold Z.div; now rewrite E).
  exists q, e', (new_location m2 r).
  split; [reflexivity|].
  assert (Hq0 : 0 <= q) by (rewrite Hq; apply Z.div_pos; nia).
  assert (Hqm : q <= m').
  { rewrite Hq. apply Z.div_le_upper_bound; nia. }
  repeat split; try lia.
  pose proof (Zdigits2_mono q m' ltac:(lia)) as Hd.
  rewrite Hm', Zdigits2_mul_pow in Hd by lia. lia.
Qed.

(** Dividing by a positive double of exponent [ey] and 53 digits. *)
Lemma div_below (x : float) (my : positive) (ey K : Z) :
  below K x -> -1074 <= K - ey <= 971 ->
  below (K - ey + 1) (div x (S754_finite false my ey)) /\
  (not_positive x -> not_positive (div x (S754_finite false my ey))).
Proof.
  intros Hx HK. destruct x as [s|s| |s m e]; cbn [below] in Hx; try contradiction.
  - split; [exact I|intros _; exact I].
  - cbn [div SFdiv].
    destruct (SFdiv_core_bound (Zpos m) e (Zpos my) ey)
      as (q & e' & l & -> & Hq & He & Hd); try lia.
    simpl Zdigits2 in Hd.
    assert (Hb : below (K - ey + 1) (binary_round_aux prec emax (xorb s false) q e' l)).
    { apply binary_round_aux_below; lia. }
    split; [exact Hb|].
    cbn [not_positive]. intros ->.
    eapply below_sign_not_positive; [exact Hb|].
    now apply binary_round_aux_sign.
Qed.

Lemma binary_round_aux_exp (s : bool) (m e : Z) (l : location) :
  0 <= m ->
  match binary_round_aux prec emax s m e l with
  | S754_finite _ _ e' => e <= e'
  | _ => True
  end.
Proof.
  intros Hm. unfold binary_round_aux.
  destruct (shr_fexp_spec m e l Hm) as (mrs1 & e1 & -> & He1 & Hm1).
  assert (H1 : 0 <= shr_m mrs1).
  { rewrite Hm1. apply Z.div_pos; [lia|]. apply Z.pow_pos_nonneg; lia. }
  pose proof (round_nearest_even_bounds (shr_m mrs1) (loc_of_shr_record mrs1)) as Hr.
  set (m2 := round_nearest_even _ _) in *.
  destruct (shr_fexp_spec m2 e1 loc_Exact ltac:(lia)) as (mrs2 & e2 & -> & He2 & Hm2).
  destruct (shr_m mrs2); auto.
  destruct (e2 <=? emax - prec); auto. lia.
Qed.

(** The double of an integer holds an integer. *)
Lemma of_Z_integer (z : Z) :
  match of_Z z with
  | S754_finite _ _ _ => is_integer (of_Z z) = true
  | _ => True
  end.
Proof.
  assert (H : forall s p,
            match binary_round prec emax s p 0 with
            | S754_finite _ _ _ => is_integer (binary_round prec emax s p 0) = true
            | _ => True
            end).
  { intros s p. unfold binary_round.
    destruct (shl_align_spec p 0 (fexp prec emax (Zpos (digits2_pos p) + 0)))
      as (mz & ez & -> & Hez & Hmz).
    destruct (Z_le_gt_dec (fexp prec emax (Zpos (digits2_pos p) + 0)) 0) as [Hle|Hgt].
    - assert (Hdz : Zpos (digits2_pos mz) + ez = Zpos (digits2_pos p) + 0).
      { change (Zdigits2 (Zpos mz) + ez = Zpos (digits2_pos p) + 0).
        rewrite Hmz, Zdigits2_mul_pow by lia. simpl Zdigits2. lia. }
      rewrite binary_round_aux_exact by (try rewrite Hdz; lia).
      cbn [is_integer]. apply orb_true_iff. right. apply Z.eqb_eq.
      rewrite Hmz. replace (0 - ez) with (- ez) by lia.
      apply Z.mod_mul. apply Z.pow_nonzero; lia.
    - pose proof (binary_round_aux_exp s (Zpos mz) ez loc_Exact ltac:(lia)) as He.
      destruct (binary_round_aux prec emax s (Zpos mz) ez loc_Exact); auto.
      cbn [is_integer]. apply orb_true_iff. left. apply Z.leb_le. lia. }
  unfold of_Z. destruct z as [|p|p]; simpl binary_normalize;
    [exact I|apply H|apply H].
Qed.

Lemma Math_ceil_integer (x : float) :
  match Math_ceil x with
  | S754_finite _ _ _ => is_integer (Math_ceil x) = true
  | _ => True
  end.
Proof.
  destruct x as [s|s| |s m e]; simpl; auto.
  destruct (Z.leb_spec 0 e) as [He|He].
  - cbn [is_integer]. apply orb_true_iff. left. now apply Z.leb_le.
  - destruct (_ =? 0); [exact I|]. apply of_Z_integer.
Qed.

Lemma Math_ceil_below (x : float) (K : Z) :
  below K x -> 0 <= K <= 970 -> below (K + 2) (Math_ceil x).
Proof.
  intros Hx HK. destruct x as [s|s| |s m e]; cbn [below] in Hx; try contradiction.
  - exact I.
  - unfold Math_ceil. destruct (Z.leb_spec 0 e) as [He|He].
    + cbn [below]. lia.
    + set (c := - (- cond_Zopp s (Zpos m) / 2 ^ (- e))).
      destruct (c =? 0); [exact I|].
      replace (K + 2) with (K + 1 + 1) by lia. unfold of_Z.
      apply (binary_normalize_below _ _ _ (K + 1)); [|lia].
      assert (Hp : 0 < 2 ^ (- e)) by (apply Z.pow_pos_nonneg; lia).
      assert (Hq : 0 <= Zpos m / 2 ^ (- e) < 2 ^ K).
      { split; [apply Z.div_pos; lia|].
        destruct (Z_le_gt_dec (- e) (Zpos (digits2_pos m))) as [Hle|Hgt].
        - apply Z.div_lt_upper_bound; [lia|].
          pose proof (Zdigits2_lt_pow (Zpos m) ltac:(lia)) as Hd.
          simpl Zdigits2 in Hd.
          eapply Z.lt_le_trans; [exact Hd|].
          rewrite <- Z.pow_add_r by lia.
          apply Z.pow_le_mono_r; lia.
        - rewrite Z.div_small; [apply Z.pow_pos_nonneg; lia|].
          split; [lia|].
          pose proof (Zdigits2_lt_pow (Zpos m) ltac:(lia)) as Hd.
          simpl Zdigits2 in Hd.
          eapply Z.lt_le_trans; [exact Hd|].
          apply Z.pow_le_mono_r; lia. }
      assert (Hc : Z.abs c <= Zpos m / 2 ^ (- e) + 1).
      { unfold c. destruct s; cbn [cond_Zopp].
        - rewrite Z.opp_involutive. lia.
        - pose proof (Z.mul_div_le (- Zpos m) (2 ^ (- e)) Hp).
          pose proof (Z.mul_succ_div_gt (- Zpos m) (2 ^ (- e)) Hp).
          pose proof (Z.mul_div_le (Zpos m) (2 ^ (- e)) Hp).
          pose proof (Z.mul_succ_div_gt (Zpos m) (2 ^ (- e)) Hp).
          nia. }
      rewrite <- Zdigits2_abs.
      enough (Zdigits2 (Z.abs c) <= K + 1) by lia.
      apply Zdigits2_le; try lia.
      rewrite Z.pow_add_r by lia. change (2 ^ 1) with 2. lia.
Qed.

Lemma Math_ceil_not_positive (x : float) :
  not_positive x -> gtb (Math_ceil x) pzero = false.
Proof.
  destruct x as [s|s| |s m e]; simpl; try contradiction; auto.
  intros ->. destruct (Z.leb_spec 0 e) as [He|He]; [reflexivity|].
  cbn [cond_Zopp]. rewrite Z.opp_involutive.
  set (c := - (Zpos m / 2 ^ (- e))).
  destruct (Z.eqb_spec c 0) as [_|Hc]; [reflexivity|].
  assert (Hp : 0 < 2 ^ (- e)) by (apply Z.pow_pos_nonneg; lia).
  assert (0 <= Zpos m / 2 ^ (- e)) by (apply Z.div_pos; lia).
  pose proof (binary_normalize_sign c 0 false Hc) as Hs.
  replace (c <? 0) with true in Hs by (symmetry; apply Z.ltb_lt; lia).
  fold (of_Z c) in Hs. destruct (of_Z c) as [s'|s'| |s' m' e']; simpl in Hs;
    try contradiction; subst; reflexivity.
Qed.

(** *** The values [compute] validates *)

Lemma parseNumber_finite_or_nan (v : jsstring) :
  finite_or_nan (Pages.parseNumber v).
Proof.
  unfold Pages.parseNumber, finite_or_nan.
  destruct v as [|c v]; [now left|].
  destruct (Number_isFinite (Number _)) eqn:E; [now left | now right].
Qed.

Lemma guard_nonneg (x : float) :
  finite_or_nan x ->
  Number_isNaN x || ltb x pzero = negb (valid_nonneg x).
Proof.
  intros [H | ->]; [|reflexivity].
  destruct x as [s|s| |s m e]; try discriminate; try reflexivity;
    destruct s; reflexivity.
Qed.

Lemma guard_pos (x : float) :
  finite_or_nan x ->
  Number_isNaN x || leb x pzero = negb (valid_pos x).
Proof.
  intros [H | ->]; [|reflexivity].
  destruct x as [s|s| |s m e]; try discriminate; try reflexivity;
    destruct s; reflexivity.
Qed.

Lemma messages_distinct (e1 e2 : ValidationError) :
  message e1 = message e2 -> e1 = e2.
Proof.
  destruct e1, e2; intros H; try reflexivity; vm_compute in H; discriminate.
Qed.

Lemma message_nonempty (e : ValidationError) : message e <> [].
Proof. destruct e; vm_compute; discriminate. Qed.

(** ** Properties of [compute] *)

(** The two ways a call of [compute] ends. *)
Lemma compute_failure_or_success (h : Host) (st : Pages.State) :
  let st' := Pages.compute h st in
  (exists e, Pages.error st' = message e /\ Pages.result st' = Pages.result st
             /\ Pages.isCalculating st' = false
             /\ match e with
                | InvalidPrice => valid_nonneg (price st) = false
                | InvalidHolding =>
                    valid_nonneg (price st) = true /\ valid_nonneg (coins st) = false
                | InvalidAccrual =>
                    valid_nonneg (price st) = true /\ valid_nonneg (coins st) = true
                    /\ valid_nonneg (daily st) = false
                | InvalidRate =>
                    valid_nonneg (price st) = true /\ valid_nonneg (coins st) = true
                    /\ valid_nonneg (daily st) = true /\ valid_pos (rate st) = false
                end)
  \/ (inputs_valid st /\ Pages.error st' = [] /\ Pages.isCalculating st' = false
      /\ exists r, Pages.result st' = Some r
           /\ totalUSDT r = mul (price st) (coins st)
           /\ totalIDR r = mul (mul (price st) (coins st)) (rate st)
           /\ (has_projection r \/ no_projection r)).
Proof.
  unfold Pages.compute, inputs_valid.
  fold (price st) (coins st) (daily st) (rate st).
  rewrite !guard_nonneg, guard_pos by apply parseNumber_finite_or_nan.
  destruct (valid_nonneg (price st)); cbn [negb];
    [|left; exists InvalidPrice; repeat split; reflexivity].
  destruct (valid_nonneg (coins st)); cbn [negb];
    [|left; exists InvalidHolding; repeat split; reflexivity].
  destruct (valid_nonneg (daily st)); cbn [negb];
    [|left; exists InvalidAccrual; repeat split; reflexivity].
  destruct (valid_pos (rate st)); cbn [negb];
    [|left; exists InvalidRate; repeat split; reflexivity].
  right. repeat split; try reflexivity.
  eexists. split; [reflexivity|].
  destruct (gtb (daily st) pzero && negb (str_eqb (Pages.endDate st) []));
    (split; [reflexivity|split; [reflexivity|]]).
  - left. do 3 eexists. repeat split; reflexivity.
  - right. repeat split; reflexivity.
Qed.

(** The result of a call that passes validation, field by field. *)
Lemma compute_valid (h : Host) (st : Pages.State) :
  inputs_valid st ->
  let projecting :=
    gtb (daily st) pzero && negb (str_eqb (Pages.endDate st) []) in
  let end_ := Date_getTime h (Pages.endDate st ++ lit "T00:00:00") in
  let msPerDay := mul (mul (mul (of_Z 1000) (of_Z 60)) (of_Z 60)) (of_Z 24) in
  let diff := Math_ceil (div (sub end_ (today_setHours0 h)) msPerDay) in
  let days := if gtb diff pzero then diff else pzero in
  let projected := mul (add (coins st) (mul (daily st) days)) (price st) in
  exists r,
    Pages.result (Pages.compute h st) = Some r /\
    totalUSDT r = mul (price st) (coins st) /\
    totalIDR r = mul (mul (price st) (coins st)) (rate st) /\
    daysProjected r = (if projecting then Some days else None) /\
    projectedUSDT r = (if projecting then Some projected else None) /\
    projectedIDR r = (if projecting then Some (mul projected (rate st)) else None).
Proof.
  intros (Hp & Hc & Hd & Hr). cbv zeta.
  unfold Pages.compute.
  fold (price st) (coins st) (daily st) (rate st).
  rewrite !guard_nonneg, guard_pos by apply parseNumber_finite_or_nan.
  rewrite Hp, Hc, Hd, Hr. cbn [negb].
  eexists. split; [reflexivity|].
  destruct (gtb (daily st) pzero && negb (str_eqb (Pages.endDate st) []));
    repeat split; reflexivity.
Qed.

Lemma msPerDay_value :
  mul (mul (mul (of_Z 1000) (of_Z 60)) (of_Z 60)) (of_Z 24)
  = S754_finite false 5798205849600000 (-26).
Proof. vm_compute. reflexivity. Qed.

Lemma of_Z_msPerDay : of_Z 86400000 = S754_finite false 5798205849600000 (-26).
Proof. vm_compute. reflexivity. Qed.

Lemma TimeClip_in_range (t : Z) :
  Z.abs t <= maxTime -> TimeClip (Some t) = of_Z t.
Proof.
  intros H. unfold TimeClip.
  now replace (Z.abs t <=? maxTime) with true by (symmetry; now apply Z.leb_le).
Qed.

(** The number of days between two time values, as [compute] counts
    them: zero or a finite integer, and not above zero when the first
    time is not after the second. *)
Lemma day_count (t today : Z) :
  Z.abs t <= maxTime -> Z.abs today <= maxTime ->
  let diff := Math_ceil (div (sub (of_Z t) (of_Z today)) (of_Z 86400000)) in
  below 84 diff /\ is_integer diff = true /\
  (t <= today -> gtb diff pzero = false).
Proof.
  intros Ht Hn. cbv zeta. rewrite of_Z_msPerDay.
  destruct (sub_of_Z t today Ht Hn) as [Hs Hsign].
  destruct (div_below _ 5798205849600000 (-26) 55 Hs ltac:(lia)) as [Hd Hdsign].
  pose proof (Math_ceil_below _ 82 Hd ltac:(lia)) as Hc.
  split; [exact Hc|]. split.
  - pose proof (Math_ceil_integer
      (div (sub (of_Z t) (of_Z today))
         (S754_finite false 5798205849600000 (-26)))) as Hi.
    destruct (Math_ceil _); try contradiction; auto.
  - intros Hle. apply Math_ceil_not_positive. auto.
Qed.

(** On a zero or a finite number, the guarded choice of [compute] is
    [Math.max] with zero. *)
Lemma days_is_max (diff : float) (T : Z) :
  below T diff ->
  (if gtb diff pzero then diff else pzero) = Math_max diff pzero.
Proof.
  destruct diff as [s|s| |s m e]; simpl; try contradiction; intros _;
    destruct s; reflexivity.
Qed.

Lemma days_nonneg (diff : float) :
  leb pzero (if gtb diff pzero then diff else pzero) = true.
Proof.
  destruct diff as [s|s| |s m e]; try reflexivity; destruct s; reflexivity.
Qed.

Lemma days_integer (diff : float) :
  is_integer diff = true ->
  is_integer (if gtb diff pzero then diff else pzero) = true.
Proof. intros H. destruct (gtb diff pzero); auto. Qed.

(** *** Products that cannot be NaN *)

Lemma eqb_refl (x : float) : x <> NaN -> eqb x x = true.
Proof.
  intros H. unfold eqb, SFeqb. destruct x as [s|s| |s m e]; cbn [SFcompare].
  - reflexivity.
  - destruct s; reflexivity.
  - now contradiction H.
  - destruct s; rewrite Z.compare_refl, Pos.compare_cont_refl; reflexivity.
Qed.

Lemma has_sign_not_nan (s : bool) (x : float) : has_sign s x -> x <> NaN.
Proof. destruct x; simpl; try discriminate. contradiction. Qed.

Lemma mul_finite_r (x : float) (sx sy : bool) (my : positive) (ey : Z) :
  has_sign sx x -> has_sign (xorb sx sy) (mul x (S754_finite sy my ey)).
Proof.
  destruct x as [s|s| |s m e]; simpl; try contradiction; intros ->;
    try reflexivity.
  apply binary_round_aux_sign. lia.
Qed.

Lemma mul_comm_finite (sx sy : bool) (mx my : positive) (ex ey : Z) :
  mul (S754_finite sx mx ex) (S754_finite sy my ey)
  = mul (S754_finite sy my ey) (S754_finite sx mx ex).
Proof.
  unfold mul. cbn [SFmul].
  now rewrite Pos.mul_comm, Z.add_comm, xorb_comm.
Qed.

(** The shapes of the validated inputs. *)
Lemma valid_nonneg_inv (x : float) :
  valid_nonneg x = true ->
  (exists s, x = S754_zero s) \/ (exists m e, x = S754_finite false m e).
Proof.
  destruct x as [s|s| |s m e]; try discriminate; intros H.
  - left; eauto.
  - right. destruct s; [discriminate|eauto].
Qed.

Lemma valid_pos_inv (x : float) :
  valid_pos x = true -> exists m e, x = S754_finite false m e.
Proof.
  destruct x as [s|s| |s m e]; try discriminate; intros H.
  destruct s; [discriminate|eauto].
Qed.

Lemma positive_inv (x : float) :
  Number_isFinite x = true -> gtb x pzero = true ->
  exists m e, x = S754_finite false m e.
Proof.
  destruct x as [s|s| |s m e]; try discriminate; intros _ H.
  destruct s; [discriminate|eauto].
Qed.

(** With no day added the projected value is the present value, as
    numbers compare ([-0 == +0]). *)
Lemma projection_of_zero_days (p c d r : float) :
  valid_nonneg p = true -> valid_nonneg c = true ->
  Number_isFinite d = true -> gtb d pzero = true -> valid_pos r = true ->
  eqb (mul (add c (mul d pzero)) p) (mul p c) = true /\
  eqb (mul (mul (add c (mul d pzero)) p) r) (mul (mul p c) r) = true.
Proof.
  intros Hp Hc Hd Hd0 Hr.
  destruct (positive_inv d Hd Hd0) as (md & ed & ->).
  destruct (valid_pos_inv r Hr) as (mr & er & ->).
  change (mul (S754_finite false md ed) pzero) with pzero.
  destruct (valid_nonneg_inv c Hc) as [[sc ->]|(mc & ec & ->)];
    destruct (valid_nonneg_inv p Hp) as [[sp ->]|(mp & ep & ->)].
  - destruct sc, sp; split; reflexivity.
  - destruct sc; split; reflexivity.
  - destruct sp; split; reflexivity.
  - change (add (S754_finite false mc ec) pzero) with (S754_finite false mc ec).
    rewrite (mul_comm_finite false false mp mc).
    assert (H1 : has_sign false
               (mul (S754_finite false mc ec) (S754_finite false mp ep))).
    { apply (mul_finite_r _ false false). reflexivity. }
    split; apply eqb_refl.
    + eapply has_sign_not_nan; eassumption.
    + eapply has_sign_not_nan. apply (mul_finite_r _ false false). exact H1.
Qed.

(** ** Validation, valuation and projection *)

Lemma reported_error (h : Host) (st : Pages.State) (e : ValidationError) :
  Pages.error (Pages.compute h st) = message e <-> failing_check e st.
Proof.
  destruct (compute_failure_or_success h st)
    as [(e' & He & _ & _ & Hc) | ((Hp & Hc & Hd & Hr) & He & _)].
  - split.
    + intros H. rewrite He in H. apply messages_distinct in H. now subst.
    + intros H. rewrite He. f_equal.
      destruct e, e'; simpl in *; try reflexivity;
        split_hyps; congruence.
  - split.
    + intros H. rewrite He in H. symmetry in H. now apply message_nonempty in H.
    + intros H. destruct e; simpl in H;
        split_hyps; congruence.
Qed.

(** C1: [compute] validates price, holding, daily accrual and rate in
    that order and reports the first check that fails: InvalidPrice iff
    the price is not a finite number >= 0, otherwise InvalidHolding iff the
    holding is not, otherwise InvalidAccrual iff the accrual is not,
    otherwise InvalidRate iff the rate is not a finite number > 0.  An
    invalid price with an invalid holding reports InvalidPrice, and a zero
    rate reports InvalidRate and stores no result. *)
Theorem compute_validation_order (h : Host) (st : Pages.State) :
  let st' := Pages.compute h st in
  (Pages.error st' = message InvalidPrice <-> valid_nonneg (price st) = false)
  /\ (Pages.error st' = message InvalidHolding <->
      valid_nonneg (price st) = true /\ valid_nonneg (coins st) = false)
  /\ (Pages.error st' = message InvalidAccrual <->
      valid_nonneg (price st) = true /\ valid_nonneg (coins st) = true
      /\ valid_nonneg (daily st) = false)
  /\ (Pages.error st' = message InvalidRate <->
      valid_nonneg (price st) = true /\ valid_nonneg (coins st) = true
      /\ valid_nonneg (daily st) = true /\ valid_pos (rate st) = false)
  /\ (valid_nonneg (price st) = false -> valid_nonneg (coins st) = false ->
      Pages.error st' = message InvalidPrice)
  /\ (valid_nonneg (price st) = true -> valid_nonneg (coins st) = true ->
      valid_nonneg (daily st) = true -> eqb (rate st) pzero = true ->
      Pages.error st' = message InvalidRate
      /\ Pages.result st' = Pages.result st).
Proof.
  cbv zeta.
  split; [apply (reported_error h st InvalidPrice)|].
  split; [apply (reported_error h st InvalidHolding)|].
  split; [apply (reported_error h st InvalidAccrual)|].
  split; [apply (reported_error h st InvalidRate)|].
  split.
  - intros Hp _. now apply (reported_error h st InvalidPrice).
  - intros Hp Hc Hd Hz.
    assert (Hr : valid_pos (rate st) = false).
    { unfold valid_pos. destruct (rate st) as [s|s| |s m e]; try reflexivity;
        destruct s; discriminate. }
    split.
    + apply (reported_error h st InvalidRate). simpl. auto.
    + destruct (compute_failure_or_success h st)
        as [(e' & _ & Hres & _) | ((_ & _ & _ & Hr') & _)];
        [exact Hres|congruence].
Qed.

(** The order at work: a malformed price with a negative holding, and a
    zero rate. *)
Lemma compute_validation_order_witness :
  Pages.error (Pages.compute jakarta (form "abc" "-5" "0" "" "15000"))
    = message InvalidPrice
  /\ Pages.error (Pages.compute jakarta (form "0.48" "1000" "0" "" "0"))
    = message InvalidRate.
Proof.
  split.
  - apply (compute_validation_order jakarta (form "abc" "-5" "0" "" "15000"));
      vm_compute; reflexivity.
  - apply (compute_validation_order jakarta (form "0.48" "1000" "0" "" "0"));
      vm_compute; reflexivity.
Defined.

(** C2: when the four inputs pass validation the result holds
    [totalUSDT = price * coins] and [totalIDR = totalUSDT * rate], as
    products of doubles. *)
Theorem compute_totals (h : Host) (st : Pages.State) :
  inputs_valid st ->
  exists r,
    Pages.result (Pages.compute h st) = Some r /\
    totalUSDT r = mul (price st) (coins st) /\
    totalIDR r = mul (totalUSDT r) (rate st).
Proof.
  intros Hv. destruct (compute_valid h st Hv) as (r & Hr & Hu & Hi & _).
  exists r. rewrite Hu at 2. auto.
Qed.

(** Scenario 1 of the specification: 0.48 * 1000 = 480 and
    480 * 15000 = 7200000. *)
Lemma compute_totals_witness :
  exists r,
    Pages.result (Pages.compute jakarta (form "0.48" "1000" "0" "" "15000"))
      = Some r /\
    totalUSDT r = Number (lit "480") /\ totalIDR r = Number (lit "7200000").
Proof.
  destruct (compute_totals jakarta (form "0.48" "1000" "0" "" "15000"))
    as (r & Hr & Hu & Hi).
  - vm_compute. auto.
  - exists r. rewrite Hi, Hu. split; [exact Hr|]. vm_compute. auto.
Defined.

Lemma dates_values (h : Host) (st : Pages.State) (t today : Z) :
  dates h st t today ->
  Date_getTime h (Pages.endDate st ++ lit "T00:00:00") = of_Z t /\
  today_setHours0 h = of_Z today.
Proof.
  intros (Hp & Hn & Ht & Hd). unfold Date_getTime, today_setHours0.
  rewrite Hp, Hn. split; now apply TimeClip_in_range.
Qed.

Lemma projecting_guard (st : Pages.State) :
  gtb (daily st) pzero = true -> Pages.endDate st <> [] ->
  gtb (daily st) pzero && negb (str_eqb (Pages.endDate st) []) = true.
Proof.
  intros -> Hd. simpl. apply negb_true_iff.
  destruct (str_eqb (Pages.endDate st) []) eqn:E; [|reflexivity].
  now apply str_eqb_nil in E.
Qed.

(** C3: with valid inputs, a positive daily accrual and a target date
    that parses, the projection takes today at local midnight and the
    target at local midnight of its day, counts
    [daysProjected = max(ceil((target - today) / 86400000), 0)], a
    non-negative integer, and gives
    [projectedUSDT = (coins + daily * daysProjected) * price] and
    [projectedIDR = projectedUSDT * rate]. *)
Theorem compute_projection (h : Host) (st : Pages.State) (t today : Z) :
  inputs_valid st ->
  gtb (daily st) pzero = true ->
  Pages.endDate st <> [] ->
  dates h st t today ->
  let days :=
    Math_max (Math_ceil (div (sub (of_Z t) (of_Z today)) (of_Z 86400000)))
      pzero in
  exists r,
    Pages.result (Pages.compute h st) = Some r /\
    daysProjected r = Some days /\
    is_integer days = true /\ leb pzero days = true /\
    projectedUSDT r
      = Some (mul (add (coins st) (mul (daily st) days)) (price st)) /\
    projectedIDR r
      = Some (mul (mul (add (coins st) (mul (daily st) days)) (price st))
                (rate st)).
Proof.
  intros Hv Hd He Hdates. cbv zeta.
  destruct (compute_valid h st Hv) as (r & Hr & _ & _ & Hdays & Hu & Hi).
  rewrite projecting_guard in Hdays, Hu, Hi by assumption.
  destruct (dates_values h st t today Hdates) as [Et En].
  destruct Hdates as (_ & _ & Ht & Hn).
  rewrite Et, En, msPerDay_value, <- of_Z_msPerDay in Hdays, Hu, Hi.
  destruct (day_count t today Ht Hn) as (Hb & Hint & _).
  rewrite <- (days_is_max _ 84 Hb).
  exists r. repeat split; auto.
  - now apply days_integer.
  - apply days_nonneg.
Qed.

(** Scenario 2 of the specification: a target 30 days ahead. *)
Lemma compute_projection_witness :
  exists r,
    Pages.result
      (Pages.compute jakarta (form "0.4796" "8578" "180" "2025-02-14" "15000"))
      = Some r /\
    daysProjected r = Some (Number (lit "30")).
Proof.
  destruct (compute_projection jakarta
              (form "0.4796" "8578" "180" "2025-02-14" "15000")
              1739466000000 1736874000000)
    as (r & Hr & Hd & _).
  - vm_compute. auto.
  - vm_compute. reflexivity.
  - vm_compute. discriminate.
  - vm_compute. repeat split; discriminate.
  - exists r. split; [exact Hr|]. rewrite Hd. vm_compute. reflexivity.
Defined.

(** C4, as the code has it: with valid inputs no validation error is
    raised whatever the accrual and the date are; if the accrual is zero
    or the date string is empty the result has no projection field; a
    positive accrual with a non-empty date the host cannot parse still
    gives the three fields, with zero days projected. *)
Theorem compute_projection_absent (h : Host) (st : Pages.State) :
  inputs_valid st ->
  Pages.error (Pages.compute h st) = [] /\
  exists r,
    Pages.result (Pages.compute h st) = Some r /\
    (eqb (daily st) pzero = true \/ Pages.endDate st = [] -> no_projection r) /\
    (gtb (daily st) pzero = true -> Pages.endDate st <> [] ->
     Date_parse h (Pages.endDate st ++ lit "T00:00:00") = None ->
     has_projection r /\ daysProjected r = Some pzero).
Proof.
  intros Hv. split.
  - destruct (compute_failure_or_success h st)
      as [(e & _ & _ & _ & Hc) | (_ & He & _)]; [|exact He].
    destruct Hv as (Hp & Hc' & Hd & Hr).
    destruct e; simpl in Hc;
      split_hyps; congruence.
  - destruct (compute_valid h st Hv) as (r & Hr & _ & _ & Hdays & Hu & Hi).
    exists r. split; [exact Hr|]. split.
    + intros Hoff.
      assert (G : gtb (daily st) pzero
                  && negb (str_eqb (Pages.endDate st) []) = false).
      { destruct Hoff as [Hz | Hz].
        - replace (gtb (daily st) pzero) with false; [reflexivity|].
          destruct (daily st) as [s|s| |s m e]; try reflexivity;
            destruct s; discriminate.
        - rewrite Hz. apply andb_false_r. }
      rewrite G in Hdays, Hu, Hi. repeat split; assumption.
    + intros Hd He Hnone.
      rewrite projecting_guard in Hdays, Hu, Hi by assumption.
      unfold Date_getTime in Hdays. rewrite Hnone in Hdays.
      split; [do 3 eexists; eauto|].
      rewrite Hdays. unfold TimeClip, today_setHours0, TimeClip.
      destruct (Z.abs (startOfLocalDay h (Date_now h)) <=? maxTime);
        [|reflexivity].
      destruct (of_Z (startOfLocalDay h (Date_now h))); reflexivity.
Qed.

Lemma compute_projection_absent_witness :
  Pages.error
    (Pages.compute jakarta (form "0.48" "1000" "0" "2025-02-14" "15000")) = []
  /\ exists r,
       Pages.result
         (Pages.compute jakarta (form "0.48" "1000" "0" "2025-02-14" "15000"))
         = Some r /\
       no_projection r.
Proof.
  destruct (compute_projection_absent jakarta
              (form "0.48" "1000" "0" "2025-02-14" "15000"))
    as (He & r & Hr & Hnone & _).
  - vm_compute. auto.
  - split; [exact He|]. exists r. split; [exact Hr|].
    apply Hnone. left. vm_compute. reflexivity.
Defined.

(** C4 as stated fails: a date that does not parse, with a positive
    accrual, does not keep the projection fields out of the result. *)
Lemma projection_with_unparseable_date :
  let st := form "0.4796" "8578" "180" "soon" "15000" in
  inputs_valid st /\
  Number_isNaN (Date_getTime jakarta (Pages.endDate st ++ lit "T00:00:00"))
    = true /\
  exists r,
    Pages.result (Pages.compute jakarta st) = Some r /\
    ~ no_projection r /\ daysProjected r = Some pzero.
Proof.
  cbv zeta. split; [vm_compute; auto|]. split; [vm_compute; reflexivity|].
  eexists. split; [vm_compute; reflexivity|].
  split; [|reflexivity]. intros (H & _). discriminate H.
Qed.

(** C5: with valid inputs, a positive accrual and a target date that
    parses and is not later than today, the projection is emitted with
    [daysProjected = 0], [projectedUSDT == totalUSDT] and
    [projectedIDR == totalIDR]. *)
Theorem compute_projection_floor (h : Host) (st : Pages.State) (t today : Z) :
  inputs_valid st ->
  gtb (daily st) pzero = true ->
  Pages.endDate st <> [] ->
  dates h st t today ->
  t <= today ->
  exists r u i,
    Pages.result (Pages.compute h st) = Some r /\
    daysProjected r = Some pzero /\
    projectedUSDT r = Some u /\ eqb u (totalUSDT r) = true /\
    projectedIDR r = Some i /\ eqb i (totalIDR r) = true.
Proof.
  intros Hv Hd He Hdates Hle.
  destruct (compute_valid h st Hv) as (r & Hr & HU & HI & Hdays & Hu & Hi).
  rewrite projecting_guard in Hdays, Hu, Hi by assumption.
  destruct (dates_values h st t today Hdates) as [Et En].
  destruct Hdates as (_ & _ & Ht & Hn).
  rewrite Et, En, msPerDay_value, <- of_Z_msPerDay in Hdays, Hu, Hi.
  destruct (day_count t today Ht Hn) as (_ & _ & Hz).
  rewrite (Hz Hle) in Hdays, Hu, Hi.
  destruct Hv as (Hp & Hc & Hdv & Hrv).
  assert (Hfin : Number_isFinite (daily st) = true).
  { unfold valid_nonneg in Hdv. now apply andb_true_iff in Hdv. }
  destruct (projection_of_zero_days _ _ _ _ Hp Hc Hfin Hd Hrv) as [E1 E2].
  do 3 eexists. split; [exact Hr|]. split; [exact Hdays|].
  split; [exact Hu|]. split; [now rewrite HU|].
  split; [exact Hi|]. now rewrite HI.
Qed.

(** A target a week in the past. *)
Lemma compute_projection_floor_witness :
  exists r u i,
    Pages.result
      (Pages.compute jakarta (form "0.4796" "8578" "180" "2025-01-08" "15000"))
      = Some r /\
    daysProjected r = Some pzero /\
    projectedUSDT r = Some u /\ eqb u (totalUSDT r) = true /\
    projectedIDR r = Some i /\ eqb i (totalIDR r) = true.
Proof.
  apply (compute_projection_floor jakarta
           (form "0.4796" "8578" "180" "2025-01-08" "15000")
           1736269200000 1736874000000).
  - vm_compute. auto.
  - vm_compute. reflexivity.
  - vm_compute. discriminate.
  - vm_compute. repeat split; discriminate.
  - vm_compute. discriminate.
Defined.

(** *** parseNumber *)

Lemma trimStart_white (v : jsstring) : whitespace_only v -> trimStart v = [].
Proof.
  induction 1 as [|c v Hc _ IH]; [reflexivity|].
  simpl. now rewrite Hc.
Qed.

Lemma removeCommas_white (v : jsstring) :
  whitespace_only v -> whitespace_only (removeCommas v).
Proof.
  unfold whitespace_only, removeCommas. rewrite !Forall_forall.
  intros H c Hc. apply filter_In in Hc. now apply H.
Qed.

Lemma removeCommas_idempotent (v : jsstring) :
  removeCommas (removeCommas v) = removeCommas v.
Proof.
  unfold removeCommas. induction v as [|c v IH]; [reflexivity|].
  simpl. destruct (negb (N.eqb c comma)) eqn:E; simpl; rewrite ?E; congruence.
Qed.

Lemma parseNumber_cleaned (v : jsstring) :
  Pages.parseNumber v
  = let n := Number (trim (removeCommas v)) in
    if Number_isFinite n then n else NaN.
Proof. destruct v; reflexivity. Qed.

Lemma trimStart_head (s : jsstring) :
  match trimStart s with
  | c :: _ => is_white c = false
  | [] => True
  end.
Proof.
  induction s as [|c s IH]; simpl; [exact I|].
  destruct (is_white c) eqn:E; [exact IH|exact E].
Qed.

Lemma trimStart_fixed (s : jsstring) :
  match s with c :: _ => is_white c = false | [] => True end ->
  trimStart s = s.
Proof. destruct s as [|c s]; simpl; [reflexivity|]. now intros ->. Qed.

Lemma trimStart_suffix (s : jsstring) : exists p, s = p ++ trimStart s.
Proof.
  induction s as [|c s [p IH]]; simpl; [now exists []|].
  destruct (is_white c); [|now exists []].
  exists (c :: p). simpl. now rewrite <- IH.
Qed.

(** Trimming a trimmed string changes nothing. *)
Lemma trim_idempotent (s : jsstring) : trim (trim s) = trim s.
Proof.
  unfold trim.
  set (a := trimStart s). set (b := trimStart (rev a)).
  assert (Hb : trimStart b = b) by apply trimStart_fixed, trimStart_head.
  assert (Hrb : trimStart (rev b) = rev b).
  { apply trimStart_fixed.
    destruct (trimStart_suffix (rev a)) as [p Hp]. fold b in Hp.
    assert (Ha : a = rev b ++ rev p).
    { rewrite <- rev_app_distr, <- Hp. now rewrite rev_involutive. }
    pose proof (trimStart_head s) as Hh. fold a in Hh. rewrite Ha in Hh.
    destruct (rev b); [exact I|exact Hh]. }
  now rewrite Hrb, rev_involutive, Hb.
Qed.

(** C6, as the code has it: [parseNumber] is a function of its argument
    alone; it returns 0 on an empty or whitespace-only string; otherwise
    it removes the commas, trims and converts with [Number], which reads
    decimal literals as decimal parsing does and also the integer
    literals [0x], [0o] and [0b]; a conversion that is not finite gives
    NaN, which is not zero and makes [compute] fail;
    [parseNumber("") = 0], [parseNumber("abc")] is NaN, as are
    ["Infinity"] and a malformed exponent; and a string and the same
    string without its commas parse alike. *)
Theorem parseNumber_spec :
  (forall v, whitespace_only v -> Pages.parseNumber v = pzero)
  /\ (forall v, v <> [] ->
        Pages.parseNumber v
        = let n := Number (trim (removeCommas v)) in
          if Number_isFinite n then n else NaN)
  /\ (forall v, nonDecimalLiteral (trim (removeCommas v)) = None ->
        Pages.parseNumber v
        = let n := decimalNumber (trim (removeCommas v)) in
          if Number_isFinite n then n else NaN)
  /\ (forall v, Number_isFinite (Number (trim (removeCommas v))) = false ->
        Pages.parseNumber v = NaN)
  /\ (forall v, Pages.parseNumber v = NaN ->
        eqb (Pages.parseNumber v) pzero = false)
  /\ (forall h st,
        price st = NaN \/ coins st = NaN \/ daily st = NaN \/ rate st = NaN ->
        exists e, Pages.error (Pages.compute h st) = message e
                  /\ Pages.result (Pages.compute h st) = Pages.result st)
  /\ Pages.parseNumber (lit "") = pzero
  /\ Pages.parseNumber (lit "abc") = NaN
  /\ Pages.parseNumber (lit "Infinity") = NaN
  /\ Pages.parseNumber (lit "1e") = NaN
  /\ (forall v, Pages.parseNumber v = Pages.parseNumber (removeCommas v)).
Proof.
  split; [|split; [|split; [|split; [|split; [|split]]]]].
  - intros v Hw. rewrite parseNumber_cleaned. cbv zeta.
    unfold trim. rewrite (trimStart_white _ (removeCommas_white v Hw)).
    reflexivity.
  - intros v _. apply parseNumber_cleaned.
  - intros v H. rewrite parseNumber_cleaned. cbv zeta.
    unfold Number, decimalNumber. rewrite trim_idempotent.
    destruct (trim (removeCommas v)) as [|c t]; [reflexivity|].
    now rewrite H.
  - intros v H. rewrite parseNumber_cleaned. cbv zeta. now rewrite H.
  - intros v ->. reflexivity.
  - intros h st H.
    destruct (compute_failure_or_success h st)
      as [(e & He & Hres & _) | ((Hp & Hc & Hd & Hr) & _)]; [eauto|].
    destruct H as [H | [H | [H | H]]]; rewrite H in *; discriminate.
  - split; [reflexivity|].
    split; [vm_compute; reflexivity|].
    split; [vm_compute; reflexivity|].
    split; [vm_compute; reflexivity|].
    intros v. rewrite !parseNumber_cleaned.
    now rewrite removeCommas_idempotent.
Qed.

Lemma parseNumber_spec_witness :
  Pages.parseNumber (lit "  ") = pzero
  /\ Pages.parseNumber (lit "8,578") = Number (lit "8578")
  /\ Pages.parseNumber (lit "1,234.5e1") = decimalNumber (lit "12345").
Proof.
  destruct parseNumber_spec as (Hw & _ & Hd & _ & _ & _ & _ & _ & _ & _ & Hc).
  split; [|split].
  - apply Hw. repeat constructor.
  - rewrite Hc. vm_compute. reflexivity.
  - rewrite Hd; vm_compute; reflexivity.
Defined.

(** C6 as stated fails: the conversion is not decimal parsing alone,
    a hexadecimal literal is read as a number too. *)
Lemma parseNumber_reads_hexadecimal :
  let v := lit "0x1F" in
  Pages.parseNumber v = Number (lit "31") /\
  (let n := decimalNumber (trim (removeCommas v)) in
   if Number_isFinite n then n else NaN) = NaN /\
  Pages.parseNumber v
  <> (let n := decimalNumber (trim (removeCommas v)) in
      if Number_isFinite n then n else NaN).
Proof.
  cbv zeta. split; [vm_compute; reflexivity|].
  split; [vm_compute; reflexivity|]. vm_compute. discriminate.
Qed.

(** *** Results and failures *)

(** C7: in the result of a successful call the three projection fields
    are all present or all absent. *)
Theorem projection_fields_grouped (h : Host) (st : Pages.State) (r : Result) :
  Pages.error (Pages.compute h st) = [] ->
  Pages.result (Pages.compute h st) = Some r ->
  has_projection r \/ no_projection r.
Proof.
  intros He Hr.
  destruct (compute_failure_or_success h st)
    as [(e & He' & _) | (_ & _ & _ & r' & Hr' & _ & _ & H)].
  - rewrite He in He'. symmetry in He'. now apply message_nonempty in He'.
  - congruence.
Qed.

Lemma projection_fields_grouped_witness :
  exists r,
    Pages.result
      (Pages.compute jakarta (form "0.4796" "8578" "180" "2025-02-14" "15000"))
      = Some r /\
    (has_projection r \/ no_projection r).
Proof.
  eexists. split; [vm_compute; reflexivity|].
  apply (projection_fields_grouped jakarta
           (form "0.4796" "8578" "180" "2025-02-14" "15000"));
    vm_compute; reflexivity.
Defined.

(** C8: a call that fails a validation check reports the message of the
    first failing check, ends the computation, and leaves the stored
    result as it was. *)
Theorem compute_failure (h : Host) (st : Pages.State) :
  ~ inputs_valid st ->
  exists e,
    failing_check e st /\
    Pages.error (Pages.compute h st) = message e /\ message e <> [] /\
    Pages.result (Pages.compute h st) = Pages.result st /\
    Pages.isCalculating (Pages.compute h st) = false.
Proof.
  intros Hn.
  destruct (compute_failure_or_success h st)
    as [(e & He & Hres & Hcalc & Hc) | (Hv & _)]; [|contradiction].
  exists e. repeat split; auto using message_nonempty.
Qed.

Lemma compute_failure_witness :
  let st := Pages.setResult (Some stored) (form "0.48" "-5" "0" "" "15000") in
  Pages.error (Pages.compute jakarta st) = message InvalidHolding
  /\ Pages.result (Pages.compute jakarta st) = Some stored.
Proof.
  cbv zeta.
  destruct (compute_failure jakarta
              (Pages.setResult (Some stored) (form "0.48" "-5" "0" "" "15000")))
    as (e & _ & _ & _ & Hres & _).
  - vm_compute. intros (_ & H & _). discriminate H.
  - split; [vm_compute; reflexivity|exact Hres].
Defined.

(** *** The two files *)


Lemma compute_agree (h : Host) (q : Part000.State) :
  Pages.compute h (to_pages q) = to_pages (Part000.compute h q).
Proof.
  unfold Pages.compute, Part000.compute, Part000.currentValues.
  cbn [to_pages Pages.pricePerCoin Pages.currentCoins Pages.dailyCoins
       Pages.usdToIdr Pages.endDate].
  change Part000.parseNumber with Pages.parseNumber.
  destruct (Number_isNaN (Pages.parseNumber (Part000.pricePerCoin q))
            || ltb (Pages.parseNumber (Part000.pricePerCoin q)) pzero);
    [reflexivity|].
  destruct (Number_isNaN (Pages.parseNumber (Part000.currentCoins q))
            || ltb (Pages.parseNumber (Part000.currentCoins q)) pzero);
    [reflexivity|].
  destruct (Number_isNaN (Pages.parseNumber (Part000.dailyCoins q))
            || ltb (Pages.parseNumber (Part000.dailyCoins q)) pzero);
    [reflexivity|].
  destruct (Number_isNaN (Pages.parseNumber (Part000.usdToIdr q))
            || leb (Pages.parseNumber (Part000.usdToIdr q)) pzero);
    reflexivity.
Qed.

(** *** The exchange rate *)

Lemma fetch_failed_fallback (r : Response) (st : Part000.State) :
  fetch_failed r ->
  Part000.fetchExchangeRate r st
  = Part000.setIsLoadingRate false
      (Part000.setUsdToIdr (lit "15000")
         (Part000.setError Part000.msgFetch
            (Part000.setIsLoadingRate true st))).
Proof.
  intros [| |data Hm]; try reflexivity.
  unfold Part000.fetchExchangeRate, Part000.adoptRate.
  destruct data as [|b|x|s|items|fields]; try reflexivity.
  unfold idr_of in Hm. cbn [rates_of] in Hm. cbn [getProp].
  destruct (own (lit "rates") fields) as [rates|]; [|reflexivity].
  destruct rates as [|b|x|s|items|rs]; cbn [truthy getProp].
  - reflexivity.
  - destruct b; reflexivity.
  - destruct x as [sx|sx| |sx mx ex]; reflexivity.
  - destruct s; reflexivity.
  - reflexivity.
  - rewrite Hm. reflexivity.
Qed.

(** C9: when the request fails, the body is malformed or the IDR rate is
    missing, the rate becomes the fallback "15000" with an advisory
    message, and the call always returns; a usable IDR figure is adopted
    as the rate; and [compute] after a fallback succeeds when the other
    inputs are valid. *)
Theorem fetch_rate_fallback :
  (forall r st,
      Part000.isLoadingRate (Part000.fetchExchangeRate r st) = false)
  /\ (forall r st, fetch_failed r ->
        let st' := Part000.fetchExchangeRate r st in
        Part000.usdToIdr st' = lit "15000" /\
        Part000.error st' = Part000.msgFetch /\ Part000.msgFetch <> [])
  /\ (forall data x st, idr_of data = Some (JNum x) -> valid_pos x = true ->
        let st' := Part000.fetchExchangeRate (Body data) st in
        Part000.usdToIdr st' = Number_toString x /\
        Part000.error st' = Part000.error st)
  /\ (forall h r st, fetch_failed r ->
        valid_nonneg (Part000.parseNumber (Part000.pricePerCoin st)) = true ->
        valid_nonneg (Part000.parseNumber (Part000.currentCoins st)) = true ->
        valid_nonneg (Part000.parseNumber (Part000.dailyCoins st)) = true ->
        let st' := Part000.compute h (Part000.fetchExchangeRate r st) in
        Part000.error st' = [] /\
        exists res,
          Part000.result st' = Some res /\
          totalIDR res = mul (totalUSDT res) (of_Z 15000)).
Proof.
  split; [|split; [|split]].
  - intros r st. reflexivity.
  - intros r st Hf. cbv zeta. rewrite (fetch_failed_fallback r st Hf).
    repeat split. vm_compute. discriminate.
  - intros data x st Hidr Hx. cbv zeta.
    unfold Part000.fetchExchangeRate, Part000.adoptRate.
    unfold idr_of, rates_of in Hidr.
    destruct data as [|b|y|s|items|fields]; try discriminate.
    cbn [getProp].
    destruct (own (lit "rates") fields) as [rates|]; [|discriminate].
    destruct rates as [|b|y|s|items|rs]; try discriminate.
    cbn [truthy getProp]. rewrite Hidr.
    replace (truthy (Some (JNum x))) with true.
    + split; reflexivity.
    + destruct x as [sx|sx| |sx mx ex]; try reflexivity; discriminate.
  - intros h r st Hf Hp Hc Hd. cbv zeta.
    rewrite (fetch_failed_fallback r st Hf).
    set (q := Part000.setIsLoadingRate false _).
    assert (Hv : inputs_valid (to_pages q)).
    { split; [exact Hp|]. split; [exact Hc|]. split; [exact Hd|].
      vm_compute. reflexivity. }
    change (Part000.error (Part000.compute h q))
      with (Pages.error (to_pages (Part000.compute h q))).
    change (Part000.result (Part000.compute h q))
      with (Pages.result (to_pages (Part000.compute h q))).
    rewrite <- compute_agree.
    destruct (compute_failure_or_success h (to_pages q))
      as [(e & _ & _ & _ & Hfail) | (_ & He & _ & res & Hres & Hu & Hi & _)].
    + destruct Hv as (Hp' & Hc' & Hd' & Hr').
      destruct e; simpl in Hfail;
        split_hyps; congruence.
    + split; [exact He|]. exists res. split; [exact Hres|].
      rewrite Hi, Hu. f_equal.
Qed.

Lemma fetch_rate_fallback_witness :
  let st' := Part000.compute jakarta (Part000.fetchExchangeRate NetworkError sample) in
  Part000.usdToIdr st' = lit "15000" /\
  Part000.error st' = [] /\
  exists res,
    Part000.result st' = Some res /\
    totalIDR res = mul (totalUSDT res) (of_Z 15000).
Proof.
  destruct fetch_rate_fallback as (_ & _ & _ & H).
  split; [vm_compute; reflexivity|].
  apply (H jakarta NetworkError sample).
  - constructor.
  - vm_compute. reflexivity.
  - vm_compute. reflexivity.
  - vm_compute. reflexivity.
Defined.

(** A body with a usable rate, and bodies without one. *)
Example fetch_rate_adopted :
  Part000.usdToIdr
    (Part000.fetchExchangeRate
       (Body (JObj [(lit "base", JStr (lit "USD"));
                    (lit "rates", JObj [(lit "IDR", JNum (Number (lit "16234.5")))])]))
       sample)
  = lit "16234.5".
Proof. vm_compute. reflexivity. Qed.

Example fetch_rate_null_body :
  Part000.usdToIdr (Part000.fetchExchangeRate (Body JNull) sample) = lit "15000".
Proof. vm_compute. reflexivity. Qed.

(** ** The day count, exactly *)

(** *** Exact arithmetic on time values *)

(** Shifting out bits that are all zero loses nothing. *)
Lemma iter_shr_1_exact (p : positive) (m : Z) :
  0 <= m -> (2 ^ Zpos p | m) ->
  iter_pos shr_1 p (Build_shr_record m false false)
  = Build_shr_record (m / 2 ^ Zpos p) false false.
Proof.
  revert m. induction p as [p IH|p IH|]; intros m Hm [q Hq]; cbn [iter_pos].
  - replace (Z.pos p~1) with (1 + Z.pos p + Z.pos p) in * by lia.
    rewrite !Z.pow_add_r in * by lia. change (2 ^ 1) with 2 in *.
    set (P := 2 ^ Z.pos p) in *.
    assert (HP : 0 < P) by (apply Z.pow_pos_nonneg; lia).
    assert (H1 : shr_1 (Build_shr_record m false false)
                 = Build_shr_record (q * P * P) false false).
    { rewrite Hq. replace (q * (2 * P * P)) with (2 * (q * P * P)) by ring.
      destruct (q * P * P) as [|r|r]; reflexivity. }
    assert (H2 : q * P * P / P = q * P) by (apply Z.div_mul; lia).
    assert (H3 : q * P / P = q) by (apply Z.div_mul; lia).
    assert (H4 : m / (2 * P * P) = q) by (rewrite Hq; apply Z.div_mul; nia).
    rewrite H1, IH, H2, IH, H3, H4; try reflexivity; try nia.
    + exists q. reflexivity.
    + exists (q * P). reflexivity.
  - replace (Z.pos p~0) with (Z.pos p + Z.pos p) in * by lia.
    rewrite !Z.pow_add_r in * by lia.
    set (P := 2 ^ Z.pos p) in *.
    assert (HP : 0 < P) by (apply Z.pow_pos_nonneg; lia).
    assert (H2 : m / P = q * P).
    { rewrite Hq, Z.mul_assoc. apply Z.div_mul; lia. }
    assert (H3 : q * P / P = q) by (apply Z.div_mul; lia).
    assert (H4 : m / (P * P) = q) by (rewrite Hq; apply Z.div_mul; nia).
    rewrite IH, H2, IH, H3, H4; try reflexivity; try nia.
    + exists q. reflexivity.
    + exists (q * P). rewrite Hq. ring.
  - change (2 ^ 1) with 2 in *. rewrite Hq, Z.div_mul by lia.
    replace (q * 2) with (2 * q) by ring.
    destruct q as [|r|r]; reflexivity.
Qed.

Lemma of_Z_shape (z : Z) :
  z <> 0 -> Z.abs z < 2 ^ 53 ->
  of_Z z = S754_finite (z <? 0)
             (Z.to_pos (Z.abs z * 2 ^ (53 - Zdigits2 z))) (Zdigits2 z - 53).
Proof.
  intros Hz Hb.
  destruct (of_Z_exact z Hz Hb) as (m & e & -> & He & Hm & Hd).
  assert (Hdz : Zdigits2 (Zpos m) = Zdigits2 z - e).
  { rewrite Hm, Zdigits2_mul_pow, Zdigits2_abs by lia. lia. }
  simpl Zdigits2 in Hdz.
  assert (e = Zdigits2 z - 53) by lia. subst e.
  replace (53 - Zdigits2 z) with (- (Zdigits2 z - 53)) by lia.
  now rewrite <- Hm.
Qed.

(** Rounding an integer that fits in 53 bits, written with enough zero
    bits below it, gives that integer. *)
Lemma binary_round_aux_integer (s : bool) (k : positive) (j : Z) :
  Zpos (digits2_pos k) <= 53 -> 53 - Zpos (digits2_pos k) <= j ->
  binary_round_aux prec emax s (Zpos k * 2 ^ j) (- j) loc_Exact
  = S754_finite s (Z.to_pos (Zpos k * 2 ^ (53 - Zpos (digits2_pos k))))
      (Zpos (digits2_pos k) - 53).
Proof.
  intros Hd Hj. set (d := Zpos (digits2_pos k)) in *.
  assert (Hd1 : 1 <= d) by (unfold d; lia).
  assert (Hdig : Zdigits2 (Zpos k * 2 ^ j) = d + j).
  { rewrite Zdigits2_mul_pow by lia. reflexivity. }
  assert (Hpj : 0 < 2 ^ j) by (apply Z.pow_pos_nonneg; lia).
  set (n := d - 53 + j).
  assert (Hm1 : Zpos k * 2 ^ j / 2 ^ n = Zpos k * 2 ^ (53 - d)).
  { replace j with ((53 - d) + n) at 1 by (unfold n; lia).
    rewrite Z.pow_add_r, Z.mul_assoc by (unfold n; lia).
    apply Z.div_mul. apply Z.pow_nonzero; unfold n; lia. }
  assert (Hpos : 0 < Zpos k * 2 ^ (53 - d)).
  { apply Z.mul_pos_pos; [lia|apply Z.pow_pos_nonneg; lia]. }
  assert (Hshift :
    shr_fexp prec emax (Zpos k * 2 ^ j) (- j) loc_Exact
    = (Build_shr_record (Zpos k * 2 ^ (53 - d)) false false, d - 53)).
  { unfold shr_fexp, shr. rewrite Hdig, fexp_eq.
    replace (Z.max (d + j + - j - 53) (-1074) - - j) with n by (unfold n; lia).
    cbn [shr_record_of_loc].
    destruct n as [|p|p] eqn:En.
    - rewrite <- Hm1. simpl (2 ^ 0). rewrite Z.div_1_r.
      f_equal. lia.
    - rewrite iter_shr_1_exact.
      + rewrite Hm1. f_equal. lia.
      + lia.
      + exists (Zpos k * 2 ^ (53 - d)).
        rewrite <- Z.mul_assoc, <- Z.pow_add_r by lia. do 2 f_equal. lia.
    - lia. }
  unfold binary_round_aux. rewrite Hshift.
  cbn [shr_m loc_of_shr_record round_nearest_even].
  assert (Hdig2 : Zdigits2 (Zpos k * 2 ^ (53 - d)) = 53).
  { rewrite Zdigits2_mul_pow by lia. simpl Zdigits2. fold d. lia. }
  unfold shr_fexp, shr. rewrite Hdig2, fexp_eq.
  replace (Z.max (53 + (d - 53) - 53) (-1074) - (d - 53)) with 0 by lia.
  cbn [shr_record_of_loc shr_m].
  destruct (Zpos k * 2 ^ (53 - d)) as [|q|q] eqn:E; try lia.
  replace (d - 53 <=? emax - prec) with true
    by (symmetry; apply Z.leb_le; unfold emax, prec; lia).
  reflexivity.
Qed.

Lemma of_Z_opp (z : Z) :
  z <> 0 -> Z.abs z < 2 ^ 53 -> of_Z (- z) = SFopp (of_Z z).
Proof.
  intros Hz Hb.
  rewrite (of_Z_shape z), (of_Z_shape (- z)) by (try rewrite Z.abs_opp; lia).
  cbn [SFopp]. rewrite Z.abs_opp.
  replace (Zdigits2 (- z)) with (Zdigits2 z) by (destruct z; reflexivity).
  f_equal. destruct (Z.ltb_spec z 0), (Z.ltb_spec (- z) 0); try reflexivity; lia.
Qed.

(** The difference of two time values less than [2^53] apart is exact. *)
Lemma sub_of_Z_exact (a b : Z) :
  Z.abs a <= maxTime -> Z.abs b <= maxTime -> Z.abs (a - b) < 2 ^ 53 ->
  sub (of_Z a) (of_Z b) = of_Z (a - b).
Proof.
  intros Ha Hb Hab.
  assert (Ha' : Z.abs a < 2 ^ 53) by (unfold maxTime in Ha; simpl; lia).
  assert (Hb' : Z.abs b < 2 ^ 53) by (unfold maxTime in Hb; simpl; lia).
  destruct (Z.eq_dec a 0) as [->|Na]; destruct (Z.eq_dec b 0) as [->|Nb].
  - reflexivity.
  - rewrite Z.sub_0_l, of_Z_opp by assumption.
    rewrite (of_Z_shape b) by assumption. reflexivity.
  - rewrite Z.sub_0_r, (of_Z_shape a) by assumption. reflexivity.
  - destruct (of_Z_exact a Na Ha') as (ma & ea & Ea & Hea & Hma & Hda).
    destruct (of_Z_exact b Nb Hb') as (mb & eb & Eb & Heb & Hmb & Hdb).
    rewrite Ea, Eb. cbn [sub SFsub].
    destruct (shl_align_spec ma ea (Z.min ea eb)) as (za & ka & -> & Hka & Hza).
    destruct (shl_align_spec mb eb (Z.min ea eb)) as (zb & kb & -> & Hkb & Hzb).
    cbn [fst].
    remember (Z.min ea eb) as k eqn:Ek.
    assert (Eka : ka = k) by lia. assert (Ekb : kb = k) by lia.
    clear Hka Hkb. subst ka kb.
    rewrite (of_Z_scaled a ma ea k za), (of_Z_scaled b mb eb k zb)
      by (assumption || lia).
    rewrite <- Z.mul_sub_distr_r.
    assert (Hp : 0 < 2 ^ (- k)) by (apply Z.pow_pos_nonneg; lia).
    destruct (Z.eq_dec a b) as [->|Nab]; [now rewrite Z.sub_diag|].
    rewrite (of_Z_shape (a - b)) by lia.
    set (c := a - b) in *.
    assert (Hgen : forall s p, Zpos p = Z.abs c * 2 ^ (- k) ->
              binary_round prec emax s p k
              = S754_finite s (Z.to_pos (Z.abs c * 2 ^ (53 - Zdigits2 c)))
                  (Zdigits2 c - 53)).
    { intros s p Hpz. unfold binary_round.
      assert (Hdp : Zpos (digits2_pos p) = Zdigits2 c - k).
      { change (Zdigits2 (Zpos p) = Zdigits2 c - k).
        rewrite Hpz, Zdigits2_mul_pow, Zdigits2_abs by lia. lia. }
      assert (Hdc : 1 <= Zdigits2 c <= 53).
      { rewrite <- Zdigits2_abs. split.
        - destruct (Z.abs c) eqn:E; simpl; lia.
        - apply Zdigits2_le; lia. }
      destruct (shl_align_spec p k (fexp prec emax (Zpos (digits2_pos p) + k)))
        as (mz & ez & -> & Hez & Hmz).
      rewrite fexp_eq, Hdp in Hez.
      assert (Hmz' : Zpos mz = Zpos (Z.to_pos (Z.abs c)) * 2 ^ (- ez)).
      { rewrite Hmz, Hpz, Z2Pos.id, <- Z.mul_assoc, <- Z.pow_add_r by lia.
        do 2 f_equal. lia. }
      assert (Hre : binary_round_aux prec emax s (Zpos mz) ez loc_Exact
                = binary_round_aux prec emax s
                    (Zpos (Z.to_pos (Z.abs c)) * 2 ^ (- ez)) (- (- ez)) loc_Exact)
        by (rewrite Hmz', Z.opp_involutive; reflexivity).
      rewrite Hre.
      assert (Hdk : Zpos (digits2_pos (Z.to_pos (Z.abs c))) = Zdigits2 c).
      { rewrite <- Zdigits2_abs. destruct (Z.abs c) eqn:E; try lia. reflexivity. }
      rewrite binary_round_aux_integer by (rewrite Hdk; lia).
      rewrite Hdk, Z2Pos.id by lia. reflexivity. }
    unfold binary_normalize.
    destruct (c * 2 ^ (- k)) as [|p|p] eqn:E.
    + nia.
    + assert (0 < c) by nia.
      replace (c <? 0) with false by (symmetry; apply Z.ltb_ge; lia).
      apply Hgen. rewrite Z.abs_eq by lia. lia.
    + assert (c < 0) by nia.
      replace (c <? 0) with true by (symmetry; apply Z.ltb_lt; lia).
      apply Hgen. rewrite Z.abs_neq by lia. lia.
Qed.

(** A whole number of days divides out exactly. *)
Lemma div_days_exact (k : Z) :
  0 <= k <= 100000000 ->
  div (of_Z (k * 86400000)) (of_Z 86400000) = of_Z k.
Proof.
  intros Hk. rewrite of_Z_msPerDay.
  destruct (Z.eq_dec k 0) as [->|Nk]; [reflexivity|].
  assert (Hkc : Z.abs (k * 86400000) < 2 ^ 53) by (simpl; lia).
  rewrite (of_Z_shape (k * 86400000)) by lia.
  rewrite (of_Z_shape k) by (simpl; lia).
  replace (k * 86400000 <? 0) with false by (symmetry; apply Z.ltb_ge; lia).
  replace (k <? 0) with false by (symmetry; apply Z.ltb_ge; lia).
  rewrite !Z.abs_eq by lia.
  set (dx := Zdigits2 (k * 86400000)). set (dk := Zdigits2 k).
  assert (Hdk : 1 <= dk <= 27).
  { unfold dk. split.
    - destruct k; simpl; lia.
    - apply Zdigits2_le; simpl; lia. }
  assert (Hdx : dk + 26 <= dx <= dk + 27).
  { unfold dx, dk. split.
    - replace (Zdigits2 k + 26) with (Zdigits2 (k * 2 ^ 26))
        by (apply Zdigits2_mul_pow; lia).
      apply Zdigits2_mono. change (2 ^ 26) with 67108864. lia.
    - apply Zdigits2_le; try lia.
      pose proof (Zdigits2_lt_pow k ltac:(lia)) as H.
      rewrite Z.pow_add_r by (fold dk; lia).
      change (2 ^ 27) with 134217728. lia. }
  assert (Hdx53 : dx <= 53).
  { unfold dx. apply Zdigits2_le; lia. }
  assert (Hp1 : 0 < 2 ^ (53 - dx)) by (apply Z.pow_pos_nonneg; lia).
  assert (Hp2 : 0 < 2 ^ (80 - dx)) by (apply Z.pow_pos_nonneg; lia).
  set (mx := Z.to_pos (k * 86400000 * 2 ^ (53 - dx))).
  assert (Hmx : Zpos mx = k * 86400000 * 2 ^ (53 - dx)).
  { unfold mx. rewrite Z2Pos.id; nia. }
  assert (Hdmx : Zdigits2 (Zpos mx) = 53).
  { rewrite Hmx, Zdigits2_mul_pow by lia. fold dx. lia. }
  cbn [div SFdiv]. unfold SFdiv_core_binary.
  rewrite Hdmx. simpl (Zdigits2 (Zpos 5798205849600000)).
  rewrite fexp_eq.
  replace (Z.min (Z.max (53 + (dx - 53) - (53 + -26) - 53) (-1074))
             (dx - 53 - -26)) with (dx - 80) by lia.
  replace (dx - 53 - -26 - (dx - 80)) with 53 by lia.
  cbv iota.
  assert (Hq : Z.div_eucl (Z.shiftl (Zpos mx) 53) 5798205849600000
               = (k * 2 ^ (80 - dx), 0)).
  { rewrite Z.shiftl_mul_pow2, Hmx by lia.
    pose proof (Z_div_mod (k * 86400000 * 2 ^ (53 - dx) * 2 ^ 53)
                  5798205849600000 ltac:(lia)) as H.
    destruct (Z.div_eucl _ _) as [q r]. destruct H as [H1 H2].
    assert (E : k * 86400000 * 2 ^ (53 - dx) * 2 ^ 53
                = 5798205849600000 * (k * 2 ^ (80 - dx))).
    { replace (80 - dx) with ((53 - dx) + 27) by lia.
      rewrite Z.pow_add_r by lia. change (2 ^ 27) with 134217728.
      change (2 ^ 53) with 9007199254740992. ring. }
    rewrite E in H1.
    assert (q = k * 2 ^ (80 - dx)) by nia.
    assert (r = 0) by nia. now subst. }
  rewrite Hq. cbn [xorb]. 
  change (new_location 5798205849600000 0) with loc_Exact.
  replace (dx - 80) with (- (80 - dx)) by lia.
  replace k with (Zpos (Z.to_pos k)) at 1 by (apply Z2Pos.id; lia).
  assert (Hdkp : Zpos (digits2_pos (Z.to_pos k)) = dk).
  { unfold dk. destruct k; try lia. reflexivity. }
  rewrite binary_round_aux_integer by (rewrite Hdkp; lia).
  rewrite Hdkp, Z2Pos.id by lia. reflexivity.
Qed.

(** The ceiling of an integer is itself. *)
Lemma Math_ceil_of_Z (k : Z) : Z.abs k < 2 ^ 53 -> Math_ceil (of_Z k) = of_Z k.
Proof.
  intros Hk. destruct (Z.eq_dec k 0) as [->|Nk]; [reflexivity|].
  destruct (of_Z_exact k Nk Hk) as (m & e & E & He & Hm & Hd).
  rewrite E. unfold Math_ceil.
  destruct (Z.leb_spec 0 e) as [H0|H0]; [reflexivity|].
  assert (Hp : 0 < 2 ^ (- e)) by (apply Z.pow_pos_nonneg; lia).
  assert (Hc : - (- cond_Zopp (k <? 0) (Zpos m) / 2 ^ (- e)) = k).
  { rewrite Hm. unfold cond_Zopp. destruct (Z.ltb_spec k 0).
    - rewrite Z.opp_involutive, Z.div_mul, Z.abs_neq by lia. lia.
    - rewrite <- Z.mul_opp_l, Z.div_mul, Z.abs_eq by lia. lia. }
  rewrite Hc. destruct (Z.eqb_spec k 0); [contradiction|]. now rewrite <- E.
Qed.

(** Rounding, step by step: a shift to the format's exponent, a rounding
    of the shifted mantissa by at most one, a second shift should the
    rounding have carried. *)
Lemma binary_round_aux_steps (s : bool) (m e : Z) (l : location) :
  0 <= m ->
  exists m2 e1 e2,
    e1 = Z.max e (fexp prec emax (Zdigits2 m + e)) /\
    m / 2 ^ (e1 - e) <= m2 <= m / 2 ^ (e1 - e) + 1 /\
    e2 = Z.max e1 (fexp prec emax (Zdigits2 m2 + e1)) /\
    binary_round_aux prec emax s m e l
    = match m2 / 2 ^ (e2 - e1) with
      | Z0 => S754_zero s
      | Zpos p => if e2 <=? emax - prec then S754_finite s p e2 else S754_infinity s
      | Zneg _ => S754_nan
      end.
Proof.
  intros Hm. unfold binary_round_aux.
  destruct (shr_fexp_spec m e l Hm) as (mrs1 & e1 & -> & He1 & Hm1).
  pose proof (round_nearest_even_bounds (shr_m mrs1) (loc_of_shr_record mrs1)) as Hr.
  set (m2 := round_nearest_even _ _) in *.
  assert (H1 : 0 <= shr_m mrs1).
  { rewrite Hm1. apply Z.div_pos; [lia|]. apply Z.pow_pos_nonneg; lia. }
  destruct (shr_fexp_spec m2 e1 loc_Exact ltac:(lia)) as (mrs2 & e2 & -> & He2 & Hm2).
  exists m2, e1, e2. rewrite <- Hm1, <- Hm2. repeat split; auto; lia.
Qed.

Lemma Zdigits2_between (m k : Z) :
  0 <= k -> 2 ^ k <= m < 2 ^ (k + 1) -> Zdigits2 m = k + 1.
Proof.
  intros Hk [Hlo Hhi].
  assert (H0 : 0 < 2 ^ k) by (apply Z.pow_pos_nonneg; lia).
  rewrite Zdigits2_log2 by lia. f_equal.
  apply Z.log2_unique; [lia|]. rewrite <- Z.add_1_r. lia.
Qed.

(** The ceiling of a double strictly between two neighbouring
    integers. *)
Lemma Math_ceil_between (p : positive) (e K : Z) :
  e < 0 -> 0 <= K ->
  K * 2 ^ (- e) < Zpos p < (K + 1) * 2 ^ (- e) ->
  Math_ceil (S754_finite false p e) = of_Z (K + 1).
Proof.
  intros He HK [Hlo Hhi]. unfold Math_ceil.
  replace (0 <=? e) with false by (symmetry; apply Z.leb_gt; lia).
  cbn [cond_Zopp].
  assert (HR : 0 < 2 ^ (- e)) by (apply Z.pow_pos_nonneg; lia).
  set (R := 2 ^ (- e)) in *.
  assert (Hq : - Zpos p / R = - (K + 1)).
  { symmetry. apply Z.div_unique with ((K + 1) * R - Zpos p); [left; lia|ring]. }
  rewrite Hq, Z.opp_involutive.
  replace (K + 1 =? 0) with false by (symmetry; apply Z.eqb_neq; lia).
  reflexivity.
Qed.

(** A number of days that is not whole: the quotient lies strictly
    between two integers, and its ceiling is the upper one. *)
Lemma div_part_days (n : Z) :
  0 < n < 2 ^ 51 -> n mod 86400000 <> 0 ->
  Math_ceil (div (of_Z n) (of_Z 86400000)) = of_Z (n / 86400000 + 1).
Proof.
  intros Hn Hr. rewrite of_Z_msPerDay.
  assert (Hn53 : Z.abs n < 2 ^ 53).
  { change (2 ^ 51) with 2251799813685248 in Hn.
    change (2 ^ 53) with 9007199254740992. lia. }
  rewrite (of_Z_shape n) by lia.
  replace (n <? 0) with false by (symmetry; apply Z.ltb_ge; lia).
  rewrite Z.abs_eq by lia.
  set (dn := Zdigits2 n).
  assert (Hdn : 1 <= dn <= 51).
  { unfold dn. split.
    - destruct n; simpl; lia.
    - apply Zdigits2_le; lia. }
  assert (Hnhi : n < 2 ^ dn) by (apply Zdigits2_lt_pow; lia).
  assert (Hnlo : 2 ^ (dn - 1) <= n).
  { destruct (Z_lt_le_dec n (2 ^ (dn - 1))) as [Hlt|]; [|assumption].
    apply Zdigits2_le in Hlt; [fold dn in Hlt|lia|lia]. lia. }
  set (P := 2 ^ (80 - dn)).
  assert (HP : 2 ^ 29 <= P) by (apply Z.pow_le_mono_r; lia).
  change (2 ^ 29) with 536870912 in HP.
  assert (HnP : 2 ^ 79 <= n * P < 2 ^ 80).
  { assert (E1 : 2 ^ (dn - 1) * P = 2 ^ 79).
    { unfold P. rewrite <- Z.pow_add_r by lia. f_equal. lia. }
    assert (E2 : 2 ^ dn * P = 2 ^ 80).
    { unfold P. rewrite <- Z.pow_add_r by lia. f_equal. lia. }
    nia. }
  change (2 ^ 79) with 604462909807314587353088 in HnP.
  change (2 ^ 80) with 1208925819614629174706176 in HnP.
  assert (Hp1 : 0 < 2 ^ (53 - dn)) by (apply Z.pow_pos_nonneg; lia).
  assert (EP : P = 2 ^ (53 - dn) * 134217728).
  { unfold P. replace (80 - dn) with ((53 - dn) + 27) by lia.
    now rewrite Z.pow_add_r by lia. }
  set (mx := Z.to_pos (n * 2 ^ (53 - dn))).
  assert (Hmx : Zpos mx = n * 2 ^ (53 - dn)).
  { unfold mx. rewrite Z2Pos.id; nia. }
  assert (Hdmx : Zdigits2 (Zpos mx) = 53).
  { rewrite Hmx, Zdigits2_mul_pow by lia. fold dn. lia. }
  cbn [div SFdiv]. unfold SFdiv_core_binary.
  rewrite Hdmx. simpl (Zdigits2 (Zpos 5798205849600000)).
  rewrite fexp_eq.
  replace (Z.min (Z.max (53 + (dn - 53) - (53 + -26) - 53) (-1074))
             (dn - 53 - -26)) with (dn - 80) by lia.
  replace (dn - 53 - -26 - (dn - 80)) with 53 by lia.
  cbv iota.
  pose proof (Z_div_mod (Z.shiftl (Zpos mx) 53) 5798205849600000 ltac:(lia)) as Hdm.
  destruct (Z.div_eucl (Z.shiftl (Zpos mx) 53) 5798205849600000) as [q rem].
  destruct Hdm as [Hdm1 Hdm2].
  rewrite Z.shiftl_mul_pow2, Hmx in Hdm1 by lia.
  change (2 ^ 53) with 9007199254740992 in Hdm1.
  (* the quotient, between the two integers *)
  set (K := n / 86400000). set (r := n mod 86400000) in *.
  assert (En : n = 86400000 * K + r) by (apply Z.div_mod; lia).
  assert (Hrr : 0 < r < 86400000).
  { pose proof (Z.mod_pos_bound n 86400000 ltac:(lia)). fold r in H. lia. }
  assert (HK : 0 <= K) by (apply Z.div_pos; lia).
  assert (Hq : 86400000 * q <= n * P < 86400000 * (q + 1)) by nia.
  assert (Hqb : 4503599627370496 <= q < 18014398509481984) by lia.
  assert (HqK : K * P + 6 <= q <= K * P + P - 7) by nia.
  cbn [xorb].
  destruct (binary_round_aux_steps false q (dn - 80)
              (new_location 5798205849600000 rem) ltac:(lia))
    as (m2 & e1 & e2 & He1 & Hm2 & He2 & ->).
  rewrite fexp_eq in He1, He2.
  assert (Hj : (e1 = dn - 80 /\ q < 9007199254740992 /\ q <= m2 <= q + 1)
            \/ (e1 = dn - 79 /\ 9007199254740992 <= q /\ q / 2 <= m2 <= q / 2 + 1)).
  { destruct (Z_lt_le_dec q 9007199254740992) as [Hlt|Hge].
    - left. rewrite (Zdigits2_between q 52) in He1 by (simpl; lia).
      assert (E : e1 = dn - 80) by lia. rewrite E, Z.sub_diag in Hm2.
      simpl (2 ^ 0) in Hm2. rewrite Z.div_1_r in Hm2. auto.
    - right. rewrite (Zdigits2_between q 53) in He1 by (simpl; lia).
      assert (E : e1 = dn - 79) by lia. rewrite E in Hm2.
      replace (dn - 79 - (dn - 80)) with 1 in Hm2 by lia.
      change (2 ^ 1) with 2 in Hm2. auto. }
  assert (Hm2b : 4503599627370496 <= m2 <= 9007199254740992).
  { destruct Hj as [(_ & Hq1 & Hq2)|(_ & Hq1 & Hq2)];
      [lia|]. Z.div_mod_to_equations. lia. }
  assert (Hj2 : (e2 = e1 /\ m2 < 9007199254740992 /\ m2 / 2 ^ (e2 - e1) = m2)
             \/ (e2 = e1 + 1 /\ m2 = 9007199254740992
                 /\ m2 / 2 ^ (e2 - e1) = 4503599627370496)).
  { destruct (Z_lt_le_dec m2 9007199254740992) as [Hlt|Hge].
    - left. rewrite (Zdigits2_between m2 52) in He2 by (simpl; lia).
      assert (E : e2 = e1) by lia. rewrite E, Z.sub_diag.
      simpl (2 ^ 0). rewrite Z.div_1_r. auto.
    - right. assert (E : m2 = 9007199254740992) by lia. rewrite E in He2 |- *.
      simpl (Zdigits2 _) in He2.
      assert (E2 : e2 = e1 + 1) by lia. rewrite E2.
      replace (e1 + 1 - e1) with 1 by lia. auto. }
  set (mf := m2 / 2 ^ (e2 - e1)) in *.
  assert (He2b : dn - 80 <= e2 <= dn - 78) by lia.
  assert (HR : 0 < 2 ^ (- e2)) by (apply Z.pow_pos_nonneg; lia).
  assert (EPR : P = 2 ^ (e2 - (dn - 80)) * 2 ^ (- e2)).
  { unfold P. rewrite <- Z.pow_add_r by lia. f_equal. lia. }
  assert (Hmf : K * 2 ^ (- e2) < mf < (K + 1) * 2 ^ (- e2)).
  { set (R := 2 ^ (- e2)) in *.
    assert (HKP : K * P = 2 ^ (e2 - (dn - 80)) * (K * R)) by (rewrite EPR; ring).
    set (KR := K * R) in *. set (KP := K * P) in *.
    replace ((K + 1) * R) with (KR + R) by (unfold KR; ring).
    destruct Hj as [(E1 & Hq1 & Hq2)|(E1 & Hq1 & Hq2)];
      destruct Hj2 as [(E2 & Hm21 & Hm22)|(E2 & Hm21 & Hm22)];
      rewrite E2, E1 in EPR, HKP;
      match type of EPR with
      | P = 2 ^ ?x * R => ring_simplify x in EPR; ring_simplify x in HKP
      end;
      simpl (2 ^ _) in EPR, HKP;
      Z.div_mod_to_equations; lia. }
  destruct mf as [|p|p] eqn:Emf; try lia.
  replace (e2 <=? emax - prec) with true
    by (symmetry; apply Z.leb_le; unfold emax, prec; lia).
  apply Math_ceil_between; lia.
Qed.

(** The day count of [compute] on two time values up to 26 million days
    apart: the quotient, rounded up. *)
Lemma day_count_ceil (t today : Z) :
  Z.abs t <= maxTime -> Z.abs today <= maxTime ->
  today < t <= today + 26000000 * 86400000 ->
  Math_ceil (div (sub (of_Z t) (of_Z today)) (of_Z 86400000))
  = of_Z ((t - today + 86399999) / 86400000).
Proof.
  intros Ht Hn Hd.
  rewrite sub_of_Z_exact
    by (auto; change (2 ^ 53) with 9007199254740992; lia).
  set (n := t - today) in *.
  destruct (Z.eq_dec (n mod 86400000) 0) as [Hz|Hnz].
  - assert (En : n = n / 86400000 * 86400000).
    { pose proof (Z.div_mod n 86400000 ltac:(lia)). lia. }
    replace ((n + 86399999) / 86400000) with (n / 86400000)
      by (Z.div_mod_to_equations; lia).
    rewrite En at 1.
    rewrite div_days_exact by (Z.div_mod_to_equations; lia).
    apply Math_ceil_of_Z. change (2 ^ 53) with 9007199254740992.
    Z.div_mod_to_equations; lia.
  - replace ((n + 86399999) / 86400000) with (n / 86400000 + 1)
      by (Z.div_mod_to_equations; lia).
    apply div_part_days; [|exact Hnz].
    change (2 ^ 51) with 2251799813685248. lia.
Qed.

Lemma positive_of_Z (k : Z) :
  0 < k -> Z.abs k < 2 ^ 53 -> gtb (of_Z k) pzero = true.
Proof.
  intros Hk Hb. destruct (of_Z_exact k ltac:(lia) Hb) as (m & e & -> & _).
  replace (k <? 0) with false by (symmetry; apply Z.ltb_ge; lia).
  reflexivity.
Qed.

(** X1: when the target's local midnight is a whole number [k] of days
    (of 86,400,000 ms) after today's local midnight, [daysProjected] is
    exactly [k], and the projected value is
    [(coins + daily * k) * price]. *)
Theorem compute_whole_days (h : Host) (st : Pages.State) (t today k : Z) :
  inputs_valid st ->
  gtb (daily st) pzero = true ->
  Pages.endDate st <> [] ->
  dates h st t today ->
  t = today + k * 86400000 ->
  0 <= k <= 100000000 ->
  exists r,
    Pages.result (Pages.compute h st) = Some r /\
    daysProjected r = Some (of_Z k) /\
    projectedUSDT r
      = Some (mul (add (coins st) (mul (daily st) (of_Z k))) (price st)) /\
    projectedIDR r
      = Some (mul (mul (add (coins st) (mul (daily st) (of_Z k))) (price st))
                (rate st)).
Proof.
  intros Hv Hd He Hdates Ht Hk.
  destruct (compute_valid h st Hv) as (r & Hr & _ & _ & Hdays & Hu & Hi).
  rewrite projecting_guard in Hdays, Hu, Hi by assumption.
  destruct (dates_values h st t today Hdates) as [Et En].
  destruct Hdates as (_ & _ & Htr & Hnr).
  assert (Hdiff :
    Math_ceil (div (sub (of_Z t) (of_Z today)) (of_Z 86400000)) = of_Z k).
  { rewrite sub_of_Z_exact by (auto; replace (t - today) with (k * 86400000) by lia;
                               change (2 ^ 53) with 9007199254740992; lia).
    replace (t - today) with (k * 86400000) by lia.
    rewrite div_days_exact by exact Hk.
    apply Math_ceil_of_Z. change (2 ^ 53) with 9007199254740992. lia. }
  rewrite Et, En, msPerDay_value, <- of_Z_msPerDay, Hdiff in Hdays, Hu, Hi.
  assert (Hsel : (if gtb (of_Z k) pzero then of_Z k else pzero) = of_Z k).
  { destruct (Z.eq_dec k 0) as [-> | Hk0]; [reflexivity|].
    rewrite positive_of_Z; [reflexivity|lia|].
    change (2 ^ 53) with 9007199254740992. lia. }
  rewrite Hsel in Hdays, Hu, Hi.
  exists r. auto.
Qed.

(** Scenario 2 of the specification: 2025-02-14 is 30 days after
    2025-01-15. *)
Lemma compute_whole_days_witness :
  exists r,
    Pages.result
      (Pages.compute jakarta (form "0.4796" "8578" "180" "2025-02-14" "15000"))
      = Some r /\
    daysProjected r = Some (of_Z 30).
Proof.
  destruct (compute_whole_days jakarta
              (form "0.4796" "8578" "180" "2025-02-14" "15000")
              1739466000000 1736874000000 30)
    as (r & Hr & Hd & _).
  - vm_compute. auto.
  - vm_compute. reflexivity.
  - vm_compute. discriminate.
  - vm_compute. repeat split; discriminate.
  - reflexivity.
  - lia.
  - exists r. split; assumption.
Defined.

(** X2: for a target up to 26 million days ahead, [daysProjected] is the
    time from today's local midnight to the target's, in days of
    86,400,000 ms, rounded up to a whole number.  A day that has started
    counts: where the clocks go back between the two midnights, a target
    30 calendar days ahead is 30 days and an hour away and counts as
    31. *)
Theorem compute_day_count (h : Host) (st : Pages.State) (t today : Z) :
  inputs_valid st ->
  gtb (daily st) pzero = true ->
  Pages.endDate st <> [] ->
  dates h st t today ->
  today < t <= today + 26000000 * 86400000 ->
  let days := of_Z ((t - today + 86399999) / 86400000) in
  exists r,
    Pages.result (Pages.compute h st) = Some r /\
    daysProjected r = Some days /\
    projectedUSDT r
      = Some (mul (add (coins st) (mul (daily st) days)) (price st)) /\
    projectedIDR r
      = Some (mul (mul (add (coins st) (mul (daily st) days)) (price st))
                (rate st)).
Proof.
  intros Hv Hd He Hdates Ht. cbv zeta.
  destruct (compute_valid h st Hv) as (r & Hr & _ & _ & Hdays & Hu & Hi).
  rewrite projecting_guard in Hdays, Hu, Hi by assumption.
  destruct (dates_values h st t today Hdates) as [Et En].
  destruct Hdates as (_ & _ & Htr & Hnr).
  rewrite Et, En, msPerDay_value, <- of_Z_msPerDay in Hdays, Hu, Hi.
  rewrite (day_count_ceil t today Htr Hnr Ht) in Hdays, Hu, Hi.
  set (k := (t - today + 86399999) / 86400000) in *.
  assert (Hk : 1 <= k <= 26000000).
  { unfold k. Z.div_mod_to_equations. lia. }
  assert (Hsel : (if gtb (of_Z k) pzero then of_Z k else pzero) = of_Z k).
  { rewrite positive_of_Z; [reflexivity|lia|].
    change (2 ^ 53) with 9007199254740992. lia. }
  rewrite Hsel in Hdays, Hu, Hi.
  exists r. auto.
Qed.

(** From New York on 2025-10-20 to 2025-11-19: 30 calendar days, 31 days
    projected. *)
Lemma compute_day_count_witness :
  exists r,
    Pages.result
      (Pages.compute new_york (form "0.4796" "8578" "180" "2025-11-19" "15000"))
      = Some r /\
    daysProjected r = Some (of_Z 31).
Proof.
  destruct (compute_day_count new_york
              (form "0.4796" "8578" "180" "2025-11-19" "15000")
              1763528400000 1760932800000)
    as (r & Hr & Hd & _).
  - vm_compute. auto.
  - vm_compute. reflexivity.
  - vm_compute. discriminate.
  - vm_compute. repeat split; discriminate.
  - lia.
  - exists r. split; assumption.
Defined.

Lemma failing_check_invalid (e : ValidationError) (st : Pages.State) :
  failing_check e st -> ~ inputs_valid st.
Proof.
  intros Hf (Hp & Hc & Hd & Hr). destruct e; simpl in Hf; split_hyps; congruence.
Qed.

(** ** Signs of the results *)

Lemma nonnegative_leb (x : float) : nonnegative x <-> leb pzero x = true.
Proof.
  destruct x as [s|s| |s m e]; simpl; try (destruct s); split;
    try reflexivity; try discriminate; try contradiction; auto.
Qed.

Lemma nonnegative_not_negative (x : float) : nonnegative x -> ltb x pzero = false.
Proof.
  destruct x as [s|s| |s m e]; simpl; try (destruct s);
    try reflexivity; contradiction.
Qed.

Lemma has_sign_nonnegative (x : float) : has_sign false x -> nonnegative x.
Proof.
  destruct x as [s|s| |s m e]; simpl; try (intros ->); auto.
Qed.

Lemma mul_nonnegative (x : float) (m : positive) (e : Z) :
  nonnegative x -> nonnegative (mul x (S754_finite false m e)).
Proof.
  destruct x as [s|s| |s mx ex]; simpl; try contradiction; auto.
  - destruct s; [contradiction|auto].
  - destruct s; [contradiction|]. intros _.
    apply has_sign_nonnegative, binary_round_aux_sign. lia.
Qed.

Lemma mul_finite_zero (x : float) (s : bool) :
  Number_isFinite x = true -> nonnegative (mul x (S754_zero s)).
Proof. destruct x as [sx|sx| |sx mx ex]; try discriminate; intros _; exact I. Qed.

Lemma add_nonnegative (c a : float) :
  valid_nonneg c = true -> nonnegative a -> nonnegative (add c a).
Proof.
  intros Hc Ha.
  destruct (valid_nonneg_inv c Hc) as [[sc ->]|(mc & ec & ->)];
    destruct a as [s|s| |s m e]; simpl in Ha; try contradiction;
    try (destruct s; [contradiction|]); try exact I.
  - destruct sc, s; exact I.
  - unfold add. cbn [SFadd cond_Zopp].
    apply has_sign_nonnegative.
    apply (binary_normalize_sign
             (Zpos (fst (shl_align mc ec (Z.min ec e)))
              + Zpos (fst (shl_align m e (Z.min ec e))))). lia.
Qed.

Lemma days_nonnegative (diff : float) :
  nonnegative (if gtb diff pzero then diff else pzero).
Proof. apply nonnegative_leb, days_nonneg. Qed.

Lemma valid_nonneg_finite (x : float) :
  valid_nonneg x = true -> Number_isFinite x = true.
Proof. unfold valid_nonneg. intros H. now apply andb_true_iff in H. Qed.

(** X3: the totals of a result are never negative and never NaN: each is
    [>= 0] as numbers compare (it can be [+Infinity]). *)
Theorem totals_nonnegative (h : Host) (st : Pages.State) :
  inputs_valid st ->
  exists r,
    Pages.result (Pages.compute h st) = Some r /\
    leb pzero (totalUSDT r) = true /\ leb pzero (totalIDR r) = true.
Proof.
  intros Hv.
  destruct (compute_valid h st Hv) as (r & Hr & HU & HI & _).
  destruct Hv as (Hp & Hc & _ & Hrate).
  destruct (valid_pos_inv _ Hrate) as (mr & er & Er).
  assert (Ht : nonnegative (mul (price st) (coins st))).
  { destruct (valid_nonneg_inv _ Hc) as [[sc ->]|(mc & ec & ->)].
    - apply mul_finite_zero. now apply valid_nonneg_finite.
    - apply mul_nonnegative. apply nonnegative_leb.
      unfold valid_nonneg in Hp. now apply andb_true_iff in Hp. }
  exists r. split; [exact Hr|]. rewrite HU, HI, Er. split.
  - now apply nonnegative_leb.
  - now apply nonnegative_leb, mul_nonnegative.
Qed.

Lemma totals_nonnegative_witness :
  exists r,
    Pages.result
      (Pages.compute jakarta (form "1e200" "1e200" "0" "" "15000")) = Some r /\
    leb pzero (totalUSDT r) = true /\ leb pzero (totalIDR r) = true.
Proof.
  apply (totals_nonnegative jakarta (form "1e200" "1e200" "0" "" "15000")).
  vm_compute. auto.
Defined.

(** X4: on every host, the projected fields of a result are never
    negative; the number of days is [>= 0], and so are both projected
    values when the price is positive.  (With a price of zero they are NaN
    when the projected coins overflow.) *)
Theorem projection_nonnegative (h : Host) (st : Pages.State) (r : Result) :
  inputs_valid st ->
  Pages.result (Pages.compute h st) = Some r ->
  match daysProjected r, projectedUSDT r, projectedIDR r with
  | Some d, Some u, Some i =>
      leb pzero d = true /\ ltb u pzero = false /\ ltb i pzero = false /\
      (gtb (price st) pzero = true ->
       leb pzero u = true /\ leb pzero i = true)
  | None, None, None => True
  | _, _, _ => False
  end.
Proof.
  intros Hv Hr.
  destruct (compute_valid h st Hv) as (r' & Hr' & _ & _ & Hdays & Hu & Hi).
  assert (r' = r) as -> by congruence.
  rewrite Hdays, Hu, Hi.
  destruct (gtb (daily st) pzero && negb (str_eqb (Pages.endDate st) []))
    eqn:G; [|exact I].
  apply andb_true_iff in G. destruct G as [Gd _].
  destruct Hv as (Hp & Hc & Hd & Hrate).
  destruct (valid_pos_inv _ Hrate) as (mr & er & ->).
  destruct (positive_inv _ (valid_nonneg_finite _ Hd) Gd) as (md & ed & ->).
  set (days := if gtb _ pzero then _ else pzero).
  assert (Hdn : nonnegative days) by apply days_nonnegative.
  assert (Hcoins : nonnegative (add (coins st) (mul (S754_finite false md ed) days))).
  { apply add_nonnegative; [exact Hc|].
    destruct days as [s|s| |s m e]; simpl in Hdn; try contradiction;
      try (destruct s; [contradiction|]); try exact I.
    apply has_sign_nonnegative. apply (mul_finite_r _ false false). reflexivity. }
  split; [now apply nonnegative_leb|].
  destruct (valid_nonneg_inv _ Hp) as [[sp Ep]|(mp & ep & Ep)]; rewrite Ep.
  - destruct (add (coins st) (mul (S754_finite false md ed) days))
      as [s|s| |s m e]; simpl in Hcoins; try contradiction;
      repeat split; try reflexivity; try discriminate;
      destruct sp; discriminate.
  - pose proof (mul_nonnegative _ mp ep Hcoins) as H1.
    pose proof (mul_nonnegative _ mr er H1) as H2.
    split; [now apply nonnegative_not_negative|].
    split; [now apply nonnegative_not_negative|].
    intros _. split; now apply nonnegative_leb.
Qed.

Lemma projection_nonnegative_witness :
  match Pages.result
          (Pages.compute jakarta (form "0" "1" "1e308" "2025-02-14" "15000"))
  with
  | Some r =>
      projectedUSDT r = Some NaN /\
      match daysProjected r, projectedUSDT r, projectedIDR r with
      | Some d, Some u, Some i =>
          leb pzero d = true /\ ltb u pzero = false /\ ltb i pzero = false /\
          (gtb (price (form "0" "1" "1e308" "2025-02-14" "15000")) pzero = true ->
           leb pzero u = true /\ leb pzero i = true)
      | None, None, None => True
      | _, _, _ => False
      end
  | None => False
  end.
Proof.
  destruct (Pages.result
              (Pages.compute jakarta (form "0" "1" "1e308" "2025-02-14" "15000")))
    as [r|] eqn:E; [|vm_compute in E; discriminate].
  split.
  - vm_compute in E. injection E as <-. reflexivity.
  - apply (projection_nonnegative jakarta
             (form "0" "1" "1e308" "2025-02-14" "15000") r).
    + vm_compute. auto.
    + exact E.
Defined.

(** ** Blank and padded fields *)

Lemma parseNumber_blank (v : jsstring) :
  whitespace_only v -> Pages.parseNumber v = pzero.
Proof.
  intros Hw. rewrite parseNumber_cleaned. cbv zeta.
  unfold trim. rewrite (trimStart_white _ (removeCommas_white v Hw)).
  reflexivity.
Qed.

Lemma white_not_comma (a : jsstring) : whitespace_only a -> removeCommas a = a.
Proof.
  induction 1 as [|c a Hc _ IH]; [reflexivity|].
  unfold removeCommas in *. cbn [filter].
  destruct (N.eqb c comma) eqn:E; cbn [negb]; [|now rewrite IH].
  apply N.eqb_eq in E. subst c. discriminate Hc.
Qed.

Lemma removeCommas_app (a b : jsstring) :
  removeCommas (a ++ b) = removeCommas a ++ removeCommas b.
Proof. apply filter_app. Qed.

Lemma trimStart_app_white (a s : jsstring) :
  whitespace_only a -> trimStart (a ++ s) = trimStart s.
Proof.
  induction 1 as [|c a Hc _ IH]; [reflexivity|].
  cbn [app trimStart]. now rewrite Hc.
Qed.

Lemma whitespace_only_rev (a : jsstring) :
  whitespace_only a -> whitespace_only (rev a).
Proof. apply Forall_rev. Qed.

Lemma trimStart_app (s b : jsstring) :
  trimStart s <> [] -> trimStart (s ++ b) = trimStart s ++ b.
Proof.
  induction s as [|c s IH]; cbn [app trimStart]; [congruence|].
  destruct (is_white c); auto.
Qed.

Lemma trimStart_all_white (s : jsstring) :
  trimStart s = [] -> whitespace_only s.
Proof.
  induction s as [|c s IH]; cbn [trimStart]; [constructor|].
  destruct (is_white c) eqn:E; [|discriminate].
  intros H. constructor; [exact E|exact (IH H)].
Qed.

Lemma trim_padded (a s b : jsstring) :
  whitespace_only a -> whitespace_only b -> trim (a ++ s ++ b) = trim s.
Proof.
  intros Ha Hb. unfold trim. rewrite (trimStart_app_white a _ Ha).
  destruct (trimStart s) as [|c t] eqn:E.
  - rewrite (trimStart_white (s ++ b)); [reflexivity|].
    apply Forall_app. split; [now apply trimStart_all_white|exact Hb].
  - rewrite trimStart_app by congruence. rewrite E.
    rewrite rev_app_distr.
    now rewrite (trimStart_app_white _ _ (whitespace_only_rev b Hb)).
Qed.

(** X5: white space around a value and commas anywhere in it make no
    difference to [parseNumber]: a comma is dropped wherever it stands, it
    is never read as a decimal point. *)
Theorem parseNumber_padding :
  (forall a v b, whitespace_only a -> whitespace_only b ->
     Pages.parseNumber (a ++ v ++ b) = Pages.parseNumber v)
  /\ (forall a b,
        Pages.parseNumber (a ++ [comma] ++ b) = Pages.parseNumber (a ++ b)).
Proof.
  split.
  - intros a v b Ha Hb. rewrite !parseNumber_cleaned. cbv zeta.
    rewrite !removeCommas_app, (white_not_comma a Ha), (white_not_comma b Hb).
    now rewrite trim_padded.
  - intros a b. rewrite !parseNumber_cleaned. cbv zeta.
    rewrite !removeCommas_app. reflexivity.
Qed.

Lemma parseNumber_padding_witness :
  Pages.parseNumber (lit " " ++ lit "8,578" ++ lit "  ") = Number (lit "8578")
  /\ Pages.parseNumber (lit "1" ++ [comma] ++ lit "5") = Number (lit "15").
Proof.
  destruct parseNumber_padding as [Hpad Hcomma]. split.
  - rewrite Hpad; [vm_compute; reflexivity| |]; repeat constructor.
  - rewrite Hcomma. vm_compute. reflexivity.
Defined.

Lemma mul_zero_valid (x y : float) :
  valid_nonneg x = true -> valid_nonneg y = true ->
  (eqb x pzero = true \/ eqb y pzero = true) ->
  exists s, mul x y = S754_zero s.
Proof.
  intros Hx Hy Hz.
  destruct (valid_nonneg_inv x Hx) as [[sx ->]|(mx & ex & ->)];
    destruct (valid_nonneg_inv y Hy) as [[sy ->]|(my & ey & ->)];
    try (eexists; reflexivity).
  destruct Hz as [Hz|Hz]; discriminate Hz.
Qed.

(** X6: a field left blank counts as zero.  Blank price, holdings and
    daily accrual pass validation, a blank rate is rejected; with a blank
    price or blank holdings both totals are zero, and with a blank accrual
    there is no projection. *)
Theorem blank_fields (h : Host) (st : Pages.State) :
  (forall v, whitespace_only v ->
     valid_nonneg (Pages.parseNumber v) = true /\
     valid_pos (Pages.parseNumber v) = false)
  /\ (whitespace_only (Pages.usdToIdr st) ->
      valid_nonneg (price st) = true -> valid_nonneg (coins st) = true ->
      valid_nonneg (daily st) = true ->
      Pages.error (Pages.compute h st) = msgRate /\
      Pages.result (Pages.compute h st) = Pages.result st)
  /\ (inputs_valid st ->
      whitespace_only (Pages.pricePerCoin st)
      \/ whitespace_only (Pages.currentCoins st) ->
      exists r, Pages.result (Pages.compute h st) = Some r /\
        eqb (totalUSDT r) pzero = true /\ eqb (totalIDR r) pzero = true)
  /\ (inputs_valid st -> whitespace_only (Pages.dailyCoins st) ->
      exists r, Pages.result (Pages.compute h st) = Some r /\ no_projection r).
Proof.
  split; [|split; [|split]].
  - intros v Hw. rewrite (parseNumber_blank v Hw). split; reflexivity.
  - intros Hw Hp Hc Hd.
    assert (Hf : failing_check InvalidRate st).
    { repeat split; auto. unfold rate. now rewrite parseNumber_blank. }
    destruct (compute_failure_or_success h st)
      as [(e & He & Hres & _ & Hfail) | (Hv & _)].
    + assert (e = InvalidRate) as ->.
      { destruct e; simpl in Hf, Hfail; split_hyps; congruence. }
      split; assumption.
    + now apply failing_check_invalid in Hf.
  - intros Hv Hw.
    destruct (compute_valid h st Hv) as (r & Hr & HU & HI & _).
    destruct Hv as (Hp & Hc & _ & Hrate).
    destruct (valid_pos_inv _ Hrate) as (mr & er & Er).
    destruct (mul_zero_valid (price st) (coins st) Hp Hc) as [s Hs].
    { destruct Hw as [Hw|Hw]; [left; unfold price|right; unfold coins];
        now rewrite parseNumber_blank. }
    exists r. split; [exact Hr|]. rewrite HI, HU, Hs, Er.
    split; reflexivity.
  - intros Hv Hw.
    destruct (compute_valid h st Hv) as (r & Hr & _ & _ & Hdays & Hu & Hi).
    unfold daily in Hdays, Hu, Hi.
    rewrite (parseNumber_blank _ Hw) in Hdays, Hu, Hi.
    exists r. split; [exact Hr|]. repeat split; assumption.
Qed.

Lemma blank_fields_witness :
  (Pages.error (Pages.compute jakarta (form "0.48" "" "" "2025-02-14" " "))
   = msgRate)
  /\ (exists r,
        Pages.result (Pages.compute jakarta (form "0.48" " " "" "" "15000"))
        = Some r /\ eqb (totalUSDT r) pzero = true)
  /\ (exists r,
        Pages.result
          (Pages.compute jakarta (form "0.48" "1000" " " "2025-02-14" "15000"))
        = Some r /\ no_projection r).
Proof.
  split; [|split].
  - destruct (blank_fields jakarta (form "0.48" "" "" "2025-02-14" " "))
      as (_ & H & _).
    apply H; try (vm_compute; reflexivity). repeat constructor.
  - destruct (blank_fields jakarta (form "0.48" " " "" "" "15000"))
      as (_ & _ & H & _).
    destruct H as (r & Hr & Hu & _).
    + vm_compute. auto.
    + right. repeat constructor.
    + exists r. split; assumption.
  - destruct (blank_fields jakarta (form "0.48" "1000" " " "2025-02-14" "15000"))
      as (_ & _ & _ & H).
    apply H; [vm_compute; auto|repeat constructor].
Defined.

(** ** The two parts of [compute] *)

Lemma compute_split (h : Host) (st : Pages.State) :
  Pages.compute h st = Pages.computeFinish h st (Pages.computeStart st).
Proof. reflexivity. Qed.

(** What the second part of [compute] does to the state it lands on. *)
Lemma computeFinish_cases (h : Host) (snap cur : Pages.State) :
  (exists e, failing_check e snap /\
     Pages.computeFinish h snap cur
     = Pages.setError (message e) (Pages.setIsCalculating false cur))
  \/ (inputs_valid snap /\
      exists r, Pages.result (Pages.compute h snap) = Some r /\
        Pages.computeFinish h snap cur
        = Pages.setIsCalculating false (Pages.setResult (Some r) cur)).
Proof.
  unfold Pages.computeFinish, Pages.compute, inputs_valid.
  fold (price snap) (coins snap) (daily snap) (rate snap).
  rewrite !guard_nonneg, guard_pos by apply parseNumber_finite_or_nan.
  destruct (valid_nonneg (price snap)) eqn:Hp; cbn [negb];
    [|left; exists InvalidPrice; split; [exact Hp|reflexivity]].
  destruct (valid_nonneg (coins snap)) eqn:Hc; cbn [negb];
    [|left; exists InvalidHolding; repeat split; assumption].
  destruct (valid_nonneg (daily snap)) eqn:Hd; cbn [negb];
    [|left; exists InvalidAccrual; repeat split; assumption].
  destruct (valid_pos (rate snap)) eqn:Hr; cbn [negb];
    [|left; exists InvalidRate; repeat split; assumption].
  right. split; [auto|]. eexists. split; reflexivity.
Qed.

Lemma inputs_valid_ext (a b : Pages.State) :
  inputs a = inputs b -> inputs_valid a -> inputs_valid b.
Proof.
  unfold inputs, inputs_valid, price, coins, daily, rate.
  intros H. injection H as -> -> -> _ ->. auto.
Qed.

Lemma computeFinish_ext (h : Host) (a b cur : Pages.State) :
  inputs a = inputs b ->
  Pages.computeFinish h a cur = Pages.computeFinish h b cur.
Proof.
  unfold inputs, Pages.computeFinish.
  intros H. injection H as -> -> -> -> ->. reflexivity.
Qed.

Lemma computeFinish_inputs (h : Host) (snap cur : Pages.State) :
  inputs (Pages.computeFinish h snap cur) = inputs cur.
Proof.
  destruct (computeFinish_cases h snap cur)
    as [(e & _ & ->) | (_ & r & _ & ->)]; reflexivity.
Qed.

(** X7: the computation that was waiting lands on the form as it is by
    then.  It lowers the flag and leaves the five inputs as they are; from
    valid inputs of its own render it stores its result and leaves the
    message alone, from invalid ones it shows the message and leaves the
    stored result alone. *)
Theorem computeFinish_lands (h : Host) (snap cur : Pages.State) :
  let st' := Pages.computeFinish h snap cur in
  inputs st' = inputs cur /\ Pages.isCalculating st' = false /\
  (inputs_valid snap ->
     Pages.result st' = Pages.result (Pages.compute h snap) /\
     Pages.error st' = Pages.error cur) /\
  (~ inputs_valid snap ->
     Pages.error st' = Pages.error (Pages.compute h snap) /\
     Pages.error st' <> [] /\
     Pages.result st' = Pages.result cur).
Proof.
  cbv zeta. split; [apply computeFinish_inputs|].
  destruct (computeFinish_cases h snap cur)
    as [(e & He & Hcur) | (Hv & r & Hr & Hcur)].
  - destruct (computeFinish_cases h snap (Pages.computeStart snap))
      as [(e' & He' & Hown) | (Hv & _)];
      [|now apply failing_check_invalid in He].
    assert (e' = e) as ->.
    { destruct e, e'; simpl in He, He'; split_hyps; congruence. }
    rewrite Hcur. split; [reflexivity|]. split.
    + intros Hv. now apply failing_check_invalid in He.
    + intros _. rewrite compute_split, Hown. repeat split.
      apply message_nonempty.
  - rewrite Hcur, Hr. split; [reflexivity|]. split.
    + intros _. split; reflexivity.
    + intros Hn. contradiction.
Qed.

Lemma computeFinish_lands_witness :
  let snap := form "0.4796" "8578" "180" "2025-02-14" "15000" in
  let cur := Pages.resetAll (Pages.computeStart snap) in
  let st' := Pages.computeFinish jakarta snap cur in
  Pages.result st' = Pages.result (Pages.compute jakarta snap) /\
  Pages.error st' = Pages.error cur.
Proof.
  cbv zeta.
  apply (computeFinish_lands jakarta
           (form "0.4796" "8578" "180" "2025-02-14" "15000")).
  repeat split; vm_compute; reflexivity.
Defined.

(** X8: [compute] reads the five inputs and nothing else, and writes none
    of them: two forms with the same inputs get the same message, and the
    same result when the inputs are valid, whatever they showed before. *)
Theorem compute_reads_inputs (h : Host) (a b : Pages.State) :
  inputs a = inputs b ->
  inputs (Pages.compute h a) = inputs a /\
  Pages.error (Pages.compute h a) = Pages.error (Pages.compute h b) /\
  Pages.isCalculating (Pages.compute h a) = Pages.isCalculating (Pages.compute h b) /\
  (inputs_valid a ->
   Pages.result (Pages.compute h a) = Pages.result (Pages.compute h b)).
Proof.
  intros Hab. rewrite !compute_split.
  split; [now rewrite computeFinish_inputs|].
  rewrite (computeFinish_ext h a b _ Hab).
  destruct (computeFinish_cases h b (Pages.computeStart a))
    as [(e & He & ->) | (Hv & r & Hr & ->)];
  destruct (computeFinish_cases h b (Pages.computeStart b))
    as [(e' & He' & ->) | (Hv' & r' & Hr' & ->)].
  - assert (e' = e) as ->.
    { destruct e, e'; simpl in He, He'; split_hyps; congruence. }
    repeat split. intros Ha. apply (inputs_valid_ext _ _ Hab) in Ha.
    now apply failing_check_invalid in He.
  - now apply failing_check_invalid in He.
  - now apply failing_check_invalid in He'.
  - repeat split. intros _. cbn. congruence.
Qed.

Lemma compute_reads_inputs_witness :
  let a := form "0.48" "1000" "0" "" "15000" in
  let b := Pages.setResult (Some stored) (Pages.setError msgRate a) in
  inputs (Pages.compute jakarta a) = inputs a /\
  Pages.error (Pages.compute jakarta a) = Pages.error (Pages.compute jakarta b).
Proof.
  cbv zeta.
  destruct (compute_reads_inputs jakarta (form "0.48" "1000" "0" "" "15000")
    (Pages.setResult (Some stored)
       (Pages.setError msgRate (form "0.48" "1000" "0" "" "15000"))))
    as (H1 & H2 & _); [reflexivity|].
  split; assumption.
Defined.

(** At a frozen clock a second call changes nothing. *)
Lemma compute_twice_frozen (h : Host) (st : Pages.State) :
  Pages.compute h (Pages.compute h st) = Pages.compute h st.
Proof.
  rewrite (compute_split h (Pages.compute h st)).
  rewrite (computeFinish_ext h (Pages.compute h st) st)
    by (rewrite compute_split, computeFinish_inputs; reflexivity).
  rewrite compute_split.
  destruct (computeFinish_cases h st (Pages.computeStart st))
    as [(e & He & H1) | (Hv & r & Hr & H1)]; rewrite H1.
  - destruct (computeFinish_cases h st
                (Pages.computeStart
                   (Pages.setError (message e)
                      (Pages.setIsCalculating false (Pages.computeStart st)))))
      as [(e' & He' & ->) | (Hv & _)];
      [|now apply failing_check_invalid in He].
    assert (e' = e) as ->.
    { destruct e, e'; simpl in He, He'; split_hyps; congruence. }
    reflexivity.
  - destruct (computeFinish_cases h st
                (Pages.computeStart
                   (Pages.setIsCalculating false
                      (Pages.setResult (Some r) (Pages.computeStart st)))))
      as [(e' & He' & _) | (_ & r' & Hr' & ->)];
      [now apply failing_check_invalid in He'|].
    assert (r' = r) as -> by congruence. reflexivity.
Qed.

(** The host matters to [compute] only where a projection is made, and
    then only through today's local midnight and the parse of the target
    date. *)
Lemma computeFinish_host (h1 h2 : Host) (snap cur : Pages.State) :
  (inputs_valid snap -> gtb (daily snap) pzero = true ->
   Pages.endDate snap <> [] ->
   startOfLocalDay h2 (Date_now h2) = startOfLocalDay h1 (Date_now h1) /\
   Date_parse h2 (Pages.endDate snap ++ lit "T00:00:00")
   = Date_parse h1 (Pages.endDate snap ++ lit "T00:00:00")) ->
  Pages.computeFinish h2 snap cur = Pages.computeFinish h1 snap cur.
Proof.
  intros H. unfold Pages.computeFinish.
  fold (price snap) (coins snap) (daily snap) (rate snap).
  rewrite !guard_nonneg, guard_pos by apply parseNumber_finite_or_nan.
  destruct (valid_nonneg (price snap)) eqn:Hp; cbn [negb]; [|reflexivity].
  destruct (valid_nonneg (coins snap)) eqn:Hc; cbn [negb]; [|reflexivity].
  destruct (valid_nonneg (daily snap)) eqn:Hd; cbn [negb]; [|reflexivity].
  destruct (valid_pos (rate snap)) eqn:Hr; cbn [negb]; [|reflexivity].
  destruct (gtb (daily snap) pzero) eqn:Hg; cbn [andb]; [|reflexivity].
  destruct (str_eqb (Pages.endDate snap) []) eqn:He; cbn [negb]; [reflexivity|].
  destruct H as [Ht Hparse]; auto.
  { unfold inputs_valid. auto. }
  { intros E. apply str_eqb_nil in E. congruence. }
  unfold Date_getTime, today_setHours0. rewrite Ht, Hparse. reflexivity.
Qed.

(** X9: each call of [compute] reads the clock after its own pause.  A
    second call on the state the first one left changes nothing provided
    that, where a projection is made, the host then has the same local
    midnight for today and parses the target date alike; across a local
    midnight it changes the result: a target 30 days away is 29 days away
    a second later. *)
Theorem compute_again :
  (forall h1 h2 st,
     (inputs_valid st -> gtb (daily st) pzero = true ->
      Pages.endDate st <> [] ->
      startOfLocalDay h2 (Date_now h2) = startOfLocalDay h1 (Date_now h1) /\
      Date_parse h2 (Pages.endDate st ++ lit "T00:00:00")
      = Date_parse h1 (Pages.endDate st ++ lit "T00:00:00")) ->
     Pages.compute h2 (Pages.compute h1 st) = Pages.compute h1 st)
  /\ (let st := form "0.4796" "8578" "180" "2025-02-14" "15000" in
      exists r1 r2,
        Pages.result (Pages.compute jakarta_late st) = Some r1 /\
        daysProjected r1 = Some (of_Z 30) /\
        Pages.result (Pages.compute jakarta_next (Pages.compute jakarta_late st))
        = Some r2 /\
        daysProjected r2 = Some (of_Z 29)).
Proof.
  split.
  - intros h1 h2 st H.
    rewrite (compute_split h2 (Pages.compute h1 st)).
    rewrite (computeFinish_ext h2 (Pages.compute h1 st) st)
      by (rewrite compute_split, computeFinish_inputs; reflexivity).
    rewrite (computeFinish_host h1 h2 st _ H).
    rewrite <- (computeFinish_ext h1 (Pages.compute h1 st) st)
      by (rewrite compute_split, computeFinish_inputs; reflexivity).
    rewrite <- compute_split. apply compute_twice_frozen.
  - cbv zeta. do 2 eexists.
    split; [vm_compute; reflexivity|]. split; [vm_compute; reflexivity|].
    split; vm_compute; reflexivity.
Qed.

(** Two calls a minute apart on the same day. *)
Lemma compute_again_witness :
  let st := form "0.4796" "8578" "180" "2025-02-14" "15000" in
  Pages.compute (FixedZone.host 25200000 1736911860000) (Pages.compute jakarta st)
  = Pages.compute jakarta st.
Proof.
  cbv zeta. destruct compute_again as [H _]. apply H.
  intros _ _ _. split; vm_compute; reflexivity.
Defined.

(** ** Sessions of index.tsx *)

Lemma run_invariant (P : Pages.Session -> Prop) :
  (forall s e, P s -> P (Pages.step s e)) ->
  forall es s, P s -> P (Pages.run s es).
Proof.
  intros Hstep es. induction es as [|e es IH]; intros s Hs; [exact Hs|].
  apply IH, Hstep, Hs.
Qed.

Lemma edit_frame (f : Pages.Field) (v : jsstring) (st : Pages.State) :
  Pages.result (Pages.edit f v st) = Pages.result st /\
  Pages.error (Pages.edit f v st) = Pages.error st /\
  Pages.isCalculating (Pages.edit f v st) = Pages.isCalculating st.
Proof. destruct f; repeat split. Qed.

Lemma step_flag_agrees (s : Pages.Session) (e : Pages.Event) :
  flag_agrees s -> flag_agrees (Pages.step s e).
Proof.
  unfold flag_agrees. destruct s as [st ps].
  destruct e as [f v| |h| |d]; cbn [Pages.step Pages.ui Pages.pending].
  - destruct (edit_frame f v st) as (_ & _ & ->). auto.
  - destruct (Pages.isCalculating st) eqn:E;
      cbn [Pages.ui Pages.pending]; [now rewrite E|].
    destruct ps as [|p [|q ps]]; cbn; intros H; congruence || auto.
  - destruct ps as [|p [|q ps]]; cbn [Pages.ui Pages.pending];
      intros H; try contradiction; auto.
    destruct (computeFinish_cases h p st)
      as [(e & _ & ->) | (_ & r & _ & ->)]; reflexivity.
  - auto.
  - auto.
Qed.

Lemma step_shows_computed (s : Pages.Session) (e : Pages.Event) :
  shows_computed (Pages.ui s) -> shows_computed (Pages.ui (Pages.step s e)).
Proof.
  unfold shows_computed. destruct s as [st ps]. intros [Hr He].
  destruct e as [f v| |h| |d]; cbn [Pages.step Pages.ui Pages.pending].
  - destruct (edit_frame f v st) as (-> & -> & _). auto.
  - destruct (Pages.isCalculating st); cbn [Pages.ui]; auto.
  - destruct ps as [|p ps]; cbn [Pages.ui]; auto.
    destruct (computeFinish_cases h p st)
      as [(e & _ & ->) | (Hv & r & Hres & ->)]; cbn.
    + split; [exact Hr|]. right. now exists e.
    + split; [|exact He]. right. exists h, p. split; [exact Hv|].
      now rewrite Hres.
  - cbn. auto.
  - cbn. auto.
Qed.

Lemma result_grouped (h : Host) (st : Pages.State) (r : Result) :
  Pages.result (Pages.compute h st) = Some r -> inputs_valid st ->
  has_projection r \/ no_projection r.
Proof.
  intros Hr Hv.
  destruct (compute_failure_or_success h st)
    as [(e & _ & _ & _ & He) | (_ & _ & _ & r' & Hr' & _ & _ & Hg)].
  - exfalso. apply (failing_check_invalid e st); assumption.
  - congruence.
Qed.

(** X10: at any moment of a session of index.tsx at most one
    computation is waiting for its pause to end, and the [isCalculating]
    flag is up exactly while one is. *)
Theorem session_one_computation (es : list Pages.Event) :
  let s := Pages.run Pages.start es in
  (List.length (Pages.pending s) <= 1)%nat /\
  (Pages.isCalculating (Pages.ui s) = true <-> Pages.pending s <> []).
Proof.
  cbv zeta.
  assert (H : flag_agrees (Pages.run Pages.start es)).
  { apply run_invariant; [apply step_flag_agrees|reflexivity]. }
  unfold flag_agrees in H.
  destruct (Pages.pending (Pages.run Pages.start es)) as [|p [|q ps]];
    try contradiction; cbn [List.length]; split; try lia.
  - rewrite H. split; [discriminate|congruence].
  - rewrite H. split; [discriminate|reflexivity].
Qed.

(** X11: whatever is edited, clicked and settled in a session of
    index.tsx, the result on display is absent or is what [compute] gives
    on some inputs that pass validation, with its projection fields all
    there or all absent; the message is empty or one of the four
    validation messages. *)
Theorem session_shows_computed (es : list Pages.Event) :
  let st := Pages.ui (Pages.run Pages.start es) in
  match Pages.result st with
  | None => True
  | Some r =>
      (has_projection r \/ no_projection r) /\
      exists h snap, inputs_valid snap /\
        Pages.result (Pages.compute h snap) = Some r
  end /\
  (Pages.error st = [] \/ exists e, Pages.error st = message e).
Proof.
  cbv zeta.
  assert (H : shows_computed (Pages.ui (Pages.run Pages.start es))).
  { apply (run_invariant (fun s => shows_computed (Pages.ui s)));
      [apply step_shows_computed|].
    split; left; reflexivity. }
  destruct H as [Hr He]. split; [|exact He].
  destruct (Pages.result (Pages.ui (Pages.run Pages.start es))) as [r|];
    [|exact I].
  destruct Hr as [Hr | (h & snap & Hv & Hr)]; [discriminate|].
  split; [|now exists h, snap].
  apply (result_grouped h snap); auto.
Qed.

(** X12: the result on display need not belong to the inputs on
    display: a reset while a computation waits empties the form, and the
    computation then stores the result of the inputs it was started on. *)
Theorem reset_keeps_pending_result (h : Host) (st : Pages.State) :
  inputs_valid st -> Pages.isCalculating st = false ->
  let s := Pages.run {| Pages.ui := st; Pages.pending := [] |}
             [Pages.ClickCompute; Pages.ClickReset; Pages.Settle h] in
  inputs (Pages.ui s) = inputs (Pages.resetAll st) /\
  Pages.result (Pages.ui s) = Pages.result (Pages.compute h st) /\
  Pages.result (Pages.ui s) <> None /\
  Pages.error (Pages.ui s) = [] /\ Pages.pending s = [].
Proof.
  intros Hv Hf. cbv zeta.
  cbn [Pages.run fold_left Pages.step Pages.ui Pages.pending].
  rewrite Hf. cbn [Pages.ui Pages.pending app].
  destruct (computeFinish_cases h st (Pages.resetAll (Pages.computeStart st)))
    as [(e & He & _) | (_ & r & Hr & ->)];
    [now apply failing_check_invalid in He|].
  rewrite Hr. repeat split. discriminate.
Qed.

Lemma reset_keeps_pending_result_witness :
  let st := form "0.4796" "8578" "180" "2025-02-14" "15000" in
  let s := Pages.run {| Pages.ui := st; Pages.pending := [] |}
             [Pages.ClickCompute; Pages.ClickReset; Pages.Settle jakarta] in
  inputs (Pages.ui s) = inputs (Pages.resetAll st) /\
  Pages.result (Pages.ui s) = Pages.result (Pages.compute jakarta st) /\
  Pages.result (Pages.ui s) <> None /\
  Pages.error (Pages.ui s) = [] /\ Pages.pending s = [].
Proof.
  apply (reset_keeps_pending_result jakarta
           (form "0.4796" "8578" "180" "2025-02-14" "15000")).
  - repeat split; vm_compute; reflexivity.
  - reflexivity.
Defined.

(** ** Reset and sample data *)

Lemma inputs_valid_by_inputs (st : Pages.State) (p c d e r : jsstring) :
  inputs st = (p, c, d, e, r) ->
  (inputs_valid st <->
   valid_nonneg (Pages.parseNumber p) = true /\
   valid_nonneg (Pages.parseNumber c) = true /\
   valid_nonneg (Pages.parseNumber d) = true /\
   valid_pos (Pages.parseNumber r) = true).
Proof.
  unfold inputs, inputs_valid, price, coins, daily, rate.
  intros H. injection H as -> -> -> _ ->. reflexivity.
Qed.

(** X13: [resetAll] empties the result and the message and keeps the
    [isCalculating] flag; it is idempotent, and the form it leaves passes
    validation: [compute] then stores zero totals without a projection.
    The two files reset alike, and part_000 keeps its two other flags. *)
Theorem resetAll_spec :
  (forall st,
     Pages.result (Pages.resetAll st) = None /\
     Pages.error (Pages.resetAll st) = [] /\
     Pages.isCalculating (Pages.resetAll st) = Pages.isCalculating st /\
     Pages.resetAll (Pages.resetAll st) = Pages.resetAll st)
  /\ (forall h st,
        let st' := Pages.compute h (Pages.resetAll st) in
        Pages.error st' = [] /\
        exists r, Pages.result st' = Some r /\ no_projection r /\
          eqb (totalUSDT r) pzero = true /\ eqb (totalIDR r) pzero = true)
  /\ (forall q,
        to_pages (Part000.resetAll q) = Pages.resetAll (to_pages q) /\
        Part000.isLoadingRate (Part000.resetAll q) = Part000.isLoadingRate q /\
        Part000.isPerformanceMode (Part000.resetAll q)
        = Part000.isPerformanceMode q).
Proof.
  split; [|split].
  - intros st. repeat split.
  - intros h st. cbv zeta.
    assert (Hv : inputs_valid (Pages.resetAll st)).
    { apply (inputs_valid_by_inputs _ _ _ _ _ _ eq_refl).
      repeat split; vm_compute; reflexivity. }
    destruct (compute_failure_or_success h (Pages.resetAll st))
      as [(e & _ & _ & _ & He) | (_ & Herr & _)];
      [now apply failing_check_invalid in He|].
    split; [exact Herr|].
    destruct (compute_valid h (Pages.resetAll st) Hv)
      as (r & Hr & HU & HI & Hdays & Hu & Hi).
    exists r. split; [exact Hr|]. split; [|split].
    + repeat split; assumption.
    + rewrite HU. vm_compute. reflexivity.
    + rewrite HI. vm_compute. reflexivity.
  - intros q. repeat split.
Qed.

(** X14: the sample-data button writes the four sample inputs and leaves
    the rate, the result, the message and the flag as they are; the form
    then passes validation exactly when the rate on display is a finite
    number above zero. *)
Theorem sampleData_spec (d : jsstring) (st : Pages.State) :
  inputs (Pages.sampleData d st)
  = (lit "0.4796", lit "8578", lit "180", d, Pages.usdToIdr st) /\
  Pages.result (Pages.sampleData d st) = Pages.result st /\
  Pages.error (Pages.sampleData d st) = Pages.error st /\
  Pages.isCalculating (Pages.sampleData d st) = Pages.isCalculating st /\
  (inputs_valid (Pages.sampleData d st) <-> valid_pos (rate st) = true).
Proof.
  split; [reflexivity|]. split; [reflexivity|]. split; [reflexivity|].
  split; [reflexivity|]. split.
  - intros (_ & _ & _ & H). exact H.
  - intros H. split; [vm_compute; reflexivity|].
    split; [vm_compute; reflexivity|]. split; [vm_compute; reflexivity|].
    exact H.
Qed.

(** ** Requests for the rate *)

Lemma fetch_split (r : Response) (st : Part000.State) :
  Part000.fetchExchangeRate r st
  = Part000.fetchFinish r (Part000.fetchStart st).
Proof. reflexivity. Qed.

(** The end of a request, by the IDR entry of the body. *)
Lemma fetchFinish_cases (r : Response) (cur : Part000.State) :
  Part000.fetchFinish r cur
  = match rate_of r with
    | Some s => adopted s cur
    | None => fell_back cur
    end.
Proof.
  destruct r as [| |data]; try reflexivity.
  unfold Part000.fetchFinish, Part000.adoptRate, rate_of, idr_of, rates_of.
  destruct data as [|b|x|s|items|fields]; try reflexivity.
  cbn [getProp].
  destruct (own (lit "rates") fields) as [rates|]; [|reflexivity].
  destruct rates as [|b|x|s|items|rs]; try reflexivity.
  - destruct b; reflexivity.
  - destruct x as [sx|sx| |sx mx ex]; reflexivity.
  - destruct s; reflexivity.
  - change (truthy (Some (JObj rs))) with true. cbn [getProp].
    destruct (own (lit "IDR") rs) as [idr|]; [|reflexivity].
    destruct (truthy (Some idr)); [|reflexivity].
    destruct (toStringCall idr); reflexivity.
Qed.

(** X15: how a request for the rate ends, whatever the response.  The
    loading flag is down and no cell but the rate and the message is
    written.  If the body's [rates.IDR] is truthy and gives a string, that
    string becomes the rate as it is and the message stays; in every other
    case (no response, no JSON, no such entry, or one that is null, false,
    zero, NaN or empty) the rate is "15000" with the advisory message. *)
Theorem fetch_outcome (r : Response) (st : Part000.State) :
  let st' := Part000.fetchExchangeRate r st in
  Part000.isLoadingRate st' = false /\
  beside_rate st' = beside_rate st /\
  match rate_of r with
  | Some s => Part000.usdToIdr st' = s /\ Part000.error st' = Part000.error st
  | None =>
      Part000.usdToIdr st' = lit "15000" /\
      Part000.error st' = Part000.msgFetch
  end /\
  (forall data idr, r = Body data -> idr_of data = Some idr ->
     truthy (Some idr) = false -> rate_of r = None) /\
  (forall data s, r = Body data -> idr_of data = Some (JStr s) -> s <> [] ->
     rate_of r = Some s).
Proof.
  cbv zeta. rewrite fetch_split, fetchFinish_cases.
  split; [destruct (rate_of r); reflexivity|].
  split; [destruct (rate_of r); reflexivity|].
  split; [destruct (rate_of r); split; reflexivity|].
  split.
  - intros data idr -> Hi Ht. unfold rate_of. now rewrite Hi, Ht.
  - intros data s -> Hi Hs. unfold rate_of. rewrite Hi.
    destruct s; [congruence|reflexivity].
Qed.

(** X16: of two requests the one that ends last decides the rate; the
    advisory message of a failed request stays on display after a later
    request has brought a rate. *)
Theorem refetch (r1 r2 : Response) (st : Part000.State) :
  Part000.usdToIdr (Part000.fetchFinish r2 (Part000.fetchFinish r1 st))
  = Part000.usdToIdr (Part000.fetchFinish r2 st) /\
  (rate_of r1 = None ->
   Part000.error (Part000.fetchFinish r2 (Part000.fetchFinish r1 st))
   = Part000.msgFetch).
Proof.
  rewrite !fetchFinish_cases. split.
  - destruct (rate_of r2); reflexivity.
  - intros ->. destruct (rate_of r2); reflexivity.
Qed.

Lemma refetch_witness :
  let ok := Body (JObj [(lit "rates",
                         JObj [(lit "IDR", JNum (Number (lit "16234.5")))])]) in
  let st' := Part000.fetchFinish ok (Part000.fetchFinish NetworkError sample) in
  Part000.usdToIdr st' = lit "16234.5" /\ Part000.error st' = Part000.msgFetch.
Proof.
  cbv zeta. split; [vm_compute; reflexivity|].
  apply (refetch NetworkError). reflexivity.
Defined.

Lemma run000_invariant (P : Part000.Session -> Prop) (Q : Part000.Event -> Prop) :
  (forall s e, Q e -> P s -> P (Part000.step s e)) ->
  forall es s, Forall Q es -> P s -> P (Part000.run s es).
Proof.
  intros Hstep es. induction es as [|e es IH]; intros s Hq Hs; [exact Hs|].
  inversion Hq; subst. apply IH; [assumption|]. now apply Hstep.
Qed.

Lemma fetchFinish_flag (r : Response) (cur : Part000.State) :
  Part000.isLoadingRate (Part000.fetchFinish r cur) = false.
Proof. reflexivity. Qed.

Lemma step_loading_in_flight (s : Part000.Session) (e : Part000.Event) :
  (Part000.isLoadingRate (Part000.ui s) = true -> (0 < Part000.inFlight s)%nat) ->
  Part000.isLoadingRate (Part000.ui (Part000.step s e)) = true ->
  (0 < Part000.inFlight (Part000.step s e))%nat.
Proof.
  destruct s as [st n]. cbn [Part000.ui Part000.inFlight]. intros H.
  destruct e as [|d|r| |v]; cbn [Part000.step Part000.ui Part000.inFlight].
  - destruct (Part000.isLoadingRate st); cbn [Part000.ui Part000.inFlight];
      [intros _; now apply H|lia].
  - lia.
  - destruct n as [|n]; cbn [Part000.ui Part000.inFlight]; [exact H|].
    rewrite fetchFinish_flag. discriminate.
  - exact H.
  - exact H.
Qed.

Lemma step_one_request (s : Part000.Session) (e : Part000.Event) :
  match e with Part000.ClickSample _ => False | _ => True end ->
  (Part000.inFlight s <= 1)%nat /\
  (Part000.isLoadingRate (Part000.ui s) = true <-> Part000.inFlight s = 1%nat) ->
  (Part000.inFlight (Part000.step s e) <= 1)%nat /\
  (Part000.isLoadingRate (Part000.ui (Part000.step s e)) = true
   <-> Part000.inFlight (Part000.step s e) = 1%nat).
Proof.
  destruct s as [st n]. cbn [Part000.ui Part000.inFlight]. intros He [Hn Hf].
  destruct e as [|d|r| |v]; cbn [Part000.step Part000.ui Part000.inFlight];
    try contradiction; auto.
  - destruct (Part000.isLoadingRate st) eqn:E;
      cbn [Part000.ui Part000.inFlight]; [rewrite E; auto|].
    assert (n = 0)%nat as ->.
    { destruct n as [|[|n]]; [reflexivity| |lia].
      destruct Hf as [_ Hf]. discriminate (Hf eq_refl). }
    split; [lia|]. split; reflexivity.
  - destruct n as [|[|n]]; cbn [Part000.ui Part000.inFlight]; auto; [|lia].
    rewrite fetchFinish_flag. split; [lia|]. split; discriminate.
Qed.

(** X17: in a session of part_000, [isLoadingRate] up means a request for
    the rate is in flight.  As long as the sample-data button is not
    used, at most one request is in flight and the flag is up exactly
    then; the sample-data button sends its request whatever the flag
    says, after which a request can be in flight with the flag down, and
    more than one at a time. *)
Theorem session_requests :
  (forall es,
     let s := Part000.run Part000.mounted es in
     Part000.isLoadingRate (Part000.ui s) = true -> (0 < Part000.inFlight s)%nat)
  /\ (forall es, no_sample es ->
        let s := Part000.run Part000.mounted es in
        (Part000.inFlight s <= 1)%nat /\
        (Part000.isLoadingRate (Part000.ui s) = true
         <-> Part000.inFlight s = 1%nat))
  /\ (forall d r,
        let s := Part000.run Part000.mounted
                   [Part000.ClickSample d; Part000.Arrive r] in
        Part000.isLoadingRate (Part000.ui s) = false /\
        Part000.inFlight s = 1%nat)
  /\ (forall d,
        Part000.inFlight
          (Part000.run Part000.mounted [Part000.ClickSample d]) = 2%nat).
Proof.
  split; [|split; [|split]].
  - intros es. cbv zeta.
    apply (run000_invariant
             (fun s => Part000.isLoadingRate (Part000.ui s) = true ->
                       (0 < Part000.inFlight s)%nat)
             (fun _ => True)).
    + intros s e _. apply step_loading_in_flight.
    + now apply Forall_forall.
    + cbn. lia.
  - intros es Hes. cbv zeta.
    apply (run000_invariant
             (fun s => (Part000.inFlight s <= 1)%nat /\
                       (Part000.isLoadingRate (Part000.ui s) = true
                        <-> Part000.inFlight s = 1%nat))
             (fun e => match e with Part000.ClickSample _ => False | _ => True end)).
    + intros s e. apply step_one_request.
    + exact Hes.
    + cbn. split; [lia|]. split; reflexivity.
  - intros d r. split; reflexivity.
  - intros d. reflexivity.
Qed.

(** X18: the sample-data button of part_000 writes what the one of
    index.tsx writes, raises [isLoadingRate] and requests the rate.  When
    the response arrives the rate that was on display is replaced; after
    a request that fails the sample form passes validation at the
    fallback rate. *)
Theorem fillSampleData_spec (d : jsstring) (q : Part000.State) :
  to_pages (Part000.fillSampleData d q) = Pages.sampleData d (to_pages q) /\
  Part000.isLoadingRate (Part000.fillSampleData d q) = true /\
  forall r,
    let q' := Part000.fetchFinish r (Part000.fillSampleData d q) in
    Part000.isLoadingRate q' = false /\
    match rate_of r with
    | Some s => Part000.usdToIdr q' = s
    | None =>
        Part000.usdToIdr q' = lit "15000" /\
        Part000.error q' = Part000.msgFetch /\ inputs_valid (to_pages q')
    end.
Proof.
  split; [reflexivity|]. split; [reflexivity|].
  intros r. cbv zeta. rewrite fetchFinish_cases.
  destruct (rate_of r) as [s|]; split; try reflexivity.
  split; [reflexivity|]. split; [reflexivity|].
  repeat split; vm_compute; reflexivity.
Qed.

(** *** A computation started before the rate has arrived *)

Lemma compute000_split (h : Host) (q : Part000.State) :
  Part000.compute h q = Part000.computeFinish h q (Part000.computeStart q).
Proof. reflexivity. Qed.

Lemma computeFinish_agree (h : Host) (snap cur : Part000.State) :
  to_pages (Part000.computeFinish h snap cur)
  = Pages.computeFinish h (to_pages snap) (to_pages cur).
Proof.
  unfold Pages.computeFinish, Part000.computeFinish, Part000.currentValues.
  cbn [to_pages Pages.pricePerCoin Pages.currentCoins Pages.dailyCoins
       Pages.usdToIdr Pages.endDate].
  change Part000.parseNumber with Pages.parseNumber.
  destruct (Number_isNaN (Pages.parseNumber (Part000.pricePerCoin snap))
            || ltb (Pages.parseNumber (Part000.pricePerCoin snap)) pzero);
    [reflexivity|].
  destruct (Number_isNaN (Pages.parseNumber (Part000.currentCoins snap))
            || ltb (Pages.parseNumber (Part000.currentCoins snap)) pzero);
    [reflexivity|].
  destruct (Number_isNaN (Pages.parseNumber (Part000.dailyCoins snap))
            || ltb (Pages.parseNumber (Part000.dailyCoins snap)) pzero);
    [reflexivity|].
  destruct (Number_isNaN (Pages.parseNumber (Part000.usdToIdr snap))
            || leb (Pages.parseNumber (Part000.usdToIdr snap)) pzero);
    reflexivity.
Qed.

(** The cells of part_000 that [compute] never writes. *)
Lemma computeFinish_beside (h : Host) (snap cur : Part000.State) :
  Part000.usdToIdr (Part000.computeFinish h snap cur) = Part000.usdToIdr cur /\
  Part000.isLoadingRate (Part000.computeFinish h snap cur)
  = Part000.isLoadingRate cur.
Proof.
  unfold Part000.computeFinish, Part000.currentValues.
  destruct (Number_isNaN _ || ltb _ pzero); [split; reflexivity|].
  destruct (Number_isNaN _ || ltb _ pzero); [split; reflexivity|].
  destruct (Number_isNaN _ || ltb _ pzero); [split; reflexivity|].
  destruct (Number_isNaN _ || leb _ pzero); split; reflexivity.
Qed.

(** X19: part_000 starts with an empty rate field and a request for the
    rate.  A computation started before the response is there, on inputs
    that are otherwise valid, ends with the rate message although the
    rate has arrived during its pause: the form then shows a rate, the
    fetched one or the fallback, next to the complaint about the rate,
    and no result is stored. *)
Theorem compute_before_rate (h : Host) (r : Response) (q : Part000.State) :
  whitespace_only (Part000.usdToIdr q) ->
  valid_nonneg (Part000.parseNumber (Part000.pricePerCoin q)) = true ->
  valid_nonneg (Part000.parseNumber (Part000.currentCoins q)) = true ->
  valid_nonneg (Part000.parseNumber (Part000.dailyCoins q)) = true ->
  let q' :=
    Part000.computeFinish h q
      (Part000.fetchFinish r (Part000.computeStart q)) in
  Part000.error q' = msgRate /\
  Part000.result q' = Part000.result q /\
  Part000.usdToIdr q'
  = match rate_of r with Some s => s | None => lit "15000" end /\
  Part000.isCalculating q' = false /\ Part000.isLoadingRate q' = false.
Proof.
  intros Hw Hp Hc Hd. cbv zeta.
  set (cur := Part000.fetchFinish r (Part000.computeStart q)).
  assert (Hf : failing_check InvalidRate (to_pages q)).
  { repeat split; auto.
    unfold rate. cbn [to_pages Pages.usdToIdr].
    now rewrite parseNumber_blank. }
  destruct (computeFinish_beside h q cur) as [Hrate Hload].
  rewrite Hrate, Hload.
  change (Part000.error (Part000.computeFinish h q cur))
    with (Pages.error (to_pages (Part000.computeFinish h q cur))).
  change (Part000.result (Part000.computeFinish h q cur))
    with (Pages.result (to_pages (Part000.computeFinish h q cur))).
  change (Part000.isCalculating (Part000.computeFinish h q cur))
    with (Pages.isCalculating (to_pages (Part000.computeFinish h q cur))).
  rewrite computeFinish_agree.
  destruct (computeFinish_cases h (to_pages q) (to_pages cur))
    as [(e & He & ->) | (Hv & _)];
    [|now apply failing_check_invalid in Hf].
  assert (e = InvalidRate) as ->.
  { destruct e; simpl in Hf, He; split_hyps; congruence. }
  unfold cur. rewrite fetchFinish_cases.
  destruct (rate_of r); repeat split.
Qed.

Lemma compute_before_rate_witness :
  let ok := Body (JObj [(lit "rates",
                         JObj [(lit "IDR", JNum (Number (lit "16234.5")))])]) in
  let q' :=
    Part000.computeFinish jakarta sample
      (Part000.fetchFinish ok (Part000.computeStart sample)) in
  Part000.error q' = msgRate /\ Part000.usdToIdr q' = lit "16234.5".
Proof.
  cbv zeta.
  destruct (compute_before_rate jakarta
              (Body (JObj [(lit "rates",
                            JObj [(lit "IDR", JNum (Number (lit "16234.5")))])]))
              sample)
    as (He & _ & Hr & _); try (vm_compute; reflexivity).
  - constructor.
  - split; [exact He|]. rewrite Hr. vm_compute. reflexivity.
Defined.

(** ** The two files, compared *)



